(** * Amazon Bedrock chat adapters: a shallow embedding and its properties

    The development follows
    [haystack_integrations/components/generators/amazon_bedrock/chat/adapters.py]:
    the base class [BedrockModelChatAdapter] and its three subclasses
    [AnthropicClaudeChatAdapter], [MistralChatAdapter] and
    [MetaLlama2ChatAdapter].

    Python values are embedded as a small JSON-like datatype, dictionaries as
    insertion-ordered association lists, exceptions as an explicit [result]
    type, and the module logger as a list of records returned next to the
    result. *)

From Stdlib Require Import List String Ascii ZArith Bool Lia.
From Stdlib Require Import Sorting.Sorted Sorting.Permutation.
From Stdlib Require Import DecimalString OrderedTypeEx.
Import ListNotations.

Set Warnings "-register-all".

Local Open Scope string_scope.
Local Open Scope Z_scope.
Local Open Scope list_scope.

(* ================================================================= *)
(** ** Python values *)

Module Py.

(** The values that travel through the adapters: what [json.loads] produces
    and what keyword arguments hold.  Floating-point numbers are not
    represented; every character of a [string] stands for one code point
    below 256. *)
Inductive value : Type :=
| VNone
| VBool (b : bool)
| VInt (z : Z)
| VStr (s : string)
| VList (l : list value)
| VDict (d : list (string * value)).

(** A [dict] with string keys, in insertion order. *)
Definition dict : Type := list (string * value).

Inductive exn : Type :=
| KeyError (key : string)
| TypeError
| AttributeError
| TemplateError (message : string)
| UndefinedError
| IndexError
| JSONDecodeError.

Inductive result (A : Type) : Type :=
| Ok (a : A)
| Raise (e : exn).
Arguments Ok {A} a.
Arguments Raise {A} e.

Definition bind {A B} (r : result A) (k : A -> result B) : result B :=
  match r with
  | Ok a => k a
  | Raise e => Raise e
  end.

Notation "x <- c ;; k" := (bind c (fun x => k))
  (at level 61, c at next level, right associativity).

(** [for x in xs: acc.append(f(x))], stopping at the first exception. *)
Fixpoint mapM {A B} (f : A -> result B) (xs : list A) : result (list B) :=
  match xs with
  | [] => Ok []
  | x :: xs' => y <- f x ;; ys <- mapM f xs' ;; Ok (y :: ys)
  end.

(* ----------------------------------------------------------------- *)
(** *** Dictionaries *)

(** [d.get(k)]: [None] stands for Python's [None] default. *)
Fixpoint dict_get (k : string) (d : dict) : option value :=
  match d with
  | [] => None
  | (k', v) :: d' => if String.eqb k k' then Some v else dict_get k d'
  end.

(** [k in d]. *)
Definition dict_mem (k : string) (d : dict) : bool :=
  match dict_get k d with Some _ => true | None => false end.

(** The assignment [d[k] = v]: an existing key keeps its position, a new key
    goes last. *)
Fixpoint dict_set (k : string) (v : value) (d : dict) : dict :=
  match d with
  | [] => [(k, v)]
  | (k', v') :: d' =>
      if String.eqb k k' then (k', v) :: d' else (k', v') :: dict_set k v d'
  end.

(** The dictionary left by [d.pop(k, default)]. *)
Definition dict_remove (k : string) (d : dict) : dict :=
  filter (fun kv => negb (String.eqb k (fst kv))) d.

(** The subscription [d[k]]. *)
Definition dict_item (k : string) (d : dict) : result value :=
  match dict_get k d with
  | Some v => Ok v
  | None => Raise (KeyError k)
  end.

(** [{**a, **b}]. *)
Definition dict_union (a b : dict) : dict :=
  fold_left (fun acc kv => dict_set (fst kv) (snd kv) acc) b a.

Definition keys (d : dict) : list string := map fst d.

(** Python dictionaries never hold a key twice. *)
Definition wf_dict (d : dict) : Prop := NoDup (keys d).

(** [k in names] for a list of strings. *)
Definition str_in (k : string) (names : list string) : bool :=
  existsb (String.eqb k) names.

(* ----------------------------------------------------------------- *)
(** *** Truth value, equality, iteration *)

(** [bool(v)]. *)
Definition truthy (v : value) : bool :=
  match v with
  | VNone => false
  | VBool b => b
  | VInt z => negb (z =? 0)
  | VStr s => negb (String.eqb s "")
  | VList l => match l with [] => false | _ => true end
  | VDict d => match d with [] => false | _ => true end
  end.

(** [x or default]. *)
Definition py_or (x : option value) (default : value) : value :=
  match x with
  | Some v => if truthy v then v else default
  | None => default
  end.

Definition is_list (v : value) : bool :=
  match v with VList _ => true | _ => false end.

(** [bool] is a subclass of [int]: both compare as numbers. *)
Definition num_of (v : value) : option Z :=
  match v with
  | VBool b => Some (Z.b2z b)
  | VInt z => Some z
  | _ => None
  end.

(** [a == b]; dictionaries compare without regard to order. *)
Fixpoint py_eqb (a b : value) : bool :=
  match a, b with
  | VNone, VNone => true
  | VStr s, VStr t => String.eqb s t
  | VList la, VList lb =>
      (fix go (la lb : list value) : bool :=
         match la, lb with
         | [], [] => true
         | x :: la', y :: lb' => py_eqb x y && go la' lb'
         | _, _ => false
         end) la lb
  | VDict da, VDict db =>
      Nat.eqb (List.length da) (List.length db)
      && (fix go (da : list (string * value)) : bool :=
            match da with
            | [] => true
            | (k, v) :: da' =>
                match dict_get k db with
                | Some w => py_eqb v w
                | None => false
                end && go da'
            end) da
  | _, _ =>
      match num_of a, num_of b with
      | Some x, Some y => x =? y
      | _, _ => false
      end
  end.

(** [v == "s"] for a string literal. *)
Definition is_str_lit (v : option value) (s : string) : bool :=
  match v with
  | Some (VStr t) => String.eqb t s
  | _ => false
  end.

(** The items a [for] loop over [v] visits. *)
Definition py_iter (v : value) : result (list value) :=
  match v with
  | VList l => Ok l
  | VStr s => Ok (map (fun c => VStr (String c EmptyString)) (list_ascii_of_string s))
  | VDict d => Ok (map (fun kv => VStr (fst kv)) d)
  | _ => Raise TypeError
  end.

(** [v.get(k)] and [v.items()] exist on dictionaries only. *)
Definition as_dict (v : value) : result dict :=
  match v with
  | VDict d => Ok d
  | _ => Raise AttributeError
  end.

(* ----------------------------------------------------------------- *)
(** *** Strings *)

(** [str.isspace] on one character (code points below 256). *)
Definition isspace (c : ascii) : bool :=
  let n := N_of_ascii c in
  ((9 <=? n) && (n <=? 13) || (28 <=? n) && (n <=? 32)
   || (n =? 133) || (n =? 160))%N.

(** [s.lstrip()]. *)
Fixpoint lstrip (s : string) : string :=
  match s with
  | EmptyString => EmptyString
  | String c s' => if isspace c then lstrip s' else s
  end.

Fixpoint rstrip (s : string) : string :=
  match s with
  | EmptyString => EmptyString
  | String c s' =>
      match rstrip s' with
      | EmptyString => if isspace c then EmptyString else String c EmptyString
      | r => String c r
      end
  end.

(** [s.strip()]. *)
Definition strip (s : string) : string := rstrip (lstrip s).

(** ["".join(parts)] for parts that are all [str]; any other part is a
    [TypeError]. *)
Fixpoint join (parts : list value) : result string :=
  match parts with
  | [] => Ok ""
  | VStr s :: parts' => r <- join parts' ;; Ok (s ++ r)%string
  | _ :: _ => Raise TypeError
  end.

(* ----------------------------------------------------------------- *)
(** *** [set] and [sorted] *)

(** Lists and dictionaries cannot be members of a set. *)
Definition hashable (v : value) : bool :=
  match v with
  | VList _ | VDict _ => false
  | _ => true
  end.

Definition set_add (acc : list value) (x : value) : list value :=
  if existsb (py_eqb x) acc then acc else acc ++ [x].

(** [set(l)]: the first of several equal members is the one kept.  The set
    is listed in insertion order; Python's own order is unspecified and is
    only ever observed through [sorted]. *)
Definition py_set (l : list value) : result (list value) :=
  if forallb hashable l then Ok (fold_left set_add l []) else Raise TypeError.

(** [a < b] is defined between numbers and between strings. *)
Definition py_lt (a b : value) : option bool :=
  match num_of a, num_of b with
  | Some x, Some y => Some (x <? y)
  | _, _ =>
      match a, b with
      | VStr s, VStr t => Some (String.ltb s t)
      | _, _ => None
      end
  end.

Fixpoint sorted_insert (x : value) (l : list value) : result (list value) :=
  match l with
  | [] => Ok [x]
  | y :: l' =>
      match py_lt y x with
      | None => Raise TypeError
      | Some true => r <- sorted_insert x l' ;; Ok (y :: r)
      | Some false => Ok (x :: l)
      end
  end.

(** [sorted(l)]: a stable sort that compares with [<] only and raises
    [TypeError] on the first comparison Python does not define. *)
Fixpoint py_sorted (l : list value) : result (list value) :=
  match l with
  | [] => Ok []
  | x :: l' => r <- py_sorted l' ;; sorted_insert x r
  end.

(* ----------------------------------------------------------------- *)
(** *** [json.dumps] *)

Definition hex_digit (n : N) : ascii :=
  if (n <? 10)%N then ascii_of_N (48 + n) else ascii_of_N (87 + n).

(** One character under [ensure_ascii=True]: the short escapes, then
    [\u00xx] for everything outside the range from space to tilde. *)
Definition json_escape_char (c : ascii) : string :=
  let n := N_of_ascii c in
  if (n =? 34)%N then "\" ++ String c ""
  else if (n =? 92)%N then "\\"
  else if (n =? 10)%N then "\n"
  else if (n =? 13)%N then "\r"
  else if (n =? 9)%N then "\t"
  else if (n =? 8)%N then "\b"
  else if (n =? 12)%N then "\f"
  else if ((n <? 32) || (126 <? n))%N then
    "\u00" ++ String (hex_digit (n / 16)) (String (hex_digit (n mod 16)) "")
  else String c "".

Fixpoint json_escape (s : string) : string :=
  match s with
  | EmptyString => EmptyString
  | String c s' => (json_escape_char c ++ json_escape s')%string
  end.

Definition json_quote (s : string) : string :=
  (String (ascii_of_N 34) (json_escape s) ++ String (ascii_of_N 34) "")%string.

(** [json.dumps(v)] with the default separators. *)
Fixpoint json_dumps (v : value) : string :=
  match v with
  | VNone => "null"
  | VBool true => "true"
  | VBool false => "false"
  | VInt z => NilZero.string_of_int (Z.to_int z)
  | VStr s => json_quote s
  | VList l =>
      ("[" ++ (fix items (l : list value) : string :=
                 match l with
                 | [] => ""
                 | x :: l' =>
                     json_dumps x
                     ++ match l' with [] => "" | _ => ", " ++ items l' end
                 end) l ++ "]")%string
  | VDict d =>
      ("{" ++ (fix items (d : list (string * value)) : string :=
                 match d with
                 | [] => ""
                 | (k, x) :: d' =>
                     json_quote k ++ ": " ++ json_dumps x
                     ++ match d' with [] => "" | _ => ", " ++ items d' end
                 end) d ++ "}")%string
  end.

(** [a + b]. *)
Definition py_add (a b : value) : result value :=
  match a, b with
  | VList la, VList lb => Ok (VList (la ++ lb))
  | VStr s, VStr t => Ok (VStr (s ++ t)%string)
  | _, _ =>
      match num_of a, num_of b with
      | Some x, Some y => Ok (VInt (x + y))
      | _, _ => Raise TypeError
      end
  end.

(** The slice of [l] up to [n]: a negative bound counts from the end. *)
Definition slice_to {A} (n : Z) (l : list A) : list A :=
  if 0 <=? n then firstn (Z.to_nat n) l
  else firstn (Z.to_nat (Z.of_nat (List.length l) + n)) l.

End Py.

(* ================================================================= *)
(** ** The neutral dataclasses ([haystack.dataclasses]) *)

Module Haystack.
Import Py.

Inductive ChatRole : Type := ASSISTANT | USER | SYSTEM | FUNCTION.

(** [role.value]. *)
Definition role_value (r : ChatRole) : string :=
  match r with
  | ASSISTANT => "assistant"
  | USER => "user"
  | SYSTEM => "system"
  | FUNCTION => "function"
  end.

Definition role_eqb (r1 r2 : ChatRole) : bool :=
  match r1, r2 with
  | ASSISTANT, ASSISTANT | USER, USER | SYSTEM, SYSTEM | FUNCTION, FUNCTION => true
  | _, _ => false
  end.

(** A chat message.  [content] is annotated [str]; the messages handed to an
    adapter are taken at that type ([C := string]), while a message an adapter
    builds out of a JSON response carries whatever value the response holds
    ([C := value]), as Python does not check the annotation. *)
Record ChatMessageOf (C : Type) : Type := mkChatMessage {
  content : C;
  role : ChatRole;
  meta : value
}.
Arguments mkChatMessage {C} content role meta.
Arguments content {C} c.
Arguments role {C} c.
Arguments meta {C} c.

Definition ChatMessage : Type := ChatMessageOf string.

Definition is_from {C} (m : ChatMessageOf C) (r : ChatRole) : bool :=
  role_eqb (role m) r.

Definition from_assistant {C} (c : C) (m : value) : ChatMessageOf C :=
  mkChatMessage c ASSISTANT m.
Definition from_user (c : string) : ChatMessage := mkChatMessage c USER (VDict []).
Definition from_system (c : string) : ChatMessage := mkChatMessage c SYSTEM (VDict []).

Record StreamingChunk : Type := mkStreamingChunk {
  chunk_content : value;
  chunk_meta : value
}.

End Haystack.

(* ================================================================= *)
(** ** The adapters *)

Module Adapters.
Import Py Haystack.

(** A record handed to [logger.warning]: the message and its lazy arguments. *)
Record LogRecord : Type := mkLog {
  log_msg : string;
  log_args : list value
}.

(** A call that may raise and that may log on its way. *)
Definition logged (A : Type) : Type := (result A * list LogRecord)%type.

Definition lret {A} (a : A) : logged A := (Ok a, []).

Definition lbind {A B} (c : logged A) (k : A -> logged B) : logged B :=
  match c with
  | (Ok a, log) => let (r, log') := k a in (r, log ++ log')
  | (Raise e, log) => (Raise e, log)
  end.

Definition lift {A} (r : result A) : logged A := (r, []).

Notation "x <~ c ;; k" := (lbind c (fun x => k))
  (at level 61, c at next level, right associativity).

(** [logger.warning(...)]. *)
Definition logger_warning (records : list LogRecord) : logged unit :=
  (Ok tt, records).

(** The tokenizer capability the prompt handler is built on. *)
Record Tokenizer : Type := mkTokenizer {
  encode : string -> list Z;
  decode : list Z -> string;
  bos_token : string;
  eos_token : string
}.

(** The state of a [DefaultPromptHandler]. *)
Record PromptHandler : Type := mkPromptHandler {
  tokenizer : Tokenizer;
  model_max_length : Z;
  max_length : Z
}.

(** The dictionary a prompt handler returns. *)
Record ResizeInfo : Type := mkResizeInfo {
  resized_prompt : string;
  prompt_length : Z;
  new_prompt_length : Z;
  info_model_max_length : Z;
  info_max_length : Z
}.

(** Modelled from the spec: [DefaultPromptHandler.__call__] of [handlers.py],
    which every [check_prompt] delegates to and which is not among the
    sources.  The spec: encode the prompt, compute
    [new_prompt_length = min(prompt_length, model_max_length - max_length)],
    truncate the id sequence to that length if shorter, decode back; if no
    truncation is needed the resized prompt is the prompt. *)
Definition DefaultPromptHandler_call (h : PromptHandler) (prompt : string)
  : ResizeInfo :=
  let ids := encode (tokenizer h) prompt in
  let n := Z.of_nat (List.length ids) in
  let n' := Z.min n (model_max_length h - max_length h) in
  {| resized_prompt :=
       if n' <? n then decode (tokenizer h) (slice_to n' ids) else prompt;
     prompt_length := n;
     new_prompt_length := n';
     info_model_max_length := model_max_length h;
     info_max_length := max_length h |}.

Inductive Family : Type := AnthropicClaude | Mistral | MetaLlama2.

(** An adapter after [__init__]. *)
Record Adapter : Type := mkAdapter {
  family : Family;
  truncate : bool;
  generation_kwargs : dict;
  prompt_handler : PromptHandler
}.

Definition ALLOWED_PARAMS (f : Family) : list string :=
  match f with
  | AnthropicClaude =>
      ["anthropic_version"; "max_tokens"; "stop_sequences"; "temperature";
       "top_p"; "top_k"; "system"; "tools"; "tool_choice"]
  | Mistral => ["max_tokens"; "safe_prompt"; "random_seed"; "temperature"; "top_p"]
  | MetaLlama2 => ["max_gen_len"; "temperature"; "top_p"]
  end.

Definition default_model_max_length (f : Family) : Z :=
  match f with
  | AnthropicClaude => 100000
  | Mistral => 32000
  | MetaLlama2 => 4096
  end.

(** The keyword that reserves the generation budget. *)
Definition max_length_key (f : Family) : string :=
  match f with
  | AnthropicClaude | Mistral => "max_tokens"
  | MetaLlama2 => "max_gen_len"
  end.

(** A length read from the configuration; the handler takes integers. *)
Definition int_config (v : value) : option Z :=
  match v with
  | VInt z => Some z
  | _ => None
  end.

(** [__init__]: pops [model_max_length] from the generation kwargs and
    builds the prompt handler.  [None] when a configured length is not an
    integer.  The Meta Llama 2 adapter fixes the tokenizer's special tokens. *)
Definition init (f : Family) (tok : Tokenizer) (truncate : bool)
    (generation_kwargs : dict) : option Adapter :=
  let mml :=
    match dict_get "model_max_length" generation_kwargs with
    | Some v => v
    | None => VInt (default_model_max_length f)
    end in
  let kwargs := dict_remove "model_max_length" generation_kwargs in
  let tok' :=
    match f with
    | MetaLlama2 => mkTokenizer (encode tok) (decode tok) "<s>" "</s>"
    | _ => tok
    end in
  match int_config mml,
        int_config (py_or (dict_get (max_length_key f) kwargs) (VInt 512)) with
  | Some a, Some b => Some (mkAdapter f truncate kwargs (mkPromptHandler tok' a b))
  | _, _ => None
  end.

(* ----------------------------------------------------------------- *)
(** *** Parameter merging *)

Definition not_allowed_warning (key : string) : LogRecord :=
  mkLog ("Parameter '" ++ key ++ "' is not allowed and will be ignored.") [].

(** [_update_params]: the loop over [updates_dict.items()], with the target
    dictionary passed along. *)
Fixpoint _update_params (target_dict updates_dict : dict)
    (allowed_params : list string) : logged dict :=
  match updates_dict with
  | [] => lret target_dict
  | (key, value) :: rest =>
      if negb (str_in key allowed_params) then
        _ <~ logger_warning [not_allowed_warning key] ;;
        _update_params target_dict rest allowed_params
      else
        match dict_get key target_dict, value with
        | Some (VList old), VList new =>
            merged <~ lift (s <- py_set (old ++ new) ;; py_sorted s) ;;
            _update_params (dict_set key (VList merged) target_dict) rest
              allowed_params
        | _, _ =>
            _update_params (dict_set key value target_dict) rest allowed_params
        end
  end.

Definition _get_params (self : Adapter) (inference_kwargs default_params : dict)
    (allowed_params : list string) : logged dict :=
  let kwargs := default_params in
  kwargs <~ _update_params kwargs (generation_kwargs self) allowed_params ;;
  _update_params kwargs inference_kwargs allowed_params.

(* ----------------------------------------------------------------- *)
(** *** Token limit *)

Section WithPromptHandler.

(** [self.prompt_handler(prompt)].  The handler class lives in [handlers.py];
    the adapters are written against its call. *)
Variable call : PromptHandler -> string -> ResizeInfo.

Definition check_prompt (self : Adapter) (prompt : string) : ResizeInfo :=
  call (prompt_handler self) prompt.

Definition truncation_warning (resize_info : ResizeInfo) : LogRecord :=
  mkLog
    ("The prompt was truncated from %s tokens to %s tokens so that the prompt length and "
     ++ "the answer length (%s tokens) fit within the model's max token limit (%s tokens). "
     ++ "Shorten the prompt or it will be cut off.")
    [VInt (prompt_length resize_info);
     VInt (Z.max 0 (info_model_max_length resize_info - info_max_length resize_info));
     VInt (info_max_length resize_info);
     VInt (info_model_max_length resize_info)].

Definition _ensure_token_limit (self : Adapter) (prompt : string)
  : logged string :=
  let resize_info := check_prompt self prompt in
  _ <~ logger_warning
         (if negb (prompt_length resize_info =? new_prompt_length resize_info)
          then [truncation_warning resize_info] else []) ;;
  lret (resized_prompt resize_info).

(** [for x in xs] around a logging call. *)
Fixpoint lmapM {A B} (f : A -> logged B) (xs : list A) : logged (list B) :=
  match xs with
  | [] => lret []
  | x :: xs' => y <~ f x ;; ys <~ lmapM f xs' ;; lret (y :: ys)
  end.

(* ----------------------------------------------------------------- *)
(** *** Anthropic Claude: request *)

Definition _to_anthropic_message (m : ChatMessage) : value :=
  VDict [("content", VList [VDict [("type", VStr "text"); ("text", VStr (content m))]]);
         ("role", VStr (role_value (role m)))].

(** The message [m] with another text. *)
Definition with_content (m : ChatMessage) (text : string) : ChatMessage :=
  mkChatMessage text (role m) (meta m).

Definition user_or_assistant (m : ChatMessage) : bool :=
  is_from m USER || is_from m ASSISTANT.

(** [AnthropicClaudeChatAdapter.prepare_chat_messages].  Every entry of the
    [messages] array has the one content block [_to_anthropic_message] gave
    it, so the truncation loop rewrites exactly that block's text, message
    by message. *)
Definition anthropic_prepare_chat_messages (self : Adapter)
    (messages : list ChatMessage) : logged dict :=
  let system :=
    match messages with
    | m :: _ => if is_from m SYSTEM then Some (content m) else None
    | [] => None
    end in
  let kept := filter user_or_assistant messages in
  let body := [("messages", VList (map _to_anthropic_message kept))] in
  let body :=
    match system with
    | Some s => if truthy (VStr s) then dict_set "system" (VStr s) body else body
    | None => body
    end in
  if truncate self then
    msgs <~ lmapM (fun m => text <~ _ensure_token_limit self (content m) ;;
                            lret (_to_anthropic_message (with_content m text)))
                  kept ;;
    lret (dict_set "messages" (VList msgs) body)
  else lret body.

Definition get_default (k : string) (d : dict) (default : value) : value :=
  match dict_get k d with
  | Some v => v
  | None => default
  end.

Definition anthropic_default_params (self : Adapter) : dict :=
  [("anthropic_version",
    py_or (dict_get "anthropic_version" (generation_kwargs self))
          (VStr "bedrock-2023-05-31"));
   ("max_tokens", py_or (dict_get "max_tokens" (generation_kwargs self)) (VInt 512))].

(** What [prepare_body] makes of the inference kwargs before the merge:
    stop words join the stop sequences, [stream] is dropped. *)
Definition anthropic_inference_kwargs (inference_kwargs : dict) : result dict :=
  stop_sequences <-
    py_add (get_default "stop_sequences" inference_kwargs (VList []))
           (get_default "stop_words" inference_kwargs (VList [])) ;;
  let kw := dict_remove "stop_words" inference_kwargs in
  let kw := if truthy stop_sequences
            then dict_set "stop_sequences" stop_sequences kw else kw in
  Ok (dict_remove "stream" kw).

Definition anthropic_prepare_body (self : Adapter) (messages : list ChatMessage)
    (inference_kwargs : dict) : logged dict :=
  let default_params := anthropic_default_params self in
  kw <~ lift (anthropic_inference_kwargs inference_kwargs) ;;
  params <~ _get_params self kw default_params (ALLOWED_PARAMS AnthropicClaude) ;;
  chat <~ anthropic_prepare_chat_messages self messages ;;
  lret (dict_union chat params).

(* ----------------------------------------------------------------- *)
(** *** Mistral and Meta Llama 2: chat templates and request *)

Definition newline : string := String (ascii_of_N 10) "".

Definition alternation_error : exn :=
  TemplateError "Conversation roles must alternate user/assistant/user/assistant/...".

(** A conversation entry as the template reads it: the role and the content
    of the message. *)
Definition openai_format (m : ChatMessage) : string * string :=
  (role_value (role m), content m).

(** The [for message in loop_messages] block of [MistralChatAdapter.chat_template].
    The class body joins the stripped lines of the template, which cuts the
    newline inside ['\n'] out of the string literal: the system message and
    the first content are joined by the empty string. *)
Fixpoint mistral_loop (eos_token : string) (system_message : option string)
    (index0 : nat) (loop_messages : list (string * string)) : result string :=
  match loop_messages with
  | [] => Ok ""
  | (r, c) :: rest =>
      if xorb (String.eqb r "user") (Nat.even index0) then Raise alternation_error
      else
        let content :=
          match index0, system_message with
          | O, Some system => (system ++ "" ++ c)%string
          | _, _ => c
          end in
        let out :=
          if String.eqb r "user" then ("[INST] " ++ strip content ++ " [/INST]")%string
          else if String.eqb r "assistant" then (strip content ++ eos_token)%string
          else "" in
        tail <- mistral_loop eos_token system_message (S index0) rest ;;
        Ok (out ++ tail)%string
  end.

(** The template's head: a leading system message is taken off the loop.
    The first message of an empty conversation is undefined. *)
Definition split_system (messages : list (string * string))
  : result (list (string * string) * option string) :=
  match messages with
  | [] => Raise UndefinedError
  | (r, c) :: rest =>
      if String.eqb r "system" then Ok (rest, Some c) else Ok (messages, None)
  end.

Definition mistral_chat_template (tok : Tokenizer)
    (messages : list (string * string)) : result string :=
  p <- split_system messages ;;
  body <- mistral_loop (eos_token tok) (snd p) 0 (fst p) ;;
  Ok (bos_token tok ++ body)%string.

(** The loop of [MetaLlama2ChatAdapter.chat_template]. *)
Fixpoint llama2_loop (bos_token eos_token : string) (system_message : option string)
    (index0 : nat) (loop_messages : list (string * string)) : result string :=
  match loop_messages with
  | [] => Ok ""
  | (r, c) :: rest =>
      if xorb (String.eqb r "user") (Nat.even index0) then Raise alternation_error
      else
        let content :=
          match index0, system_message with
          | O, Some system =>
              ("<<SYS>>" ++ newline ++ system ++ newline ++ "<</SYS>>"
               ++ newline ++ newline ++ c)%string
          | _, _ => c
          end in
        let out :=
          if String.eqb r "user"
          then (bos_token ++ "[INST] " ++ strip content ++ " [/INST]")%string
          else if String.eqb r "assistant"
          then (" " ++ strip content ++ " " ++ eos_token)%string
          else "" in
        tail <- llama2_loop bos_token eos_token system_message (S index0) rest ;;
        Ok (out ++ tail)%string
  end.

Definition llama2_chat_template (tok : Tokenizer)
    (messages : list (string * string)) : result string :=
  p <- split_system messages ;;
  llama2_loop (bos_token tok) (eos_token tok) (snd p) 0 (fst p).

(** [tokenizer.apply_chat_template(conversation, tokenize=False, chat_template)].
    Before it renders the template the tokenizer looks at the first entry of
    the conversation, so an empty conversation raises [IndexError] there. *)
Definition apply_chat_template (self : Adapter) (messages : list ChatMessage)
  : result string :=
  let tok := tokenizer (prompt_handler self) in
  match messages with
  | [] => Raise IndexError
  | _ :: _ =>
      match family self with
      | MetaLlama2 => llama2_chat_template tok (map openai_format messages)
      | _ => mistral_chat_template tok (map openai_format messages)
      end
  end.

(** [prepare_chat_messages] of the two templated adapters. *)
Definition templated_prepare_chat_messages (self : Adapter)
    (messages : list ChatMessage) : logged string :=
  prepared_prompt <~ lift (apply_chat_template self messages) ;;
  if truncate self then _ensure_token_limit self prepared_prompt
  else lret prepared_prompt.

Definition mistral_inference_kwargs (inference_kwargs : dict) : dict :=
  let stop_words := get_default "stop_words" inference_kwargs (VList []) in
  let kw := dict_remove "stop_words" inference_kwargs in
  let kw := if truthy stop_words then dict_set "stop" stop_words kw else kw in
  dict_remove "stream" kw.

Definition mistral_default_params (self : Adapter) : dict :=
  [("max_tokens", py_or (dict_get "max_tokens" (generation_kwargs self)) (VInt 512))].

Definition llama2_default_params (self : Adapter) : dict :=
  [("max_gen_len", py_or (dict_get "max_gen_len" (generation_kwargs self)) (VInt 512))].

Definition mistral_prepare_body (self : Adapter) (messages : list ChatMessage)
    (inference_kwargs : dict) : logged dict :=
  let default_params := mistral_default_params self in
  let kw := mistral_inference_kwargs inference_kwargs in
  params <~ _get_params self kw default_params (ALLOWED_PARAMS Mistral) ;;
  prompt <~ templated_prepare_chat_messages self messages ;;
  lret (dict_union [("prompt", VStr prompt)] params).

Definition llama2_prepare_body (self : Adapter) (messages : list ChatMessage)
    (inference_kwargs : dict) : logged dict :=
  let default_params := llama2_default_params self in
  params <~ _get_params self inference_kwargs default_params (ALLOWED_PARAMS MetaLlama2) ;;
  prompt <~ templated_prepare_chat_messages self messages ;;
  lret (dict_union [("prompt", VStr prompt)] params).

(** [prepare_body], dispatched on the adapter's class. *)
Definition prepare_body (self : Adapter) (messages : list ChatMessage)
    (inference_kwargs : dict) : logged dict :=
  match family self with
  | AnthropicClaude => anthropic_prepare_body self messages inference_kwargs
  | Mistral => mistral_prepare_body self messages inference_kwargs
  | MetaLlama2 => llama2_prepare_body self messages inference_kwargs
  end.

End WithPromptHandler.

(* ----------------------------------------------------------------- *)
(** *** Responses *)

(** The dictionary comprehension [{k: v for k, v in d.items() if k not in names}]. *)
Definition without_keys (names : list string) (d : dict) : dict :=
  filter (fun kv => negb (str_in (fst kv) names)) d.

(** A loop that appends at most one message per item. *)
Fixpoint collect {A B} (f : A -> result (option B)) (xs : list A)
  : result (list B) :=
  match xs with
  | [] => Ok []
  | x :: xs' =>
      o <- f x ;;
      ys <- collect f xs' ;;
      Ok (match o with Some y => y :: ys | None => ys end)
  end.

Definition anthropic_meta (response_body : dict) : value :=
  VDict (without_keys ["type"; "content"; "role"] response_body).

(** The body of the [tool_use] loop. *)
Definition tool_use_message (response_body : dict) (content : value)
  : result (option (ChatMessageOf value)) :=
  d <- as_dict content ;;
  if is_str_lit (dict_get "type" d) "tool_use" then
    let meta := anthropic_meta response_body in
    let json_answer := json_dumps content in
    Ok (Some (from_assistant (VStr json_answer) meta))
  else Ok None.

(** The body of the text loop. *)
Definition text_message (response_body : dict) (content : value)
  : result (option (ChatMessageOf value)) :=
  d <- as_dict content ;;
  if is_str_lit (dict_get "type" d) "text" then
    let meta := anthropic_meta response_body in
    text <- dict_item "text" d ;;
    Ok (Some (from_assistant text meta))
  else Ok None.

Definition anthropic_extract_messages_from_response (response_body : dict)
  : result (list (ChatMessageOf value)) :=
  if is_str_lit (dict_get "type" response_body) "message" then
    if is_str_lit (dict_get "stop_reason" response_body) "tool_use" then
      content <- dict_item "content" response_body ;;
      blocks <- py_iter content ;;
      collect (tool_use_message response_body) blocks
    else
      content <- dict_item "content" response_body ;;
      blocks <- py_iter content ;;
      collect (text_message response_body) blocks
  else Ok [].

Definition mistral_extract_messages_from_response (response_body : dict)
  : result (list (ChatMessageOf value)) :=
  responses <- py_iter (get_default "outputs" response_body (VList [])) ;;
  mapM (fun response =>
          d <- as_dict response ;;
          let meta := VDict (without_keys ["text"] d) in
          text <- dict_item "text" d ;;
          Ok (from_assistant text meta)) responses.

Definition llama2_extract_messages_from_response (response_body : dict)
  : result (list (ChatMessageOf value)) :=
  let message_tag := "generation" in
  let metadata := VDict (without_keys [message_tag] response_body) in
  generation <- dict_item message_tag response_body ;;
  Ok [from_assistant generation metadata].

Definition _extract_messages_from_response (f : Family) (response_body : dict)
  : result (list (ChatMessageOf value)) :=
  match f with
  | AnthropicClaude => anthropic_extract_messages_from_response response_body
  | Mistral => mistral_extract_messages_from_response response_body
  | MetaLlama2 => llama2_extract_messages_from_response response_body
  end.

Definition get_responses (f : Family) (response_body : dict)
  : result (list (ChatMessageOf value)) :=
  _extract_messages_from_response f response_body.

(* ----------------------------------------------------------------- *)
(** *** Streaming *)

Definition anthropic_build_streaming_chunk (chunk : value) : result StreamingChunk :=
  d <- as_dict chunk ;;
  if is_str_lit (dict_get "type" d) "content_block_delta" then
    delta <- as_dict (get_default "delta" d (VDict [])) ;;
    if is_str_lit (dict_get "type" delta) "text_delta" then
      Ok (mkStreamingChunk (get_default "text" delta (VStr "")) chunk)
    else Ok (mkStreamingChunk (VStr "") chunk)
  else Ok (mkStreamingChunk (VStr "") chunk).

(** The [text] of the first item of a truthy [response_chunk] (so not of an
    empty list): the first item of a list; a character of a string has no
    [get]; a dictionary has no key [0]; numbers cannot be subscripted. *)
Definition first_output_text (response_chunk : value) : result value :=
  match response_chunk with
  | VList (first :: _) => d <- as_dict first ;; Ok (get_default "text" d (VStr ""))
  | VStr _ => Raise AttributeError
  | VDict _ => Raise (KeyError "0")
  | _ => Raise TypeError
  end.

Definition mistral_build_streaming_chunk (chunk : value) : result StreamingChunk :=
  d <- as_dict chunk ;;
  let response_chunk := get_default "outputs" d (VList []) in
  if truthy response_chunk then
    text <- first_output_text response_chunk ;;
    Ok (mkStreamingChunk text chunk)
  else Ok (mkStreamingChunk (VStr "") chunk).

Definition llama2_build_streaming_chunk (chunk : value) : result StreamingChunk :=
  d <- as_dict chunk ;;
  Ok (mkStreamingChunk (get_default "generation" d (VStr "")) chunk).

Definition _build_streaming_chunk (f : Family) (chunk : value) : result StreamingChunk :=
  match f with
  | AnthropicClaude => anthropic_build_streaming_chunk chunk
  | Mistral => mistral_build_streaming_chunk chunk
  | MetaLlama2 => llama2_build_streaming_chunk chunk
  end.

(** An event of the stream: [event.get("chunk")] is either missing (or
    empty), or carries the raw [bytes] of a payload. *)
Record Event (B : Type) : Type := mkEvent {
  chunk : option B
}.
Arguments mkEvent {B} chunk.
Arguments chunk {B} e.

Section Streaming.

(** The raw payload and its decoding,
    [json.loads] of the chunk's [bytes] decoded as UTF-8. *)
Variable B : Type.
Variable loads : B -> result value.

(** The streaming callback acts on a state of the caller's. *)
Variable S : Type.
Variable streaming_callback : StreamingChunk -> S -> S.

(** The [for event in stream] loop: the chunks gathered so far, the last
    decoded payload and the caller's state are passed along. *)
Fixpoint stream_loop (f : Family) (stream : list (Event B))
    (streaming_chunks : list StreamingChunk) (last_decoded_chunk : value)
    (st : S) : result (list StreamingChunk * value) * S :=
  match stream with
  | [] => (Ok (streaming_chunks, last_decoded_chunk), st)
  | event :: rest =>
      match chunk event with
      | None => stream_loop f rest streaming_chunks last_decoded_chunk st
      | Some bytes =>
          match loads bytes with
          | Raise e => (Raise e, st)
          | Ok decoded =>
              match _build_streaming_chunk f decoded with
              | Raise e => (Raise e, st)
              | Ok streaming_chunk =>
                  stream_loop f rest (streaming_chunks ++ [streaming_chunk])
                    decoded (streaming_callback streaming_chunk st)
              end
          end
      end
  end.

Definition get_stream_responses (f : Family) (stream : list (Event B)) (st : S)
  : result (list ChatMessage) * S :=
  match stream_loop f stream [] (VDict []) st with
  | (Ok (streaming_chunks, last_decoded_chunk), st') =>
      (response <- join (map chunk_content streaming_chunks) ;;
       Ok [from_assistant (lstrip response) last_decoded_chunk], st')
  | (Raise e, st') => (Raise e, st')
  end.

End Streaming.

(* ----------------------------------------------------------------- *)
(** *** Vocabulary of the statements *)

(** The payloads of a stream, in arrival order. *)
Definition payloads {B} (stream : list (Event B)) : list B :=
  flat_map (fun e => match chunk e with Some b => [b] | None => [] end) stream.

(** What one payload gives: the decoded JSON, the chunk built from it and
    the chunk's text. *)
Record Fragment : Type := mkFragment {
  decoded : value;
  built : StreamingChunk;
  text : string
}.

(** A payload that decodes and builds a chunk with a text content. *)
Definition chunk_of {B} (loads : B -> result value) (f : Family) (b : B)
  : result Fragment :=
  d <- loads b ;;
  c <- _build_streaming_chunk f d ;;
  match chunk_content c with
  | VStr t => Ok (mkFragment d c t)
  | _ => Raise TypeError
  end.

(** The callback run over a sequence of chunks, first to last. *)
Definition run_callback {S} (streaming_callback : StreamingChunk -> S -> S)
    (chunks : list StreamingChunk) (st : S) : S :=
  fold_left (fun s c => streaming_callback c s) chunks st.

(** A callback that records what it is called with. *)
Definition recording_callback (c : StreamingChunk) (seen : list StreamingChunk)
  : list StreamingChunk :=
  seen ++ [c].

(** A tokenizer with one token per character. *)
Definition char_tokenizer : Tokenizer :=
  mkTokenizer
    (fun s => map (fun c => Z.of_N (N_of_ascii c)) (list_ascii_of_string s))
    (fun l => string_of_list_ascii (map (fun z => ascii_of_N (Z.to_N z)) l))
    "<s>" "</s>".

(** Leading whitespace taken off the first text only, then the concatenation. *)
Definition strip_first_only (texts : list string) : string :=
  match texts with
  | [] => ""
  | t :: ts => (lstrip t ++ String.concat "" ts)%string
  end.

(** Strict alternation user, assistant, user, ... *)
Fixpoint alternates (expect_user : bool) (messages : list ChatMessage) : bool :=
  match messages with
  | [] => true
  | m :: rest =>
      role_eqb (role m) (if expect_user then USER else ASSISTANT)
      && alternates (negb expect_user) rest
  end.

(** The messages after an optional leading system message. *)
Definition after_system (messages : list ChatMessage) : list ChatMessage :=
  match messages with
  | m :: rest => if is_from m SYSTEM then rest else messages
  | [] => []
  end.

Definition strict_alternation (messages : list ChatMessage) : bool :=
  alternates true (after_system messages).

(** What the templates test: user messages at the even positions and only
    there. *)
Fixpoint user_parity (expect_user : bool) (messages : list ChatMessage) : bool :=
  match messages with
  | [] => true
  | m :: rest =>
      Bool.eqb (is_from m USER) expect_user && user_parity (negb expect_user) rest
  end.

Definition is_str (v : value) : bool :=
  match v with VStr _ => true | _ => false end.

Definition str_of (v : value) : string :=
  match v with VStr s => s | _ => "" end.

(** Insertion sort of strings by code point. *)
Fixpoint str_insert (x : string) (l : list string) : list string :=
  match l with
  | [] => [x]
  | y :: l' => if String.ltb y x then y :: str_insert x l' else x :: l
  end.

Definition str_sort (l : list string) : list string :=
  fold_right str_insert [] l.


(** The warnings for the keys of the updates that are not allowed. *)
Definition dropped_warnings (updates : dict) (allowed : list string)
  : list LogRecord :=
  map not_allowed_warning
      (filter (fun k => negb (str_in k allowed)) (keys updates)).

(** [set] on strings: the members in order of first appearance. *)
Definition str_set_add (acc : list string) (x : string) : list string :=
  if str_in x acc then acc else acc ++ [x].

Definition str_dedup (l : list string) : list string :=
  fold_left str_set_add l [].

(** Strictly increasing by code points: sorted and free of duplicates. *)
Definition strictly_sorted (l : list string) : Prop :=
  StronglySorted (fun a b => String.ltb a b = true) l.

(** What [_update_params] stores at an allowed key: the sorted set of both
    lists when the target holds a list and the update is a list, the update
    otherwise. *)
Definition merge_value (current : option value) (v : value) : result value :=
  match current, v with
  | Some (VList old), VList new =>
      merged <- (s <- py_set (old ++ new) ;; py_sorted s) ;; Ok (VList merged)
  | _, _ => Ok v
  end.

(** The parameter merge [prepare_body] performs before it formats the
    messages. *)
Definition merged_params (self : Adapter) (inference_kwargs : dict) : logged dict :=
  match family self with
  | AnthropicClaude =>
      kw <~ lift (anthropic_inference_kwargs inference_kwargs) ;;
      _get_params self kw (anthropic_default_params self)
        (ALLOWED_PARAMS AnthropicClaude)
  | Mistral =>
      _get_params self (mistral_inference_kwargs inference_kwargs)
        (mistral_default_params self) (ALLOWED_PARAMS Mistral)
  | MetaLlama2 =>
      _get_params self inference_kwargs (llama2_default_params self)
        (ALLOWED_PARAMS MetaLlama2)
  end.

(** A content block of the given [type]. *)
Definition block_type_is (t : string) (block : value) : bool :=
  match block with
  | VDict d => is_str_lit (dict_get "type" d) t
  | _ => false
  end.

Definition is_dict (v : value) : bool :=
  match v with VDict _ => true | _ => false end.

(** A content block the text loop can read: a dictionary that has a [text]
    when its [type] is ["text"]. *)
Definition readable_block (block : value) : bool :=
  match block with
  | VDict d =>
      if is_str_lit (dict_get "type" d) "text" then dict_mem "text" d else true
  | _ => false
  end.

Definition block_text (block : value) : value :=
  match block with
  | VDict d => get_default "text" d VNone
  | _ => VNone
  end.

(* ----------------------------------------------------------------- *)
(** *** Vocabulary of the further properties *)

(** A payload that decodes and builds a chunk, whatever its content. *)
Definition built_of {B} (loads : B -> result value) (f : Family) (b : B)
  : result (value * StreamingChunk) :=
  d <- loads b ;;
  c <- _build_streaming_chunk f d ;;
  Ok (d, c).

(** An event that carries the payload [b]. *)
Definition payload_event {B} (b : B) : Event B := mkEvent (Some b).

Definition starts_with_space (s : string) : bool :=
  match s with
  | String c _ => isspace c
  | EmptyString => false
  end.

(** An entry of [outputs] that is a dictionary with a [text]. *)
Definition has_text (entry : value) : bool :=
  match entry with
  | VDict d => dict_mem "text" d
  | _ => false
  end.

(** The message the Mistral adapter makes of such an entry. *)
Definition output_message (entry : value) : ChatMessageOf value :=
  match entry with
  | VDict d =>
      from_assistant (get_default "text" d VNone) (VDict (without_keys ["text"] d))
  | _ => from_assistant VNone VNone
  end.

(** What a template prints for one message that passes its role test. *)
Definition rendered_turn (self : Adapter) (content : string) (m : ChatMessage)
  : string :=
  let tok := tokenizer (prompt_handler self) in
  match family self with
  | MetaLlama2 =>
      if is_from m USER
      then (bos_token tok ++ "[INST] " ++ strip content ++ " [/INST]")%string
      else if is_from m ASSISTANT
      then (" " ++ strip content ++ " " ++ eos_token tok)%string
      else ""
  | _ =>
      if is_from m USER then ("[INST] " ++ strip content ++ " [/INST]")%string
      else if is_from m ASSISTANT then (strip content ++ eos_token tok)%string
      else ""
  end.

(** The first content after a leading system message, as the template
    composes it. *)
Definition with_system (self : Adapter) (system content : string) : string :=
  match family self with
  | MetaLlama2 =>
      ("<<SYS>>" ++ newline ++ system ++ newline ++ "<</SYS>>"
       ++ newline ++ newline ++ content)%string
  | _ => (system ++ "" ++ content)%string
  end.

(** What a template prints ahead of the turns. *)
Definition prompt_head (self : Adapter) : string :=
  match family self with
  | MetaLlama2 => ""
  | _ => bos_token (tokenizer (prompt_handler self))
  end.

(** The keys a request body has besides the merged parameters. *)
Definition message_keys (f : Family) : list string :=
  match f with
  | AnthropicClaude => ["messages"; "system"]
  | _ => ["prompt"]
  end.

(** The key under which the messages always appear. *)
Definition message_key (f : Family) : string :=
  match f with
  | AnthropicClaude => "messages"
  | _ => "prompt"
  end.

(** The warning [_ensure_token_limit] logs for a resize result, if any. *)
Definition truncation_log (resize_info : ResizeInfo) : list LogRecord :=
  if prompt_length resize_info =? new_prompt_length resize_info then []
  else [truncation_warning resize_info].

End Adapters.

(* ================================================================= *)
(** ** Properties *)

Import Py Haystack Adapters.

(* ----------------------------------------------------------------- *)
(** *** Dictionaries and lists *)

Lemma str_in_In (k : string) (names : list string) :
  str_in k names = true <-> In k names.
Proof.
  unfold str_in. rewrite existsb_exists. split.
  - intros [x [Hx Heq]]. apply String.eqb_eq in Heq. now subst.
  - intros H. exists k. split; [assumption | apply String.eqb_refl].
Qed.

Lemma str_in_not_In (k : string) (names : list string) :
  str_in k names = false <-> ~ In k names.
Proof.
  rewrite <- str_in_In. destruct (str_in k names); split; congruence.
Qed.

Lemma dict_get_In_keys (k : string) (d : dict) (v : value) :
  dict_get k d = Some v -> In k (keys d).
Proof.
  induction d as [|[k' v'] d IH]; simpl; [discriminate|].
  destruct (String.eqb_spec k k') as [->|Hne]; intros H.
  - now left.
  - right. now apply IH.
Qed.

Lemma dict_get_None_keys (k : string) (d : dict) :
  dict_get k d = None <-> ~ In k (keys d).
Proof.
  induction d as [|[k' v'] d IH]; simpl.
  - tauto.
  - destruct (String.eqb_spec k k') as [->|Hne].
    + split; [discriminate | intros H; exfalso; apply H; now left].
    + rewrite IH. split; intros H; [intros [E|E]; [congruence | tauto] | tauto].
Qed.

Lemma dict_get_set_same (k : string) (v : value) (d : dict) :
  dict_get k (dict_set k v d) = Some v.
Proof.
  induction d as [|[k' v'] d IH]; simpl.
  - now rewrite String.eqb_refl.
  - destruct (String.eqb_spec k k') as [->|Hne]; simpl.
    + now rewrite String.eqb_refl.
    + destruct (String.eqb_spec k k'); [congruence | exact IH].
Qed.

Lemma dict_get_set_other (k k' : string) (v : value) (d : dict) :
  k <> k' -> dict_get k (dict_set k' v d) = dict_get k d.
Proof.
  intros Hne. induction d as [|[k0 v0] d IH]; simpl.
  - destruct (String.eqb_spec k k'); [congruence | reflexivity].
  - destruct (String.eqb_spec k' k0) as [->|Hne0]; simpl.
    + destruct (String.eqb_spec k k0); [congruence | reflexivity].
    + destruct (String.eqb_spec k k0); [reflexivity | exact IH].
Qed.

Lemma keys_dict_set (k k' : string) (v : value) (d : dict) :
  In k (keys (dict_set k' v d)) <-> k = k' \/ In k (keys d).
Proof.
  induction d as [|[k0 v0] d IH]; simpl.
  - intuition congruence.
  - destruct (String.eqb_spec k' k0) as [->|Hne0]; simpl.
    + intuition congruence.
    + rewrite IH. intuition congruence.
Qed.

Lemma dict_get_without_keys (names : list string) (k : string) (d : dict) :
  dict_get k (without_keys names d)
  = if str_in k names then None else dict_get k d.
Proof.
  induction d as [|[k' v'] d IH]; simpl.
  - now destruct (str_in k names).
  - destruct (str_in k' names) eqn:Hin'; simpl.
    + destruct (String.eqb_spec k k') as [->|Hne].
      * now rewrite IH, Hin'.
      * exact IH.
    + destruct (String.eqb_spec k k') as [->|Hne].
      * now rewrite Hin'.
      * exact IH.
Qed.

(* ----------------------------------------------------------------- *)
(** *** Responses *)

(** C1, counterexample: on the empty response body the Meta Llama 2 adapter
    subscripts the response body with ["generation"] and raises [KeyError]; no list,
    empty or not, is returned. *)
Lemma get_responses_llama2_empty_body_raises :
  get_responses MetaLlama2 [] = Raise (KeyError "generation")
  /\ ~ (exists l, get_responses MetaLlama2 [] = Ok l).
Proof.
  split; [reflexivity|]. intros [l H]. discriminate H.
Qed.

(** C1, as amended: a response whose [type] is not ["message"] gives the
    Anthropic adapter the empty list, and a response without [outputs], or
    with empty [outputs], gives the Mistral adapter the empty list, neither
    raising.  The Meta Llama 2 adapter returns exactly one message when
    [generation] is present and raises [KeyError] when it is absent. *)
Theorem get_responses_degenerate (response_body : dict) :
  (is_str_lit (dict_get "type" response_body) "message" = false ->
   get_responses AnthropicClaude response_body = Ok [])
  /\ (dict_get "outputs" response_body = None
      \/ dict_get "outputs" response_body = Some (VList []) ->
      get_responses Mistral response_body = Ok [])
  /\ (forall g, dict_get "generation" response_body = Some g ->
      get_responses MetaLlama2 response_body
      = Ok [from_assistant g (VDict (without_keys ["generation"] response_body))])
  /\ (dict_get "generation" response_body = None ->
      get_responses MetaLlama2 response_body = Raise (KeyError "generation")).
Proof.
  unfold get_responses, _extract_messages_from_response. repeat split.
  - intros H. unfold anthropic_extract_messages_from_response. now rewrite H.
  - intros [H|H]; unfold mistral_extract_messages_from_response, get_default;
      now rewrite H.
  - intros g H. unfold llama2_extract_messages_from_response, dict_item.
    now rewrite H.
  - intros H. unfold llama2_extract_messages_from_response, dict_item.
    now rewrite H.
Qed.

Lemma get_responses_degenerate_witness :
  get_responses AnthropicClaude [] = Ok []
  /\ get_responses Mistral [] = Ok []
  /\ get_responses MetaLlama2 [("generation", VStr "hi"); ("stop_reason", VStr "stop")]
     = Ok [from_assistant (VStr "hi") (VDict [("stop_reason", VStr "stop")])]
  /\ get_responses MetaLlama2 [("stop_reason", VStr "stop")]
     = Raise (KeyError "generation").
Proof.
  split; [|split; [|split]].
  - exact (proj1 (get_responses_degenerate []) eq_refl).
  - exact (proj1 (proj2 (get_responses_degenerate [])) (or_introl eq_refl)).
  - exact (proj1 (proj2 (proj2 (get_responses_degenerate
             [("generation", VStr "hi"); ("stop_reason", VStr "stop")])))
             (VStr "hi") eq_refl).
  - exact (proj2 (proj2 (proj2 (get_responses_degenerate
             [("stop_reason", VStr "stop")]))) eq_refl).
Defined.

Lemma collect_filter {A B} (f : A -> result (option B)) (p : A -> bool)
    (g : A -> B) (xs : list A) :
  (forall x, In x xs -> f x = Ok (if p x then Some (g x) else None)) ->
  collect f xs = Ok (map g (filter p xs)).
Proof.
  induction xs as [|x xs IH]; intros H; simpl; [reflexivity|].
  rewrite (H x (or_introl eq_refl)). simpl.
  rewrite IH by (intros y Hy; apply H; now right). simpl.
  now destruct (p x).
Qed.

(** C8: for a response of type ["message"] whose [content] is a list of
    blocks, a [tool_use] stop reason yields one assistant message per
    [tool_use] block, its content the JSON text of the block and its meta the
    top-level fields other than [type], [content] and [role] (so exactly one
    message for exactly one such block); any other stop reason yields one
    message per [text] block. *)
Theorem anthropic_tool_use_and_text (response_body : dict) (blocks : list value) :
  is_str_lit (dict_get "type" response_body) "message" = true ->
  dict_get "content" response_body = Some (VList blocks) ->
  (is_str_lit (dict_get "stop_reason" response_body) "tool_use" = true ->
   forallb is_dict blocks = true ->
   get_responses AnthropicClaude response_body
   = Ok (map (fun b => from_assistant (VStr (json_dumps b))
                         (anthropic_meta response_body))
             (filter (block_type_is "tool_use") blocks))
   /\ forall b, filter (block_type_is "tool_use") blocks = [b] ->
      get_responses AnthropicClaude response_body
      = Ok [from_assistant (VStr (json_dumps b)) (anthropic_meta response_body)])
  /\ (is_str_lit (dict_get "stop_reason" response_body) "tool_use" = false ->
      forallb readable_block blocks = true ->
      get_responses AnthropicClaude response_body
      = Ok (map (fun b => from_assistant (block_text b)
                            (anthropic_meta response_body))
                (filter (block_type_is "text") blocks)))
  /\ (exists m, anthropic_meta response_body = VDict m
      /\ forall k, dict_get k m
                   = if str_in k ["type"; "content"; "role"] then None
                     else dict_get k response_body).
Proof.
  intros Htype Hcontent.
  unfold get_responses, _extract_messages_from_response,
    anthropic_extract_messages_from_response.
  rewrite Htype. unfold dict_item. rewrite Hcontent. simpl bind.
  split; [|split].
  - intros Hstop Hdict. rewrite Hstop.
    assert (E : collect (tool_use_message response_body) blocks
                = Ok (map (fun b => from_assistant (VStr (json_dumps b))
                                      (anthropic_meta response_body))
                          (filter (block_type_is "tool_use") blocks))).
    { apply collect_filter. intros b Hb.
      rewrite forallb_forall in Hdict. specialize (Hdict b Hb).
      destruct b; try discriminate Hdict. unfold tool_use_message. simpl.
      now destruct (is_str_lit (dict_get "type" d) "tool_use"). }
    split; [exact E|]. intros b Hb. rewrite E, Hb. reflexivity.
  - intros Hstop Hread. rewrite Hstop.
    apply collect_filter. intros b Hb.
    rewrite forallb_forall in Hread. specialize (Hread b Hb).
    destruct b; try discriminate Hread. unfold text_message. simpl in *.
    destruct (is_str_lit (dict_get "type" d) "text"); [|reflexivity].
    unfold dict_mem in Hread. unfold dict_item, get_default.
    destruct (dict_get "text" d); [reflexivity | discriminate].
  - eexists. split; [reflexivity|]. intros k. apply dict_get_without_keys.
Qed.

Lemma anthropic_tool_use_and_text_witness :
  get_responses AnthropicClaude
    [("id", VStr "msg_1"); ("type", VStr "message"); ("role", VStr "assistant");
     ("content",
      VList [VDict [("type", VStr "text"); ("text", VStr "Let me look.")];
             VDict [("type", VStr "tool_use"); ("id", VStr "tu_1");
                    ("name", VStr "weather"); ("input", VDict [("city", VStr "Paris")])]]);
     ("stop_reason", VStr "tool_use")]
  = Ok [from_assistant
          (VStr (json_dumps
                   (VDict [("type", VStr "tool_use"); ("id", VStr "tu_1");
                           ("name", VStr "weather");
                           ("input", VDict [("city", VStr "Paris")])])))
          (VDict [("id", VStr "msg_1"); ("stop_reason", VStr "tool_use")])].
Proof.
  exact (proj2 (proj1 (anthropic_tool_use_and_text
           [("id", VStr "msg_1"); ("type", VStr "message"); ("role", VStr "assistant");
            ("content",
             VList [VDict [("type", VStr "text"); ("text", VStr "Let me look.")];
                    VDict [("type", VStr "tool_use"); ("id", VStr "tu_1");
                           ("name", VStr "weather");
                           ("input", VDict [("city", VStr "Paris")])]]);
            ("stop_reason", VStr "tool_use")]
           _ eq_refl eq_refl) eq_refl eq_refl) _ eq_refl).
Defined.

(* ----------------------------------------------------------------- *)
(** *** Requests of the Anthropic adapter *)

(** C7: the Anthropic adapter built from empty generation kwargs with
    truncation off turns [system("You are helpful"), user("Hi")], with no
    inference kwargs, into the body with [system], the one user message,
    [anthropic_version] and [max_tokens = 512], and logs nothing. *)
Theorem anthropic_prepare_body_example
    (call : PromptHandler -> string -> ResizeInfo) (tok : Tokenizer) :
  exists self body,
    init AnthropicClaude tok false [] = Some self
    /\ prepare_body call self [from_system "You are helpful"; from_user "Hi"] []
       = (Ok body, [])
    /\ body
       = [("messages",
           VList [VDict [("content",
                          VList [VDict [("type", VStr "text"); ("text", VStr "Hi")]]);
                         ("role", VStr "user")]]);
          ("system", VStr "You are helpful");
          ("anthropic_version", VStr "bedrock-2023-05-31");
          ("max_tokens", VInt 512)]
    /\ py_eqb (VDict body)
         (VDict [("system", VStr "You are helpful");
                 ("messages",
                  VList [VDict [("role", VStr "user");
                                ("content",
                                 VList [VDict [("type", VStr "text");
                                               ("text", VStr "Hi")]])]]);
                 ("anthropic_version", VStr "bedrock-2023-05-31");
                 ("max_tokens", VInt 512)])
       = true.
Proof.
  eexists. eexists. split; [reflexivity|]. split; [reflexivity|].
  split; reflexivity.
Qed.

Lemma _ensure_token_limit_returns
    (call : PromptHandler -> string -> ResizeInfo) (self : Adapter)
    (prompt : string) :
  exists log,
    _ensure_token_limit call self prompt
    = (Ok (resized_prompt (check_prompt call self prompt)), log).
Proof.
  unfold _ensure_token_limit, lbind, lret. eexists. reflexivity.
Qed.

Lemma lmapM_ensure_token_limit
    (call : PromptHandler -> string -> ResizeInfo) (self : Adapter)
    (kept : list ChatMessage) :
  exists log,
    lmapM (fun m => text <~ _ensure_token_limit call self (content m) ;;
                    lret (_to_anthropic_message (with_content m text))) kept
    = (Ok (map (fun m => _to_anthropic_message
                           (with_content m
                              (resized_prompt (check_prompt call self (content m)))))
               kept), log).
Proof.
  induction kept as [|m kept [log IH]].
  - now exists [].
  - cbn [lmapM map]. rewrite IH.
    destruct (_ensure_token_limit_returns call self (content m)) as [log0 E].
    rewrite E. unfold lbind, lret. eexists. reflexivity.
Qed.

Lemma user_or_assistant_role (m : ChatMessage) :
  user_or_assistant m = true <-> role m = USER \/ role m = ASSISTANT.
Proof.
  unfold user_or_assistant, is_from. destruct (role m); simpl;
    intuition discriminate.
Qed.

(** C9: the [messages] array of the Anthropic body holds the USER and
    ASSISTANT messages and nothing else; the only other key is [system],
    present exactly when the first message is a SYSTEM message with
    a non-empty content.  A SYSTEM message further down the list leaves no
    trace, and without truncation nothing is logged. *)
Theorem anthropic_prepare_chat_messages_roles
    (call : PromptHandler -> string -> ResizeInfo) (self : Adapter)
    (messages : list ChatMessage) :
  let kept := filter user_or_assistant messages in
  let text (m : ChatMessage) :=
    if truncate self then resized_prompt (check_prompt call self (content m))
    else content m in
  exists body log,
    anthropic_prepare_chat_messages call self messages = (Ok body, log)
    /\ dict_get "messages" body
       = Some (VList (map (fun m => _to_anthropic_message (with_content m (text m)))
                          kept))
    /\ dict_get "system" body
       = match messages with
         | m :: _ =>
             if is_from m SYSTEM && negb (String.eqb (content m) "")
             then Some (VStr (content m)) else None
         | [] => None
         end
    /\ (forall k, In k (keys body) -> k = "messages" \/ k = "system")
    /\ (forall m, In m kept <->
                  In m messages /\ (role m = USER \/ role m = ASSISTANT))
    /\ (truncate self = false -> log = []).
Proof.
  intros kept text.
  assert (Hkept : forall m, In m kept <->
                    In m messages /\ (role m = USER \/ role m = ASSISTANT)).
  { intros m. unfold kept. rewrite filter_In, user_or_assistant_role. tauto. }
  unfold anthropic_prepare_chat_messages. fold kept.
  set (system := match messages with
                 | m :: _ => if is_from m SYSTEM then Some (content m) else None
                 | [] => None
                 end).
  set (body0 := [("messages", VList (map _to_anthropic_message kept))]).
  set (body1 := match system with
                | Some s => if truthy (VStr s) then dict_set "system" (VStr s) body0
                            else body0
                | None => body0
                end).
  assert (Hsys : dict_get "system" body1
                 = match messages with
                   | m :: _ =>
                       if is_from m SYSTEM && negb (String.eqb (content m) "")
                       then Some (VStr (content m)) else None
                   | [] => None
                   end).
  { unfold body1, system. destruct messages as [|m rest]; [reflexivity|].
    destruct (is_from m SYSTEM); [|reflexivity]. simpl.
    destruct (String.eqb (content m) ""); reflexivity. }
  assert (Hkeys : forall k, In k (keys body1) -> k = "messages" \/ k = "system").
  { unfold body1. intros k. destruct system as [s|].
    - destruct (truthy (VStr s)).
      + simpl. intuition.
      + simpl. intuition.
    - simpl. intuition. }
  assert (Hmsgs : forall v, dict_get "messages" (dict_set "messages" v body1) = Some v)
    by (intros v; apply dict_get_set_same).
  destruct (truncate self) eqn:Htr.
  - destruct (lmapM_ensure_token_limit call self kept) as [log Hlog].
    rewrite Hlog. unfold lbind, lret.
    eexists. eexists. split; [reflexivity|]. split; [apply Hmsgs|].
    split; [|split; [|split]].
    + rewrite dict_get_set_other by discriminate. exact Hsys.
    + intros k Hk. apply keys_dict_set in Hk. destruct Hk as [->|Hk];
        [now left | now apply Hkeys].
    + exact Hkept.
    + discriminate.
  - exists body1, []. split; [reflexivity|]. split; [|split; [|split; [|split]]].
    + unfold body1. destruct system as [s|]; [destruct (truthy (VStr s))|];
        reflexivity.
    + exact Hsys.
    + exact Hkeys.
    + exact Hkept.
    + reflexivity.
Qed.

(* ----------------------------------------------------------------- *)
(** *** Token limit *)

Lemma length_slice_to {A} (n : Z) (l : list A) :
  (List.length (slice_to n l) <= List.length l)%nat.
Proof.
  unfold slice_to. destruct (0 <=? n); rewrite length_firstn; apply Nat.le_min_r.
Qed.

Lemma length_slice_to_exact {A} (n : Z) (l : list A) :
  0 <= n <= Z.of_nat (List.length l) ->
  Z.of_nat (List.length (slice_to n l)) = n.
Proof.
  intros [H0 H1]. unfold slice_to.
  destruct (Z.leb_spec 0 n); [|lia].
  rewrite length_firstn. lia.
Qed.

(** C3: with the prompt handler as the spec describes it, [check_prompt]
    counts the tokens of the encoded prompt, sets
    [new_prompt_length = min(prompt_length, model_max_length - max_length)],
    and decodes the id sequence cut to that length when it is shorter.  A
    prompt that fits ([prompt_length + max_length <= model_max_length]) comes
    back unchanged; otherwise [new_prompt_length] is
    [model_max_length - max_length]; the new length never exceeds the
    original one.  [_ensure_token_limit] returns the resized prompt and warns
    exactly when the two lengths differ. *)
Theorem check_prompt_truncation (self : Adapter) (prompt : string) :
  let h := prompt_handler self in
  let ids := encode (tokenizer h) prompt in
  let r := check_prompt DefaultPromptHandler_call self prompt in
  prompt_length r = Z.of_nat (List.length ids)
  /\ new_prompt_length r
     = Z.min (prompt_length r) (model_max_length h - max_length h)
  /\ resized_prompt r
     = (if new_prompt_length r <? prompt_length r
        then decode (tokenizer h) (slice_to (new_prompt_length r) ids)
        else prompt)
  /\ (prompt_length r + max_length h <= model_max_length h ->
      resized_prompt r = prompt /\ new_prompt_length r = prompt_length r)
  /\ (prompt_length r + max_length h > model_max_length h ->
      new_prompt_length r = model_max_length h - max_length h)
  /\ new_prompt_length r <= prompt_length r
  /\ (List.length (slice_to (new_prompt_length r) ids) <= List.length ids)%nat
  /\ (0 <= model_max_length h - max_length h ->
      Z.of_nat (List.length (slice_to (new_prompt_length r) ids))
      = new_prompt_length r)
  /\ _ensure_token_limit DefaultPromptHandler_call self prompt
     = (Ok (resized_prompt r),
        if prompt_length r =? new_prompt_length r then []
        else [truncation_warning r]).
Proof.
  intros h ids r.
  assert (He : _ensure_token_limit DefaultPromptHandler_call self prompt
               = (Ok (resized_prompt r),
                  if prompt_length r =? new_prompt_length r then []
                  else [truncation_warning r])).
  { unfold _ensure_token_limit, lbind, logger_warning, lret. fold r.
    rewrite app_nil_r. now destruct (prompt_length r =? new_prompt_length r). }
  revert He.
  unfold r, check_prompt, DefaultPromptHandler_call. simpl. intros He.
  fold h. fold ids.
  set (n := Z.of_nat (List.length ids)).
  set (b := model_max_length h - max_length h).
  split; [reflexivity|]. split; [reflexivity|]. split; [reflexivity|].
  split; [|split; [|split; [|split; [|split]]]].
  - intros H. split; [|unfold b; lia].
    destruct (Z.ltb_spec (Z.min n b) n); [unfold b in *; lia | reflexivity].
  - intros H. unfold b. lia.
  - lia.
  - apply length_slice_to.
  - intros H. apply length_slice_to_exact. fold n. lia.
  - exact He.
Qed.

Lemma check_prompt_truncation_witness :
  (resized_prompt
     (check_prompt DefaultPromptHandler_call
        (mkAdapter MetaLlama2 true [] (mkPromptHandler char_tokenizer 4096 512))
        "hello") = "hello"
   /\ new_prompt_length
        (check_prompt DefaultPromptHandler_call
           (mkAdapter MetaLlama2 true [] (mkPromptHandler char_tokenizer 4096 512))
           "hello") = 5)
  /\ new_prompt_length
       (check_prompt DefaultPromptHandler_call
          (mkAdapter MetaLlama2 true [] (mkPromptHandler char_tokenizer 8 5))
          "hello") = 8 - 5
  /\ resized_prompt
       (check_prompt DefaultPromptHandler_call
          (mkAdapter MetaLlama2 true [] (mkPromptHandler char_tokenizer 8 5))
          "hello") = "hel".
Proof.
  split; [|split].
  - apply (proj1 (proj2 (proj2 (proj2
             (check_prompt_truncation
                (mkAdapter MetaLlama2 true []
                   (mkPromptHandler char_tokenizer 4096 512)) "hello"))))).
    vm_compute. discriminate.
  - apply (proj1 (proj2 (proj2 (proj2 (proj2
             (check_prompt_truncation
                (mkAdapter MetaLlama2 true []
                   (mkPromptHandler char_tokenizer 8 5)) "hello")))))).
    vm_compute. reflexivity.
  - rewrite (proj1 (proj2 (proj2
               (check_prompt_truncation
                  (mkAdapter MetaLlama2 true []
                     (mkPromptHandler char_tokenizer 8 5)) "hello")))).
    reflexivity.
Defined.

(* ----------------------------------------------------------------- *)
(** *** Streaming *)

Section StreamingProperties.

Variable B : Type.
Variable loads : B -> result value.
Variable S : Type.
Variable streaming_callback : StreamingChunk -> S -> S.
Variable f : Family.

Lemma _build_streaming_chunk_meta (d : value) (c : StreamingChunk) :
  _build_streaming_chunk f d = Ok c -> chunk_meta c = d.
Proof.
  destruct f; simpl.
  - unfold anthropic_build_streaming_chunk. destruct (as_dict d) as [dd|]; simpl;
      [|discriminate].
    destruct (is_str_lit (dict_get "type" dd) "content_block_delta").
    + destruct (as_dict (get_default "delta" dd (VDict []))) as [delta|]; simpl;
        [|discriminate].
      destruct (is_str_lit (dict_get "type" delta) "text_delta");
        intros H; injection H as <-; reflexivity.
    + intros H; injection H as <-; reflexivity.
  - unfold mistral_build_streaming_chunk. destruct (as_dict d) as [dd|]; simpl;
      [|discriminate].
    destruct (truthy (get_default "outputs" dd (VList []))).
    + destruct (first_output_text _); simpl; [|discriminate].
      intros H; injection H as <-; reflexivity.
    + intros H; injection H as <-; reflexivity.
  - unfold llama2_build_streaming_chunk. destruct (as_dict d) as [dd|]; simpl;
      [|discriminate].
    intros H; injection H as <-; reflexivity.
Qed.

Lemma chunk_of_inv (b : B) (t : Fragment) :
  chunk_of loads f b = Ok t ->
  loads b = Ok (decoded t)
  /\ _build_streaming_chunk f (decoded t) = Ok (built t)
  /\ chunk_content (built t) = VStr (text t)
  /\ chunk_meta (built t) = decoded t.
Proof.
  unfold chunk_of. destruct (loads b) as [d|]; simpl; [|discriminate].
  destruct (_build_streaming_chunk f d) as [c|] eqn:Hc; simpl; [|discriminate].
  destruct (chunk_content c) eqn:Hcc; try discriminate.
  intros H; injection H as <-. simpl.
  repeat split; try assumption. now apply _build_streaming_chunk_meta.
Qed.

Lemma mapM_cons_inv {X Y} (g : X -> result Y) (x : X) (xs : list X) (ys : list Y) :
  mapM g (x :: xs) = Ok ys ->
  exists y ys', g x = Ok y /\ mapM g xs = Ok ys' /\ ys = y :: ys'.
Proof.
  simpl. destruct (g x) as [y|]; simpl; [|discriminate].
  destruct (mapM g xs) as [ys'|]; simpl; [|discriminate].
  intros H; injection H as <-. now exists y, ys'.
Qed.

Lemma mapM_length {X Y} (g : X -> result Y) (xs : list X) (ys : list Y) :
  mapM g xs = Ok ys -> List.length ys = List.length xs.
Proof.
  revert ys. induction xs as [|x xs IH]; intros ys H.
  - injection H as <-. reflexivity.
  - apply mapM_cons_inv in H. destruct H as (y & ys' & _ & H & ->).
    simpl. now rewrite (IH ys' H).
Qed.

Lemma last_cons_default {X} (x d : X) (l : list X) :
  last (x :: l) d = last l x.
Proof.
  revert x d. induction l as [|y l IH]; intros x d; [reflexivity|].
  change (last (x :: y :: l) d) with (last (y :: l) d).
  now rewrite !IH.
Qed.

(** The loop, on a stream whose payloads all decode and build text chunks. *)
Lemma stream_loop_fragments (stream : list (Event B)) :
  forall (chunks : list StreamingChunk) (last_decoded : value) (st : S)
         (frags : list Fragment),
    mapM (chunk_of loads f) (payloads stream) = Ok frags ->
    stream_loop B loads S streaming_callback f stream chunks last_decoded st
    = (Ok (chunks ++ map built frags, last (map decoded frags) last_decoded),
       run_callback streaming_callback (map built frags) st).
Proof.
  induction stream as [|event rest IH]; intros chunks last_decoded st frags H.
  - injection H as <-. simpl. now rewrite app_nil_r.
  - cbn [stream_loop]. unfold payloads in H. cbn [flat_map] in H.
    fold (payloads rest) in H. destruct (chunk event) as [b|].
    + apply mapM_cons_inv in H. destruct H as (t & frags' & Ht & Hrest & ->).
      apply chunk_of_inv in Ht. destruct Ht as (Hl & Hb & _ & _).
      rewrite Hl, Hb. rewrite (IH _ _ _ _ Hrest).
      cbn [map]. rewrite last_cons_default, <- app_assoc. reflexivity.
    + now apply IH.
Qed.

Lemma append_empty_r (s : string) : (s ++ "")%string = s.
Proof.
  induction s as [|c s IH]; simpl; [reflexivity | now rewrite IH].
Qed.

Lemma concat_empty_cons (s : string) (l : list string) :
  String.concat "" (s :: l) = (s ++ String.concat "" l)%string.
Proof.
  destruct l; simpl; [now rewrite append_empty_r | reflexivity].
Qed.

Lemma join_texts (frags : list Fragment) :
  Forall (fun t => chunk_content (built t) = VStr (text t)) frags ->
  join (map chunk_content (map built frags))
  = Ok (String.concat "" (map text frags)).
Proof.
  induction 1 as [|t frags Ht _ IH]; [reflexivity|].
  cbn [map join]. rewrite Ht, IH, concat_empty_cons. reflexivity.
Qed.

Lemma fragments_texts (bs : list B) :
  forall frags, mapM (chunk_of loads f) bs = Ok frags ->
  Forall (fun t => chunk_content (built t) = VStr (text t)) frags.
Proof.
  induction bs as [|b bs IH]; intros frags H.
  - injection H as <-. constructor.
  - apply mapM_cons_inv in H. destruct H as (t & frags' & Ht & Hrest & ->).
    constructor; [now apply chunk_of_inv in Ht | now apply IH].
Qed.

Lemma get_stream_responses_fragments (stream : list (Event B)) (st : S)
    (frags : list Fragment) :
  mapM (chunk_of loads f) (payloads stream) = Ok frags ->
  get_stream_responses B loads S streaming_callback f stream st
  = (Ok [from_assistant (lstrip (String.concat "" (map text frags)))
           (last (map decoded frags) (VDict []))],
     run_callback streaming_callback (map built frags) st).
Proof.
  intros H. unfold get_stream_responses.
  rewrite (stream_loop_fragments stream [] (VDict []) st frags H).
  cbn [app]. rewrite (join_texts frags (fragments_texts _ _ H)). reflexivity.
Qed.

End StreamingProperties.

Lemma mapM_Forall2 {X Y} (g : X -> result Y) (xs : list X) :
  forall ys, mapM g xs = Ok ys -> Forall2 (fun x y => g x = Ok y) xs ys.
Proof.
  induction xs as [|x xs IH]; intros ys H.
  - injection H as <-. constructor.
  - apply mapM_cons_inv in H. destruct H as (y & ys' & Hy & Hrest & ->).
    constructor; [assumption | now apply IH].
Qed.

(** C2, counterexample: after a first payload without text, the leading
    blank of the second chunk is stripped as well; stripping the first chunk
    only would have kept it. *)
Lemma get_stream_responses_strips_past_first_chunk :
  fst (get_stream_responses value (fun v => Ok v) unit (fun _ s => s) AnthropicClaude
         [mkEvent (Some (VDict [("type", VStr "message_start")]));
          mkEvent (Some (VDict [("type", VStr "content_block_delta");
                                ("delta", VDict [("type", VStr "text_delta");
                                                 ("text", VStr " foo")])]))]
         tt)
  = Ok [from_assistant "foo"
          (VDict [("type", VStr "content_block_delta");
                  ("delta", VDict [("type", VStr "text_delta");
                                   ("text", VStr " foo")])])]
  /\ strip_first_only [""; " foo"] = " foo"
  /\ "foo" <> strip_first_only [""; " foo"].
Proof.
  split; [reflexivity|]. split; [reflexivity|]. discriminate.
Qed.

(** C2, as amended: on a stream whose payloads all decode and build text
    chunks, the callback runs exactly once per payload, in arrival order, on
    the chunk built from it, and the call returns exactly one assistant
    message: its content is the concatenation of all chunk texts with the
    leading whitespace of the concatenation as a whole stripped, its meta the
    last decoded payload. *)
Theorem get_stream_responses_callback_and_message
    (B S : Type) (loads : B -> result value)
    (streaming_callback : StreamingChunk -> S -> S) (f : Family)
    (stream : list (Event B)) (st : S) (frags : list Fragment) :
  mapM (chunk_of loads f) (payloads stream) = Ok frags ->
  get_stream_responses B loads S streaming_callback f stream st
  = (Ok [from_assistant (lstrip (String.concat "" (map text frags)))
           (last (map decoded frags) (VDict []))],
     run_callback streaming_callback (map built frags) st)
  /\ Forall2 (fun b t =>
                loads b = Ok (decoded t)
                /\ _build_streaming_chunk f (decoded t) = Ok (built t)
                /\ chunk_content (built t) = VStr (text t)
                /\ chunk_meta (built t) = decoded t)
       (payloads stream) frags.
Proof.
  intros H. split.
  - now apply get_stream_responses_fragments.
  - apply mapM_Forall2 in H. induction H as [|b t bs ts Hbt _ IH];
      constructor; [now apply chunk_of_inv | exact IH].
Qed.

Lemma get_stream_responses_callback_and_message_witness :
  get_stream_responses value (fun v => Ok v) (list StreamingChunk)
    recording_callback MetaLlama2
    [mkEvent (Some (VDict [("generation", VStr "")]));
     mkEvent None;
     mkEvent (Some (VDict [("generation", VStr "foo")]));
     mkEvent (Some (VDict [("generation", VStr ""); ("stop_reason", VStr "stop")]))]
    []
  = (Ok [from_assistant "foo"
           (VDict [("generation", VStr ""); ("stop_reason", VStr "stop")])],
     [mkStreamingChunk (VStr "") (VDict [("generation", VStr "")]);
      mkStreamingChunk (VStr "foo") (VDict [("generation", VStr "foo")]);
      mkStreamingChunk (VStr "")
        (VDict [("generation", VStr ""); ("stop_reason", VStr "stop")])]).
Proof.
  exact (proj1 (get_stream_responses_callback_and_message
                  value (list StreamingChunk) (fun v => Ok v)
                  recording_callback MetaLlama2
                  [mkEvent (Some (VDict [("generation", VStr "")]));
                   mkEvent None;
                   mkEvent (Some (VDict [("generation", VStr "foo")]));
                   mkEvent (Some (VDict [("generation", VStr "");
                                         ("stop_reason", VStr "stop")]))]
                  []
                  [mkFragment (VDict [("generation", VStr "")])
                     (mkStreamingChunk (VStr "") (VDict [("generation", VStr "")])) "";
                   mkFragment (VDict [("generation", VStr "foo")])
                     (mkStreamingChunk (VStr "foo") (VDict [("generation", VStr "foo")]))
                     "foo";
                   mkFragment
                     (VDict [("generation", VStr ""); ("stop_reason", VStr "stop")])
                     (mkStreamingChunk (VStr "")
                        (VDict [("generation", VStr ""); ("stop_reason", VStr "stop")]))
                     ""]
                  eq_refl)).
Defined.

(** C10: whenever [get_stream_responses] returns, it returns exactly one
    assistant message, never an empty list, and it does return on every
    stream whose payloads decode and build text chunks.  On a stream without
    payloads (the empty stream included) the message has empty content and
    empty meta, and the callback has not run. *)
Theorem get_stream_responses_one_message
    (B S : Type) (loads : B -> result value)
    (streaming_callback : StreamingChunk -> S -> S) (f : Family)
    (stream : list (Event B)) (st : S) :
  (forall msgs st',
      get_stream_responses B loads S streaming_callback f stream st = (Ok msgs, st') ->
      exists response meta, msgs = [from_assistant response meta])
  /\ (forall frags,
         mapM (chunk_of loads f) (payloads stream) = Ok frags ->
         exists m,
           fst (get_stream_responses B loads S streaming_callback f stream st)
           = Ok [m])
  /\ (payloads stream = [] ->
      get_stream_responses B loads S streaming_callback f stream st
      = (Ok [from_assistant "" (VDict [])], st)).
Proof.
  split; [|split].
  - intros msgs st'. unfold get_stream_responses.
    destruct (stream_loop B loads S streaming_callback f stream [] (VDict []) st)
      as [[[chunks last_decoded]|e] st''].
    + destruct (join (map chunk_content chunks)) as [response|e]; simpl;
        intros H; [|discriminate].
      injection H as <- _. now eexists; eexists.
    + discriminate.
  - intros frags H.
    rewrite (get_stream_responses_fragments B loads S streaming_callback f
               stream st frags H).
    eexists. reflexivity.
  - intros H.
    rewrite (get_stream_responses_fragments B loads S streaming_callback f
               stream st []); [reflexivity|].
    now rewrite H.
Qed.

Lemma get_stream_responses_one_message_witness :
  get_stream_responses value (fun v => Ok v) (list StreamingChunk)
    recording_callback Mistral [mkEvent None; mkEvent None] []
  = (Ok [from_assistant "" (VDict [])], []).
Proof.
  exact (proj2 (proj2 (get_stream_responses_one_message
                         value (list StreamingChunk) (fun v => Ok v)
                         recording_callback Mistral
                         [mkEvent None; mkEvent None] []))
               eq_refl).
Defined.

(* ----------------------------------------------------------------- *)
(** *** Chat templates *)

Lemma role_value_user (m : ChatMessage) :
  String.eqb (role_value (role m)) "user" = is_from m USER.
Proof.
  unfold is_from. now destruct (role m).
Qed.

Lemma role_value_system (m : ChatMessage) :
  String.eqb (role_value (role m)) "system" = is_from m SYSTEM.
Proof.
  unfold is_from. now destruct (role m).
Qed.

Lemma parity_step (b1 b2 : bool) : Bool.eqb b1 b2 = negb (xorb b1 b2).
Proof. now destruct b1, b2. Qed.

Lemma mistral_loop_bad_parity (eos : string) (system_message : option string)
    (messages : list ChatMessage) :
  forall index0,
    user_parity (Nat.even index0) messages = false ->
    mistral_loop eos system_message index0 (map openai_format messages)
    = Raise alternation_error.
Proof.
  induction messages as [|m rest IH]; intros index0 H; [discriminate|].
  cbn [map openai_format mistral_loop]. cbn [user_parity] in H.
  rewrite role_value_user. rewrite parity_step in H.
  destruct (xorb (is_from m USER) (Nat.even index0)); [reflexivity|].
  cbn [negb andb] in H. rewrite Nat.negb_even, <- Nat.even_succ in H.
  now rewrite (IH _ H).
Qed.

Lemma llama2_loop_bad_parity (bos eos : string) (system_message : option string)
    (messages : list ChatMessage) :
  forall index0,
    user_parity (Nat.even index0) messages = false ->
    llama2_loop bos eos system_message index0 (map openai_format messages)
    = Raise alternation_error.
Proof.
  induction messages as [|m rest IH]; intros index0 H; [discriminate|].
  cbn [map openai_format llama2_loop]. cbn [user_parity] in H.
  rewrite role_value_user. rewrite parity_step in H.
  destruct (xorb (is_from m USER) (Nat.even index0)); [reflexivity|].
  cbn [negb andb] in H. rewrite Nat.negb_even, <- Nat.even_succ in H.
  now rewrite (IH _ H).
Qed.

Lemma apply_chat_template_bad_parity (self : Adapter) (messages : list ChatMessage) :
  user_parity true (after_system messages) = false ->
  apply_chat_template self messages = Raise alternation_error.
Proof.
  intros H. destruct messages as [|m rest]; [discriminate|].
  unfold apply_chat_template, mistral_chat_template, llama2_chat_template.
  cbn [map openai_format split_system]. rewrite role_value_system.
  cbn [after_system] in H.
  destruct (family self); destruct (is_from m SYSTEM); cbn [bind fst snd].
  - now rewrite (mistral_loop_bad_parity _ _ rest 0 H).
  - now rewrite (mistral_loop_bad_parity _ _ (m :: rest) 0 H).
  - now rewrite (mistral_loop_bad_parity _ _ rest 0 H).
  - now rewrite (mistral_loop_bad_parity _ _ (m :: rest) 0 H).
  - now rewrite (llama2_loop_bad_parity _ _ _ rest 0 H).
  - now rewrite (llama2_loop_bad_parity _ _ _ (m :: rest) 0 H).
Qed.

(* ----------------------------------------------------------------- *)
(** *** Parameter merging: exceptions *)

Lemma sorted_insert_raises (x : value) (l : list value) (e : exn) :
  sorted_insert x l = Raise e -> e = TypeError.
Proof.
  induction l as [|y l IH]; simpl; [discriminate|].
  destruct (py_lt y x) as [[|]|].
  - destruct (sorted_insert x l); simpl; [discriminate|].
    intros H; injection H as <-. now apply IH.
  - discriminate.
  - now intros H; injection H as <-.
Qed.

Lemma py_sorted_raises (l : list value) (e : exn) :
  py_sorted l = Raise e -> e = TypeError.
Proof.
  induction l as [|x l IH]; simpl; [discriminate|].
  destruct (py_sorted l) as [r|e']; simpl.
  - apply sorted_insert_raises.
  - intros H; injection H as <-. now apply IH.
Qed.

Lemma merge_lists_raises (l : list value) (e : exn) :
  (s <- py_set l ;; py_sorted s) = Raise e -> e = TypeError.
Proof.
  unfold py_set. destruct (forallb hashable l); simpl.
  - apply py_sorted_raises.
  - now intros H; injection H as <-.
Qed.

Lemma lbind_Ok {X Y} (c : logged X) (k : X -> logged Y) (y : Y) (log : list LogRecord) :
  lbind c k = (Ok y, log) ->
  exists x log1 log2, c = (Ok x, log1) /\ k x = (Ok y, log2) /\ log = log1 ++ log2.
Proof.
  unfold lbind. destruct c as [[x|e] log1]; [|discriminate].
  destruct (k x) as [r log2] eqn:Hk. intros H; injection H as -> <-.
  now exists x, log1, log2.
Qed.

Lemma lbind_Raise {X Y} (c : logged X) (k : X -> logged Y) (e : exn)
    (log : list LogRecord) :
  lbind c k = (Raise e, log) ->
  c = (Raise e, log)
  \/ exists x log1 log2, c = (Ok x, log1) /\ k x = (Raise e, log2) /\ log = log1 ++ log2.
Proof.
  unfold lbind. destruct c as [[x|e'] log1].
  - destruct (k x) as [r log2] eqn:Hk. intros H; injection H as -> <-.
    right. now exists x, log1, log2.
  - intros H; injection H as -> ->. now left.
Qed.

Lemma _update_params_raises (updates target : dict) (allowed : list string)
    (e : exn) (log : list LogRecord) :
  _update_params target updates allowed = (Raise e, log) -> e = TypeError.
Proof.
  revert target log. induction updates as [|[key v] rest IH]; intros target log.
  - discriminate.
  - cbn [_update_params]. destruct (negb (str_in key allowed)).
    + intros H. apply lbind_Raise in H. destruct H as [H|(x & l1 & l2 & _ & H & _)];
        [discriminate | now apply IH in H].
    + destruct (dict_get key target) as [[| | | |old|]|];
        try (now apply IH).
      destruct v; try (now apply IH).
      intros H. apply lbind_Raise in H.
      destruct H as [H|(x & l1 & l2 & _ & H & _)]; [|now apply IH in H].
      unfold lift in H. injection H as H _. now apply merge_lists_raises in H.
Qed.

Lemma _get_params_raises (self : Adapter) (inference_kwargs default_params : dict)
    (allowed : list string) (e : exn) (log : list LogRecord) :
  _get_params self inference_kwargs default_params allowed = (Raise e, log) ->
  e = TypeError.
Proof.
  unfold _get_params. intros H. apply lbind_Raise in H.
  destruct H as [H|(x & l1 & l2 & _ & H & _)];
    now apply _update_params_raises in H.
Qed.

(** C6, counterexample: a SYSTEM message after the first user turn breaks
    the user/assistant alternation, yet the Mistral template lets it pass
    (it only tests where the user messages stand) and a body is returned. *)
Lemma mistral_prepare_body_accepts_late_system :
  strict_alternation [from_user "a"; from_system "b"] = false
  /\ init Mistral char_tokenizer false []
     = Some (mkAdapter Mistral false [] (mkPromptHandler char_tokenizer 32000 512))
  /\ prepare_body DefaultPromptHandler_call
       (mkAdapter Mistral false [] (mkPromptHandler char_tokenizer 32000 512))
       [from_user "a"; from_system "b"] []
     = (Ok [("prompt", VStr "<s>[INST] a [/INST]"); ("max_tokens", VInt 512)], []).
Proof.
  split; [reflexivity|]. split; reflexivity.
Qed.

(** C6, as amended: for the Mistral and Meta Llama 2 adapters, when, after an
    optional leading SYSTEM message, some message at an even position is not
    a USER message or some message at an odd position is one (as in
    [user("a"), user("b")]), [prepare_body] returns no body: once the
    parameters are merged the template raises its formatting error; the only
    other outcome is the [TypeError] of a failed parameter merge. *)
Theorem templated_prepare_body_rejects_bad_parity
    (call : PromptHandler -> string -> ResizeInfo) (self : Adapter)
    (messages : list ChatMessage) (inference_kwargs : dict) :
  family self = Mistral \/ family self = MetaLlama2 ->
  user_parity true (after_system messages) = false ->
  (forall body, fst (prepare_body call self messages inference_kwargs) <> Ok body)
  /\ (forall params log,
         merged_params self inference_kwargs = (Ok params, log) ->
         prepare_body call self messages inference_kwargs
         = (Raise alternation_error, log))
  /\ (forall e log,
         merged_params self inference_kwargs = (Raise e, log) ->
         e = TypeError
         /\ prepare_body call self messages inference_kwargs = (Raise TypeError, log)).
Proof.
  intros Hfam Hpar.
  assert (Htpl : templated_prepare_chat_messages call self messages
                 = (Raise alternation_error, [])).
  { unfold templated_prepare_chat_messages.
    now rewrite (apply_chat_template_bad_parity self messages Hpar). }
  assert (Hok : forall params log,
             merged_params self inference_kwargs = (Ok params, log) ->
             prepare_body call self messages inference_kwargs
             = (Raise alternation_error, log)).
  { intros params log. unfold merged_params, prepare_body.
    destruct Hfam as [-> | ->]; intros H;
      unfold mistral_prepare_body, llama2_prepare_body; rewrite H;
      cbn [lbind]; rewrite Htpl; cbn [lbind];
      now rewrite app_nil_r. }
  assert (Hraise : forall e log,
             merged_params self inference_kwargs = (Raise e, log) ->
             e = TypeError
             /\ prepare_body call self messages inference_kwargs
                = (Raise TypeError, log)).
  { intros e log. unfold merged_params, prepare_body.
    destruct Hfam as [-> | ->]; intros H;
      pose proof (_get_params_raises _ _ _ _ _ _ H) as ->;
      (split; [reflexivity|]);
      unfold mistral_prepare_body, llama2_prepare_body; now rewrite H. }
  split; [|split; assumption].
  intros body Hbody.
  destruct (merged_params self inference_kwargs) as [[params|e] log] eqn:Hm.
  - rewrite (Hok _ _ eq_refl) in Hbody. discriminate.
  - rewrite (proj2 (Hraise _ _ eq_refl)) in Hbody. discriminate.
Qed.

Lemma templated_prepare_body_rejects_bad_parity_witness :
  prepare_body DefaultPromptHandler_call
    (mkAdapter Mistral false [] (mkPromptHandler char_tokenizer 32000 512))
    [from_user "a"; from_user "b"] []
  = (Raise alternation_error, [])
  /\ prepare_body DefaultPromptHandler_call
       (mkAdapter MetaLlama2 false [] (mkPromptHandler char_tokenizer 4096 512))
       [from_user "a"; from_user "b"] []
     = (Raise alternation_error, []).
Proof.
  split.
  - exact (proj1 (proj2 (templated_prepare_body_rejects_bad_parity
             DefaultPromptHandler_call
             (mkAdapter Mistral false [] (mkPromptHandler char_tokenizer 32000 512))
             [from_user "a"; from_user "b"] [] (or_introl eq_refl) eq_refl))
           [("max_tokens", VInt 512)] [] eq_refl).
  - exact (proj1 (proj2 (templated_prepare_body_rejects_bad_parity
             DefaultPromptHandler_call
             (mkAdapter MetaLlama2 false [] (mkPromptHandler char_tokenizer 4096 512))
             [from_user "a"; from_user "b"] [] (or_intror eq_refl) eq_refl))
           [("max_gen_len", VInt 512)] [] eq_refl).
Defined.

(* ----------------------------------------------------------------- *)
(** *** Parameter merging: allow-listing *)

(** One round of the loop of [_update_params]: what the head of the updates
    does to the target before the loop goes on. *)
Lemma _update_params_step (key : string) (v : value) (rest target : dict)
    (allowed : list string) (r : dict) (log : list LogRecord) :
  _update_params target ((key, v) :: rest) allowed = (Ok r, log) ->
  (str_in key allowed = false
   /\ exists log', _update_params target rest allowed = (Ok r, log')
                   /\ log = not_allowed_warning key :: log')
  \/ (str_in key allowed = true
      /\ exists x,
           _update_params (dict_set key x target) rest allowed = (Ok r, log)
           /\ match dict_get key target, v with
              | Some (VList old), VList new =>
                  exists merged,
                    (s <- py_set (old ++ new) ;; py_sorted s) = Ok merged
                    /\ x = VList merged
              | _, _ => x = v
              end).
Proof.
  cbn [_update_params]. destruct (str_in key allowed); cbn [negb].
  - intros H. right. split; [reflexivity|].
    destruct (dict_get key target) as [[| | | |old|]|];
      try (exists v; split; [exact H | reflexivity]).
    destruct v; try (eexists; split; [exact H | reflexivity]).
    apply lbind_Ok in H. destruct H as (merged & l1 & l2 & Hm & H & ->).
    unfold lift in Hm. injection Hm as Hm <-.
    exists (VList merged). split; [exact H|]. now exists merged.
  - intros H. left. split; [reflexivity|].
    apply lbind_Ok in H. destruct H as (x & l1 & l2 & Hw & H & ->).
    injection Hw as _ <-. now exists l2.
Qed.

Lemma _update_params_result_keys (updates : dict) :
  forall (target : dict) (allowed : list string) (r : dict) (log : list LogRecord),
    _update_params target updates allowed = (Ok r, log) ->
    forall k, In k (keys r) ->
              In k (keys target) \/ (In k allowed /\ In k (keys updates)).
Proof.
  induction updates as [|[key v] rest IH]; intros target allowed r log H k Hk.
  - injection H as <- _. now left.
  - apply _update_params_step in H.
    destruct H as [(Hno & log' & H & _) | (Hyes & x & H & _)].
    + destruct (IH _ _ _ _ H k Hk) as [?|[? ?]]; [now left | right].
      split; [assumption | now right].
    + destruct (IH _ _ _ _ H k Hk) as [Hin|[? ?]].
      * apply keys_dict_set in Hin. destruct Hin as [-> | Hin]; [right | now left].
        split; [now apply str_in_In | now left].
      * right. split; [assumption | now right].
Qed.

Lemma _update_params_log (updates : dict) :
  forall (target : dict) (allowed : list string) (r : dict) (log : list LogRecord),
    _update_params target updates allowed = (Ok r, log) ->
    log = dropped_warnings updates allowed.
Proof.
  unfold dropped_warnings.
  induction updates as [|[key v] rest IH]; intros target allowed r log H.
  - now injection H as _ <-.
  - apply _update_params_step in H. cbn [keys map filter fst].
    destruct H as [(Hno & log' & H & ->) | (Hyes & x & H & _)].
    + rewrite Hno. cbn [negb map]. f_equal. exact (IH _ _ _ _ H).
    + rewrite Hyes. cbn [negb]. exact (IH _ _ _ _ H).
Qed.

(** A key that is not allowed, or that the updates do not have, keeps the
    value the target had. *)
Lemma _update_params_frame (updates : dict) :
  forall (target : dict) (allowed : list string) (r : dict) (log : list LogRecord) k,
    _update_params target updates allowed = (Ok r, log) ->
    ~ In k allowed \/ ~ In k (keys updates) ->
    dict_get k r = dict_get k target.
Proof.
  induction updates as [|[key v] rest IH]; intros target allowed r log k H Hk.
  - now injection H as <- _.
  - assert (Hk' : ~ In k allowed \/ ~ In k (keys rest))
      by (destruct Hk as [?|Hk]; [now left | right; intros ?; apply Hk; now right]).
    apply _update_params_step in H.
    destruct H as [(Hno & log' & H & _) | (Hyes & x & H & _)].
    + exact (IH _ _ _ _ _ H Hk').
    + rewrite (IH _ _ _ _ _ H Hk'). apply dict_get_set_other.
      intros ->. apply str_in_In in Hyes. destruct Hk as [Hk|Hk];
        [now apply Hk | apply Hk; now left].
Qed.

Lemma default_params_allowed (self : Adapter) :
  match family self with
  | AnthropicClaude =>
      forall k, In k (keys (anthropic_default_params self)) ->
                In k (ALLOWED_PARAMS AnthropicClaude)
  | Mistral =>
      forall k, In k (keys (mistral_default_params self)) ->
                In k (ALLOWED_PARAMS Mistral)
  | MetaLlama2 =>
      forall k, In k (keys (llama2_default_params self)) ->
                In k (ALLOWED_PARAMS MetaLlama2)
  end.
Proof.
  destruct (family self); simpl; intuition.
Qed.

Lemma _get_params_result_keys (self : Adapter) (inference_kwargs default_params : dict)
    (allowed : list string) (r : dict) (log : list LogRecord) :
  _get_params self inference_kwargs default_params allowed = (Ok r, log) ->
  (forall k, In k (keys r) -> In k (keys default_params) \/ In k allowed)
  /\ log = dropped_warnings (generation_kwargs self) allowed
           ++ dropped_warnings inference_kwargs allowed.
Proof.
  unfold _get_params. intros H. apply lbind_Ok in H.
  destruct H as (kwargs & l1 & l2 & H1 & H2 & ->). split.
  - intros k Hk.
    destruct (_update_params_result_keys _ _ _ _ _ H2 k Hk) as [Hin|[? _]];
      [|now right].
    destruct (_update_params_result_keys _ _ _ _ _ H1 k Hin) as [?|[? _]];
      [now left | now right].
  - now rewrite (_update_params_log _ _ _ _ _ H1), (_update_params_log _ _ _ _ _ H2).
Qed.

(** C4, counterexample: the target's own keys are never checked against the
    allowed list, so a key outside it stays in the result. *)
Lemma _update_params_keeps_target_keys :
  _update_params [("max_tokens", VInt 512)] [("temperature", VInt 1)] ["temperature"]
  = (Ok [("max_tokens", VInt 512); ("temperature", VInt 1)], [])
  /\ In "max_tokens" (keys [("max_tokens", VInt 512); ("temperature", VInt 1)])
  /\ ~ In "max_tokens" ["temperature"].
Proof.
  split; [reflexivity|]. split; [now left|].
  intros [H|[]]. discriminate H.
Qed.

(** C4, as amended: the allowed list filters the updates, not the target.
    Every key of a merge result is a key of the target or an allowed key of
    the updates; a key outside the allowed list keeps the value the target
    had, if any; each such key of the updates is logged, in order.  Hence,
    when the keys of the defaults are allowed, as they are in the three
    adapters, no key outside the allowed list appears among the merged
    parameters. *)
Theorem merged_keys_are_target_or_allowed :
  (forall (target updates : dict) (allowed : list string) (r : dict)
          (log : list LogRecord),
      _update_params target updates allowed = (Ok r, log) ->
      (forall k, In k (keys r) ->
                 In k (keys target) \/ (In k allowed /\ In k (keys updates)))
      /\ (forall k, ~ In k allowed -> dict_get k r = dict_get k target)
      /\ log = dropped_warnings updates allowed)
  /\ (forall (self : Adapter) (inference_kwargs default_params : dict)
             (allowed : list string) (r : dict) (log : list LogRecord),
         _get_params self inference_kwargs default_params allowed = (Ok r, log) ->
         (forall k, In k (keys r) -> In k (keys default_params) \/ In k allowed)
         /\ log = dropped_warnings (generation_kwargs self) allowed
                  ++ dropped_warnings inference_kwargs allowed)
  /\ (forall (self : Adapter) (inference_kwargs params : dict)
             (log : list LogRecord),
         merged_params self inference_kwargs = (Ok params, log) ->
         forall k, In k (keys params) -> In k (ALLOWED_PARAMS (family self))).
Proof.
  split; [|split].
  - intros target updates allowed r log H. split; [|split].
    + now apply (_update_params_result_keys updates target allowed r log).
    + intros k Hk. apply (_update_params_frame updates target allowed r log k H).
      now left.
    + now apply (_update_params_log updates target allowed r log).
  - intros self ik dp allowed r log H. now apply _get_params_result_keys.
  - intros self ik params log. unfold merged_params.
    pose proof (default_params_allowed self) as Hd.
    destruct (family self); intros H k Hk.
    + apply lbind_Ok in H. destruct H as (kw & l1 & l2 & _ & H & _).
      destruct (proj1 (_get_params_result_keys _ _ _ _ _ _ H) k Hk);
        [now apply Hd | assumption].
    + destruct (proj1 (_get_params_result_keys _ _ _ _ _ _ H) k Hk);
        [now apply Hd | assumption].
    + destruct (proj1 (_get_params_result_keys _ _ _ _ _ _ H) k Hk);
        [now apply Hd | assumption].
Qed.

Lemma merged_keys_are_target_or_allowed_witness :
  (forall k,
      In k (keys [("max_gen_len", VInt 512); ("temperature", VInt 1)]) ->
      In k (keys [("max_gen_len", VInt 512)])
      \/ In k (ALLOWED_PARAMS MetaLlama2)
         /\ In k (keys [("stop_words", VList [VStr "x"]); ("temperature", VInt 1)]))
  /\ (forall k, ~ In k (ALLOWED_PARAMS MetaLlama2) ->
        dict_get k [("max_gen_len", VInt 512); ("temperature", VInt 1)]
        = dict_get k [("max_gen_len", VInt 512)])
  /\ [not_allowed_warning "stop_words"]
     = dropped_warnings [("stop_words", VList [VStr "x"]); ("temperature", VInt 1)]
         (ALLOWED_PARAMS MetaLlama2).
Proof.
  exact (proj1 merged_keys_are_target_or_allowed
           [("max_gen_len", VInt 512)]
           [("stop_words", VList [VStr "x"]); ("temperature", VInt 1)]
           (ALLOWED_PARAMS MetaLlama2)
           [("max_gen_len", VInt 512); ("temperature", VInt 1)]
           [not_allowed_warning "stop_words"]
           eq_refl).
Defined.

(* ----------------------------------------------------------------- *)
(** *** Sorting strings *)

Lemma ltb_irrefl (a : string) : String.ltb a a = false.
Proof.
  unfold String.ltb. pose proof (proj2 (String_as_OT.cmp_eq a a) eq_refl) as E.
  unfold String_as_OT.cmp in E. now rewrite E.
Qed.

Lemma ltb_trans (a b c : string) :
  String.ltb a b = true -> String.ltb b c = true -> String.ltb a c = true.
Proof.
  unfold String.ltb. intros H1 H2.
  destruct (String.compare a b) eqn:E1; try discriminate.
  destruct (String.compare b c) eqn:E2; try discriminate.
  apply String_as_OT.cmp_lt in E1, E2.
  pose proof (String_as_OT.lt_trans _ _ _ E1 E2) as E3.
  apply String_as_OT.cmp_lt in E3. unfold String_as_OT.cmp in E3. now rewrite E3.
Qed.

Lemma ltb_total (a b : string) :
  String.ltb a b = false -> String.ltb b a = false -> a = b.
Proof.
  unfold String.ltb. rewrite (String.compare_antisym b a).
  destruct (String.compare a b) eqn:E; simpl; try discriminate.
  intros _ _. now apply String.compare_eq_iff.
Qed.

Lemma In_str_insert (x s : string) (l : list string) :
  In s (str_insert x l) <-> s = x \/ In s l.
Proof.
  induction l as [|y l IH]; simpl.
  - intuition.
  - destruct (String.ltb y x); simpl; [rewrite IH|]; intuition.
Qed.

Lemma In_str_sort (s : string) (l : list string) :
  In s (str_sort l) <-> In s l.
Proof.
  induction l as [|x l IH]; simpl; [tauto|].
  rewrite In_str_insert, IH. intuition.
Qed.

Lemma strictly_sorted_insert (x : string) (l : list string) :
  strictly_sorted l -> ~ In x l -> strictly_sorted (str_insert x l).
Proof.
  unfold strictly_sorted. induction 1 as [|y l Hl IH Hy]; intros Hx; simpl.
  - repeat constructor.
  - destruct (String.ltb y x) eqn:Hyx.
    + constructor.
      * apply IH. intros ?. apply Hx. now right.
      * rewrite Forall_forall in *. intros s Hs.
        apply In_str_insert in Hs. destruct Hs as [->|Hs]; [assumption | now apply Hy].
    + assert (Hxy : String.ltb x y = true).
      { destruct (String.ltb x y) eqn:E; [reflexivity|].
        exfalso. apply Hx. left. symmetry. now apply ltb_total. }
      constructor; [now constructor|].
      constructor; [assumption|].
      rewrite Forall_forall in *. intros s Hs.
      apply (ltb_trans x y s Hxy). now apply Hy.
Qed.

Lemma strictly_sorted_sort (l : list string) :
  NoDup l -> strictly_sorted (str_sort l).
Proof.
  induction 1 as [|x l Hx _ IH]; simpl.
  - constructor.
  - apply strictly_sorted_insert; [exact IH|]. now rewrite In_str_sort.
Qed.

Lemma str_dedup_acc (l : list string) :
  forall acc,
    NoDup acc ->
    NoDup (fold_left str_set_add l acc)
    /\ forall s, In s (fold_left str_set_add l acc) <-> In s acc \/ In s l.
Proof.
  induction l as [|x l IH]; intros acc Hacc; simpl.
  - split; [assumption | tauto].
  - unfold str_set_add at 2 4. destruct (str_in x acc) eqn:Hx.
    + destruct (IH acc Hacc) as [Hnd Hin]. split; [assumption|].
      intros s. rewrite Hin. apply str_in_In in Hx. intuition congruence.
    + assert (Hacc' : NoDup (acc ++ [x])).
      { apply NoDup_app; [assumption | repeat constructor; intros [] |].
        intros s Hs [<-|[]]. apply str_in_not_In in Hx. now apply Hx. }
      destruct (IH _ Hacc') as [Hnd Hin]. split; [assumption|].
      intros s. rewrite Hin, in_app_iff. simpl. intuition.
Qed.

Lemma str_dedup_spec (l : list string) :
  NoDup (str_dedup l) /\ forall s, In s (str_dedup l) <-> In s l.
Proof.
  destruct (str_dedup_acc l [] (NoDup_nil _)) as [Hnd Hin]. split; [assumption|].
  intros s. unfold str_dedup. rewrite Hin. simpl. tauto.
Qed.

Lemma forallb_is_str (l : list value) :
  forallb is_str l = true -> l = map VStr (map str_of l).
Proof.
  induction l as [|v l IH]; simpl; [reflexivity|].
  intros H. apply andb_true_iff in H. destruct H as [Hv Hl].
  destruct v; try discriminate. simpl. now rewrite <- IH.
Qed.

Lemma py_set_strings (l : list string) :
  py_set (map VStr l) = Ok (map VStr (str_dedup l)).
Proof.
  unfold py_set, str_dedup.
  assert (Hh : forallb hashable (map VStr l) = true)
    by (induction l; simpl; auto).
  rewrite Hh. f_equal. change (@nil value) with (map VStr []).
  generalize (@nil string) as acc.
  induction l as [|x l IH]; intros acc; simpl; [reflexivity|].
  assert (Hadd : set_add (map VStr acc) (VStr x) = map VStr (str_set_add acc x)).
  { unfold set_add, str_set_add, str_in.
    assert (E : existsb (py_eqb (VStr x)) (map VStr acc) = existsb (String.eqb x) acc)
      by (induction acc as [|a acc IHa]; cbn [existsb map];
          [reflexivity | rewrite IHa; reflexivity]).
    rewrite E. destruct (existsb (String.eqb x) acc); [reflexivity|].
    now rewrite map_app. }
  rewrite Hadd. apply IH; simpl; auto.
Qed.

Lemma py_sorted_strings (l : list string) :
  py_sorted (map VStr l) = Ok (map VStr (str_sort l)).
Proof.
  induction l as [|x l IH]; simpl; [reflexivity|].
  rewrite IH. simpl. generalize (str_sort l) as r.
  induction r as [|y r IHr]; simpl; [reflexivity|].
  unfold py_lt. simpl. destruct (String.ltb y x); [|reflexivity].
  now rewrite IHr.
Qed.

(** Two lists of strings merge into the sorted list of their distinct members. *)
Lemma merge_string_lists (old new : list value) :
  forallb is_str old = true -> forallb is_str new = true ->
  exists m,
    (s <- py_set (old ++ new) ;; py_sorted s) = Ok (map VStr m)
    /\ strictly_sorted m
    /\ forall s, In s m <-> In (VStr s) old \/ In (VStr s) new.
Proof.
  intros Ho Hn.
  rewrite (forallb_is_str old Ho), (forallb_is_str new Hn), <- map_app.
  set (l := map str_of old ++ map str_of new).
  exists (str_sort (str_dedup l)).
  rewrite py_set_strings. simpl. rewrite py_sorted_strings.
  destruct (str_dedup_spec l) as [Hnd Hin].
  split; [reflexivity|]. split; [now apply strictly_sorted_sort|].
  intros s. rewrite In_str_sort, Hin. unfold l. rewrite in_app_iff.
  assert (Hmap : forall ss, In s ss <-> In (VStr s) (map VStr ss)).
  { intros ss. rewrite in_map_iff. split.
    - intros H. now exists s.
    - intros (t & E & H). now injection E as <-. }
  now rewrite !Hmap.
Qed.

(* ----------------------------------------------------------------- *)
(** *** Parameter merging: lists merge, the rest is overwritten *)

Lemma _update_params_allowed_step (key : string) (v : value) (rest target : dict)
    (allowed : list string) (r : dict) (log : list LogRecord) :
  str_in key allowed = true ->
  _update_params target ((key, v) :: rest) allowed = (Ok r, log) ->
  exists x,
    merge_value (dict_get key target) v = Ok x
    /\ _update_params (dict_set key x target) rest allowed = (Ok r, log).
Proof.
  intros Hyes H. apply _update_params_step in H.
  destruct H as [(Hno & _) | (_ & x & H & Hx)]; [congruence|].
  exists x. split; [|exact H]. unfold merge_value.
  destruct (dict_get key target) as [[| | | |old|]|]; try (now subst).
  destruct v; try (now subst).
  destruct Hx as (merged & -> & ->). reflexivity.
Qed.

(** An allowed key of the updates ends up with its merge value. *)
Lemma _update_params_hit (updates : dict) :
  forall (target : dict) (allowed : list string) (r : dict) (log : list LogRecord)
         (k : string) (v : value),
    wf_dict updates ->
    _update_params target updates allowed = (Ok r, log) ->
    In k allowed -> dict_get k updates = Some v ->
    exists x, merge_value (dict_get k target) v = Ok x /\ dict_get k r = Some x.
Proof.
  unfold wf_dict.
  induction updates as [|[key v0] rest IH];
    intros target allowed r log k v Hwf H Hk Hv; [discriminate|].
  cbn [keys map fst] in Hwf. inversion Hwf as [|? ? Hnotin Hwf']; subst.
  cbn [dict_get] in Hv. destruct (String.eqb_spec k key) as [->|Hne].
  - injection Hv as <-.
    apply _update_params_allowed_step in H; [|now apply str_in_In].
    destruct H as (x & Hx & H). exists x. split; [exact Hx|].
    rewrite (_update_params_frame rest _ allowed r log key H (or_intror Hnotin)).
    apply dict_get_set_same.
  - destruct (str_in key allowed) eqn:Hkey.
    + apply _update_params_allowed_step in H; [|exact Hkey].
      destruct H as (x & _ & H).
      destruct (IH _ _ _ _ k v Hwf' H Hk Hv) as (y & Hy & Hr).
      exists y. split; [|exact Hr].
      now rewrite dict_get_set_other in Hy.
    + apply _update_params_step in H.
      destruct H as [(_ & log' & H & _) | (Hyes & _)]; [|congruence].
      exact (IH _ _ _ _ k v Hwf' H Hk Hv).
Qed.

Lemma dict_get_In (k : string) (v : value) (d : dict) :
  dict_get k d = Some v -> In (k, v) d.
Proof.
  induction d as [|[k' v'] d IH]; simpl; [discriminate|].
  destruct (String.eqb_spec k k') as [->|Hne].
  - intros H; injection H as ->. now left.
  - intros H. right. now apply IH.
Qed.






(** C5: at the allowed key [tools], with a list of tool dictionaries among
    the adapter's generation kwargs and another among the kwargs of the call,
    the merge does not produce the union of the two lists: [_update_params]
    builds a [set] of dictionaries and raises [TypeError], and
    [prepare_body] raises with it. *)
Lemma _update_params_tool_lists_raise :
  In "tools" (ALLOWED_PARAMS AnthropicClaude)
  /\ _update_params
       [("tools", VList [VDict [("name", VStr "search")]])]
       [("tools", VList [VDict [("name", VStr "weather")]])]
       (ALLOWED_PARAMS AnthropicClaude)
     = (Raise TypeError, [])
  /\ prepare_body DefaultPromptHandler_call
       (mkAdapter AnthropicClaude false
          [("tools", VList [VDict [("name", VStr "search")]])]
          (mkPromptHandler char_tokenizer 100000 512))
       [from_user "Hi"]
       [("tools", VList [VDict [("name", VStr "weather")]])]
     = (Raise TypeError, []).
Proof.
  split; [simpl; tauto|]. split; reflexivity.
Qed.



(* ================================================================= *)
(** ** Further properties *)

(* ----------------------------------------------------------------- *)
(** *** Streaming: events, failures, whitespace *)

Section StreamingFurther.

Variable B : Type.
Variable loads : B -> result value.
Variable S : Type.
Variable streaming_callback : StreamingChunk -> S -> S.
Variable f : Family.

Lemma built_of_inv (b : B) (d : value) (c : StreamingChunk) :
  built_of loads f b = Ok (d, c) ->
  loads b = Ok d /\ _build_streaming_chunk f d = Ok c.
Proof.
  unfold built_of. destruct (loads b) as [d'|]; simpl; [|discriminate].
  destruct (_build_streaming_chunk f d') as [c'|] eqn:Hc; simpl; [|discriminate].
  intros H; injection H as <- <-. now split.
Qed.

(** The loop over a prefix whose payloads all build. *)
Lemma stream_loop_prefix (pre : list (Event B)) :
  forall (rest : list (Event B)) (chunks : list StreamingChunk)
         (last_decoded : value) (st : S) (pairs : list (value * StreamingChunk)),
    mapM (built_of loads f) (payloads pre) = Ok pairs ->
    stream_loop B loads S streaming_callback f (pre ++ rest) chunks last_decoded st
    = stream_loop B loads S streaming_callback f rest
        (chunks ++ map snd pairs) (last (map fst pairs) last_decoded)
        (run_callback streaming_callback (map snd pairs) st).
Proof.
  induction pre as [|event pre IH]; intros rest chunks last_decoded st pairs H.
  - injection H as <-. simpl. now rewrite app_nil_r.
  - cbn [app stream_loop]. unfold payloads in H. cbn [flat_map] in H.
    fold (payloads pre) in H. destruct (chunk event) as [b|].
    + apply mapM_cons_inv in H. destruct H as ([d c] & pairs' & Hb & Hrest & ->).
      apply built_of_inv in Hb. destruct Hb as [Hl Hc].
      rewrite Hl, Hc. rewrite (IH _ _ _ _ _ Hrest).
      cbn [map fst snd]. rewrite last_cons_default, <- app_assoc. reflexivity.
    + now apply IH.
Qed.

Lemma join_not_str (parts : list value) :
  forallb is_str parts = false -> join parts = Raise TypeError.
Proof.
  induction parts as [|v parts IH]; simpl; [discriminate|].
  destruct v; simpl; try reflexivity.
  intros H. now rewrite (IH H).
Qed.

Lemma stream_loop_payloads (stream : list (Event B)) :
  forall (chunks : list StreamingChunk) (last_decoded : value) (st : S),
    stream_loop B loads S streaming_callback f stream chunks last_decoded st
    = stream_loop B loads S streaming_callback f
        (map payload_event (payloads stream)) chunks last_decoded st.
Proof.
  induction stream as [|event rest IH]; intros chunks last_decoded st;
    [reflexivity|].
  unfold payloads. cbn [flat_map stream_loop]. fold (payloads rest).
  destruct (chunk event) as [b|]; [|apply IH].
  cbn [app map payload_event stream_loop chunk].
  destruct (loads b) as [d|]; [|reflexivity].
  destruct (_build_streaming_chunk f d); [apply IH | reflexivity].
Qed.

Lemma lstrip_no_leading_space (s : string) : starts_with_space (lstrip s) = false.
Proof.
  induction s as [|c s IH]; simpl; [reflexivity|].
  destruct (isspace c) eqn:Hc; [exact IH | simpl; exact Hc].
Qed.

(** X1: events without a payload are ignored altogether: two streams with the
    same payloads in the same order give the same messages and leave the
    callback's state the same. *)
Theorem get_stream_responses_only_payloads (s1 s2 : list (Event B)) (st : S) :
  payloads s1 = payloads s2 ->
  get_stream_responses B loads S streaming_callback f s1 st
  = get_stream_responses B loads S streaming_callback f s2 st.
Proof.
  intros H. unfold get_stream_responses.
  rewrite (stream_loop_payloads s1), (stream_loop_payloads s2), H. reflexivity.
Qed.

(** X2: when a payload fails to decode, or to build a chunk, the exception
    propagates; by then the callback has run on the chunks of all earlier
    payloads, and only on those. *)
Theorem get_stream_responses_failure_after_callbacks
    (pre post : list (Event B)) (b : B) (e : exn) (st : S)
    (pairs : list (value * StreamingChunk)) :
  mapM (built_of loads f) (payloads pre) = Ok pairs ->
  loads b = Raise e
  \/ (exists d, loads b = Ok d /\ _build_streaming_chunk f d = Raise e) ->
  get_stream_responses B loads S streaming_callback f
    (pre ++ payload_event b :: post) st
  = (Raise e, run_callback streaming_callback (map snd pairs) st).
Proof.
  intros Hpre Hb. unfold get_stream_responses.
  rewrite (stream_loop_prefix pre _ _ _ _ _ Hpre).
  cbn [stream_loop payload_event chunk].
  destruct Hb as [Hl | (d & Hl & Hc)]; rewrite Hl; [reflexivity|].
  now rewrite Hc.
Qed.

(** X3: a chunk whose content is not a string does not stop the loop: the
    callback runs on every chunk, and only the final join raises [TypeError]. *)
Theorem get_stream_responses_non_text_content
    (stream : list (Event B)) (st : S) (pairs : list (value * StreamingChunk)) :
  mapM (built_of loads f) (payloads stream) = Ok pairs ->
  forallb (fun p => is_str (chunk_content (snd p))) pairs = false ->
  get_stream_responses B loads S streaming_callback f stream st
  = (Raise TypeError, run_callback streaming_callback (map snd pairs) st).
Proof.
  intros Hb Hns. unfold get_stream_responses.
  rewrite <- (app_nil_r stream), (stream_loop_prefix stream [] _ _ _ _ Hb).
  cbn [stream_loop app]. rewrite join_not_str; [reflexivity|].
  rewrite <- Hns. clear. induction pairs as [|p pairs IH]; simpl;
    [reflexivity | now rewrite IH].
Qed.

(** X4: the content of a message returned from a stream never begins with a
    whitespace character. *)
Theorem get_stream_responses_no_leading_space
    (stream : list (Event B)) (st st' : S) (msgs : list ChatMessage) :
  get_stream_responses B loads S streaming_callback f stream st = (Ok msgs, st') ->
  forall m, In m msgs -> starts_with_space (content m) = false.
Proof.
  unfold get_stream_responses.
  destruct (stream_loop B loads S streaming_callback f stream [] (VDict []) st)
    as [[[chunks last_decoded]|e] st''].
  - destruct (join (map chunk_content chunks)) as [response|e]; simpl;
      intros H; [|discriminate].
    injection H as <- _. intros m [<-|[]]. apply lstrip_no_leading_space.
  - discriminate.
Qed.

End StreamingFurther.

Lemma get_stream_responses_only_payloads_witness :
  get_stream_responses value (fun v => Ok v) (list StreamingChunk)
    recording_callback MetaLlama2
    [mkEvent None; mkEvent (Some (VDict [("generation", VStr "hi")])); mkEvent None]
    []
  = get_stream_responses value (fun v => Ok v) (list StreamingChunk)
      recording_callback MetaLlama2
      [mkEvent (Some (VDict [("generation", VStr "hi")]))] [].
Proof.
  exact (get_stream_responses_only_payloads value (fun v => Ok v)
           (list StreamingChunk) recording_callback MetaLlama2
           [mkEvent None; mkEvent (Some (VDict [("generation", VStr "hi")]));
            mkEvent None]
           [mkEvent (Some (VDict [("generation", VStr "hi")]))] [] eq_refl).
Defined.

Lemma get_stream_responses_failure_after_callbacks_witness :
  get_stream_responses value (fun v => Ok v) (list StreamingChunk)
    recording_callback MetaLlama2
    ([mkEvent (Some (VDict [("generation", VStr "a")]))]
     ++ payload_event (VInt 3)
        :: [mkEvent (Some (VDict [("generation", VStr "b")]))])
    []
  = (Raise AttributeError,
     run_callback recording_callback
       (map snd [(VDict [("generation", VStr "a")],
                  mkStreamingChunk (VStr "a") (VDict [("generation", VStr "a")]))])
       []).
Proof.
  exact (get_stream_responses_failure_after_callbacks value (fun v => Ok v)
           (list StreamingChunk) recording_callback MetaLlama2
           [mkEvent (Some (VDict [("generation", VStr "a")]))]
           [mkEvent (Some (VDict [("generation", VStr "b")]))]
           (VInt 3) AttributeError []
           [(VDict [("generation", VStr "a")],
             mkStreamingChunk (VStr "a") (VDict [("generation", VStr "a")]))]
           eq_refl
           (or_intror (ex_intro _ (VInt 3) (conj eq_refl eq_refl)))).
Defined.

Lemma get_stream_responses_non_text_content_witness :
  get_stream_responses value (fun v => Ok v) (list StreamingChunk)
    recording_callback MetaLlama2
    [mkEvent (Some (VDict [("generation", VInt 5)]))] []
  = (Raise TypeError,
     run_callback recording_callback
       (map snd [(VDict [("generation", VInt 5)],
                  mkStreamingChunk (VInt 5) (VDict [("generation", VInt 5)]))])
       []).
Proof.
  exact (get_stream_responses_non_text_content value (fun v => Ok v)
           (list StreamingChunk) recording_callback MetaLlama2
           [mkEvent (Some (VDict [("generation", VInt 5)]))] []
           [(VDict [("generation", VInt 5)],
             mkStreamingChunk (VInt 5) (VDict [("generation", VInt 5)]))]
           eq_refl eq_refl).
Defined.

Lemma get_stream_responses_no_leading_space_witness :
  starts_with_space
    (content (from_assistant "foo" (VDict [("generation", VStr "  foo")])))
  = false.
Proof.
  exact (get_stream_responses_no_leading_space value (fun v => Ok v)
           (list StreamingChunk) recording_callback MetaLlama2
           [mkEvent (Some (VDict [("generation", VStr "  foo")]))] []
           [mkStreamingChunk (VStr "  foo") (VDict [("generation", VStr "  foo")])]
           [from_assistant "foo" (VDict [("generation", VStr "  foo")])]
           eq_refl _ (or_introl eq_refl)).
Defined.

(* ----------------------------------------------------------------- *)
(** *** Streaming chunks and responses: shapes and errors *)

(** X5: in all three adapters a payload that is not a JSON object raises
    [AttributeError]; whenever a chunk is built its meta is the payload
    itself; the Meta Llama 2 adapter builds a chunk from every JSON object,
    and so does the Anthropic adapter unless the event is a
    [content_block_delta] whose [delta] is not an object. *)
Theorem _build_streaming_chunk_shape (f : Family) (payload : value) :
  (is_dict payload = false ->
   _build_streaming_chunk f payload = Raise AttributeError)
  /\ (forall c, _build_streaming_chunk f payload = Ok c ->
                is_dict payload = true /\ chunk_meta c = payload)
  /\ (forall d, payload = VDict d ->
        _build_streaming_chunk MetaLlama2 payload
        = Ok (mkStreamingChunk (get_default "generation" d (VStr "")) payload))
  /\ (forall d, payload = VDict d ->
        is_str_lit (dict_get "type" d) "content_block_delta" = false
        \/ is_dict (get_default "delta" d (VDict [])) = true ->
        exists text,
          _build_streaming_chunk AnthropicClaude payload
          = Ok (mkStreamingChunk text payload)).
Proof.
  split; [|split; [|split]].
  - intros H. destruct payload; try discriminate H; now destruct f.
  - intros c Hc. split; [|now apply (_build_streaming_chunk_meta f)].
    destruct payload; try reflexivity; destruct f; discriminate Hc.
  - intros d ->. reflexivity.
  - intros d -> H. simpl. unfold anthropic_build_streaming_chunk. simpl.
    destruct (is_str_lit (dict_get "type" d) "content_block_delta").
    + destruct H as [H|H]; [discriminate|].
      destruct (get_default "delta" d (VDict [])) as [| | | | |delta];
        try discriminate H. simpl.
      destruct (is_str_lit (dict_get "type" delta) "text_delta");
        eexists; reflexivity.
    + eexists; reflexivity.
Qed.

Lemma _build_streaming_chunk_shape_witness :
  _build_streaming_chunk Mistral (VStr "data") = Raise AttributeError
  /\ (exists text,
        _build_streaming_chunk AnthropicClaude
          (VDict [("type", VStr "message_stop")])
        = Ok (mkStreamingChunk text (VDict [("type", VStr "message_stop")]))).
Proof.
  split.
  - exact (proj1 (_build_streaming_chunk_shape Mistral (VStr "data")) eq_refl).
  - exact (proj2 (proj2 (proj2 (_build_streaming_chunk_shape AnthropicClaude
             (VDict [("type", VStr "message_stop")]))))
           [("type", VStr "message_stop")] eq_refl (or_introl eq_refl)).
Defined.

Lemma mapM_ext_in {X Y} (g h : X -> result Y) (xs : list X) :
  (forall x, In x xs -> g x = h x) -> mapM g xs = mapM h xs.
Proof.
  induction xs as [|x xs IH]; intros H; simpl; [reflexivity|].
  rewrite (H x (or_introl eq_refl)), IH; [reflexivity|].
  intros y Hy. apply H. now right.
Qed.

Lemma mapM_Ok {X Y} (g : X -> Y) (xs : list X) :
  mapM (fun x => Ok (g x)) xs = Ok (map g xs).
Proof.
  induction xs as [|x xs IH]; simpl; [reflexivity | now rewrite IH].
Qed.

Lemma mapM_raises_at {X Y} (g : X -> result Y) (pre post : list X) (x : X)
    (ys : list Y) (e : exn) :
  mapM g pre = Ok ys -> g x = Raise e -> mapM g (pre ++ x :: post) = Raise e.
Proof.
  revert ys. induction pre as [|p pre IH]; intros ys Hpre Hx; simpl.
  - now rewrite Hx.
  - apply mapM_cons_inv in Hpre. destruct Hpre as (y & ys' & Hp & Hrest & _).
    rewrite Hp. simpl. now rewrite (IH ys' Hrest Hx).
Qed.

(** X6: the Mistral adapter returns one assistant message per entry of
    [outputs], in order, with the entry's [text] as content and its other
    fields as meta, provided every entry is an object with a [text]; the
    first entry without one raises [KeyError] and nothing is returned. *)
Theorem mistral_one_message_per_output (response_body : dict)
    (outputs : list value) :
  dict_get "outputs" response_body = Some (VList outputs) ->
  (forallb has_text outputs = true ->
   get_responses Mistral response_body = Ok (map output_message outputs))
  /\ (forall pre d post,
         outputs = pre ++ VDict d :: post ->
         forallb has_text pre = true -> dict_get "text" d = None ->
         get_responses Mistral response_body = Raise (KeyError "text")).
Proof.
  intros Hout. unfold get_responses, _extract_messages_from_response,
    mistral_extract_messages_from_response, get_default.
  rewrite Hout. cbn [py_iter bind].
  assert (Hok : forall l, forallb has_text l = true ->
            mapM (fun response =>
                    d <- as_dict response ;;
                    let meta := VDict (without_keys ["text"] d) in
                    text <- dict_item "text" d ;;
                    Ok (from_assistant text meta)) l
            = Ok (map output_message l)).
  { intros l Hl. rewrite <- mapM_Ok. apply mapM_ext_in. intros x Hx.
    rewrite forallb_forall in Hl. specialize (Hl x Hx).
    destruct x; try discriminate Hl. simpl in *. unfold dict_mem in Hl.
    unfold dict_item, get_default. now destruct (dict_get "text" d). }
  split; [apply Hok|].
  intros pre d post -> Hpre Hd.
  apply (mapM_raises_at _ pre post (VDict d) _ _ (Hok pre Hpre)).
  simpl. unfold dict_item. now rewrite Hd.
Qed.

Lemma mistral_one_message_per_output_witness :
  get_responses Mistral
    [("outputs", VList [VDict [("text", VStr "a"); ("stop_reason", VStr "stop")];
                        VDict [("text", VStr "b")]])]
  = Ok [from_assistant (VStr "a") (VDict [("stop_reason", VStr "stop")]);
        from_assistant (VStr "b") (VDict [])]
  /\ get_responses Mistral
       [("outputs", VList ([VDict [("text", VStr "a")]]
                           ++ VDict [("stop_reason", VStr "stop")] :: []))]
     = Raise (KeyError "text").
Proof.
  split.
  - exact (proj1 (mistral_one_message_per_output
             [("outputs", VList [VDict [("text", VStr "a");
                                        ("stop_reason", VStr "stop")];
                                 VDict [("text", VStr "b")]])]
             _ eq_refl) eq_refl).
  - exact (proj2 (mistral_one_message_per_output
             [("outputs", VList ([VDict [("text", VStr "a")]]
                                 ++ VDict [("stop_reason", VStr "stop")] :: []))]
             _ eq_refl)
           [VDict [("text", VStr "a")]] [("stop_reason", VStr "stop")] []
           eq_refl eq_refl eq_refl).
Defined.

Lemma collect_raises_at {X Y} (g : X -> result (option Y)) (pre post : list X)
    (x : X) (e : exn) :
  (forall p, In p pre -> exists o, g p = Ok o) -> g x = Raise e ->
  collect g (pre ++ x :: post) = Raise e.
Proof.
  induction pre as [|p pre IH]; intros Hpre Hx; simpl.
  - now rewrite Hx.
  - destruct (Hpre p (or_introl eq_refl)) as [o Ho]. rewrite Ho. simpl.
    rewrite IH; [reflexivity | | exact Hx].
    intros q Hq. apply Hpre. now right.
Qed.

(** X7: a response of type ["message"] is read strictly by the Anthropic
    adapter: without a [content] field it raises [KeyError]; a [content] that
    is [null], a number or a boolean raises [TypeError]; with a stop reason
    other than ["tool_use"], the first [text] block that lacks its [text]
    raises [KeyError]. *)
Theorem anthropic_message_read_strictly (response_body : dict) :
  is_str_lit (dict_get "type" response_body) "message" = true ->
  (dict_get "content" response_body = None ->
   get_responses AnthropicClaude response_body = Raise (KeyError "content"))
  /\ (forall v, dict_get "content" response_body = Some v ->
        v = VNone \/ (exists b, v = VBool b) \/ (exists z, v = VInt z) ->
        get_responses AnthropicClaude response_body = Raise TypeError)
  /\ (forall pre d post,
        dict_get "content" response_body = Some (VList (pre ++ VDict d :: post)) ->
        is_str_lit (dict_get "stop_reason" response_body) "tool_use" = false ->
        forallb readable_block pre = true ->
        is_str_lit (dict_get "type" d) "text" = true ->
        dict_get "text" d = None ->
        get_responses AnthropicClaude response_body = Raise (KeyError "text")).
Proof.
  intros Htype. unfold get_responses, _extract_messages_from_response,
    anthropic_extract_messages_from_response. rewrite Htype.
  unfold dict_item. split; [|split].
  - intros H. rewrite H.
    now destruct (is_str_lit (dict_get "stop_reason" response_body) "tool_use").
  - intros v H Hv. rewrite H.
    destruct Hv as [-> | [[b ->] | [z ->]]];
      now destruct (is_str_lit (dict_get "stop_reason" response_body) "tool_use").
  - intros pre d post H Hstop Hpre Hd Htext. rewrite H, Hstop. cbn [bind py_iter].
    apply collect_raises_at.
    + intros p Hp. rewrite forallb_forall in Hpre. specialize (Hpre p Hp).
      destruct p; try discriminate Hpre. unfold text_message. simpl in *.
      destruct (is_str_lit (dict_get "type" d0) "text"); [|now eexists].
      unfold dict_mem in Hpre. unfold dict_item.
      destruct (dict_get "text" d0); [now eexists | discriminate].
    + unfold text_message. simpl. rewrite Hd. unfold dict_item. now rewrite Htext.
Qed.

Lemma anthropic_message_read_strictly_witness :
  get_responses AnthropicClaude [("type", VStr "message")]
  = Raise (KeyError "content")
  /\ get_responses AnthropicClaude [("type", VStr "message"); ("content", VNone)]
     = Raise TypeError
  /\ get_responses AnthropicClaude
       [("type", VStr "message");
        ("content", VList ([] ++ VDict [("type", VStr "text")] :: []))]
     = Raise (KeyError "text").
Proof.
  split; [|split].
  - exact (proj1 (anthropic_message_read_strictly
             [("type", VStr "message")] eq_refl) eq_refl).
  - exact (proj1 (proj2 (anthropic_message_read_strictly
             [("type", VStr "message"); ("content", VNone)] eq_refl))
           VNone eq_refl (or_introl eq_refl)).
  - exact (proj2 (proj2 (anthropic_message_read_strictly
             [("type", VStr "message");
              ("content", VList ([] ++ VDict [("type", VStr "text")] :: []))]
             eq_refl))
           [] [("type", VStr "text")] [] eq_refl eq_refl eq_refl eq_refl eq_refl).
Defined.

(* ----------------------------------------------------------------- *)
(** *** Chat templates: outcomes and composition *)

Lemma append_assoc (a b c : string) : ((a ++ b) ++ c)%string = (a ++ (b ++ c))%string.
Proof.
  induction a as [|x a IH]; simpl; [reflexivity | now rewrite IH].
Qed.

Lemma role_value_assistant (m : ChatMessage) :
  String.eqb (role_value (role m)) "assistant" = is_from m ASSISTANT.
Proof.
  unfold is_from. now destruct (role m).
Qed.

Lemma bind_Ok_id {X} (r : result X) : (x <- r ;; Ok x) = r.
Proof. now destruct r. Qed.

Lemma mistral_loop_app (eos : string) (system_message : option string)
    (l1 l2 : list (string * string)) :
  forall index0,
    mistral_loop eos system_message index0 (l1 ++ l2)
    = (x <- mistral_loop eos system_message index0 l1 ;;
       y <- mistral_loop eos system_message (index0 + List.length l1) l2 ;;
       Ok (x ++ y)%string).
Proof.
  induction l1 as [|[r c] l1 IH]; intros index0.
  - cbn [app mistral_loop List.length bind]. rewrite Nat.add_0_r.
    symmetry. cbn [append]. apply bind_Ok_id.
  - cbn [app mistral_loop List.length].
    destruct (xorb (String.eqb r "user") (Nat.even index0)); [reflexivity|].
    rewrite IH, Nat.add_succ_r. cbn [Nat.add].
    destruct (mistral_loop eos system_message (Datatypes.S index0) l1) as [x|];
      [|reflexivity].
    cbn [bind].
    destruct (mistral_loop eos system_message
                (Datatypes.S (index0 + List.length l1)) l2) as [y|];
      [|reflexivity].
    cbn [bind]. now rewrite append_assoc.
Qed.

Lemma llama2_loop_app (bos eos : string) (system_message : option string)
    (l1 l2 : list (string * string)) :
  forall index0,
    llama2_loop bos eos system_message index0 (l1 ++ l2)
    = (x <- llama2_loop bos eos system_message index0 l1 ;;
       y <- llama2_loop bos eos system_message (index0 + List.length l1) l2 ;;
       Ok (x ++ y)%string).
Proof.
  induction l1 as [|[r c] l1 IH]; intros index0.
  - cbn [app llama2_loop List.length bind]. rewrite Nat.add_0_r.
    symmetry. cbn [append]. apply bind_Ok_id.
  - cbn [app llama2_loop List.length].
    destruct (xorb (String.eqb r "user") (Nat.even index0)); [reflexivity|].
    rewrite IH, Nat.add_succ_r. cbn [Nat.add].
    destruct (llama2_loop bos eos system_message (Datatypes.S index0) l1) as [x|];
      [|reflexivity].
    cbn [bind].
    destruct (llama2_loop bos eos system_message
                (Datatypes.S (index0 + List.length l1)) l2) as [y|];
      [|reflexivity].
    cbn [bind]. now rewrite append_assoc.
Qed.

Lemma mistral_loop_ok (eos : string) (system_message : option string)
    (messages : list ChatMessage) :
  forall index0,
    user_parity (Nat.even index0) messages = true ->
    exists body,
      mistral_loop eos system_message index0 (map openai_format messages) = Ok body.
Proof.
  induction messages as [|m rest IH]; intros index0 H; [now exists ""|].
  cbn [map openai_format mistral_loop]. cbn [user_parity] in H.
  rewrite role_value_user. rewrite parity_step in H.
  apply andb_true_iff in H. destruct H as [Hm Hrest].
  destruct (xorb (is_from m USER) (Nat.even index0)); [discriminate|].
  rewrite Nat.negb_even, <- Nat.even_succ in Hrest.
  destruct (IH _ Hrest) as [body Hbody]. rewrite Hbody. eexists. reflexivity.
Qed.

Lemma llama2_loop_ok (bos eos : string) (system_message : option string)
    (messages : list ChatMessage) :
  forall index0,
    user_parity (Nat.even index0) messages = true ->
    exists body,
      llama2_loop bos eos system_message index0 (map openai_format messages)
      = Ok body.
Proof.
  induction messages as [|m rest IH]; intros index0 H; [now exists ""|].
  cbn [map openai_format llama2_loop]. cbn [user_parity] in H.
  rewrite role_value_user. rewrite parity_step in H.
  apply andb_true_iff in H. destruct H as [Hm Hrest].
  destruct (xorb (is_from m USER) (Nat.even index0)); [discriminate|].
  rewrite Nat.negb_even, <- Nat.even_succ in Hrest.
  destruct (IH _ Hrest) as [body Hbody]. rewrite Hbody. eexists. reflexivity.
Qed.

Lemma apply_chat_template_ok (self : Adapter) (messages : list ChatMessage) :
  messages <> [] -> user_parity true (after_system messages) = true ->
  exists prompt, apply_chat_template self messages = Ok prompt.
Proof.
  intros Hne H. destruct messages as [|m rest]; [congruence|].
  unfold apply_chat_template, mistral_chat_template, llama2_chat_template.
  cbn [map openai_format split_system]. rewrite role_value_system.
  cbn [after_system] in H.
  destruct (family self); destruct (is_from m SYSTEM); cbn [bind fst snd].
  - destruct (mistral_loop_ok (eos_token (tokenizer (prompt_handler self)))
                (Some (content m)) rest 0 H) as [b ->]. now eexists.
  - destruct (mistral_loop_ok (eos_token (tokenizer (prompt_handler self)))
                None (m :: rest) 0 H) as [b Hb].
    cbn [map openai_format] in Hb. rewrite Hb. now eexists.
  - destruct (mistral_loop_ok (eos_token (tokenizer (prompt_handler self)))
                (Some (content m)) rest 0 H) as [b ->]. now eexists.
  - destruct (mistral_loop_ok (eos_token (tokenizer (prompt_handler self)))
                None (m :: rest) 0 H) as [b Hb].
    cbn [map openai_format] in Hb. rewrite Hb. now eexists.
  - exact (llama2_loop_ok _ _ (Some (content m)) rest 0 H).
  - exact (llama2_loop_ok _ _ None (m :: rest) 0 H).
Qed.

(** X8: what [prepare_chat_messages] of the Mistral and Meta Llama 2 adapters
    does with a conversation: the empty conversation raises [IndexError] in
    the tokenizer, before the template is rendered; a conversation whose
    user messages are not exactly at the even positions (after an optional
    leading system message) raises the alternation error; every other
    conversation is formatted, and without truncation nothing is logged. *)
Theorem templated_prepare_chat_messages_outcomes
    (call : PromptHandler -> string -> ResizeInfo) (self : Adapter)
    (messages : list ChatMessage) :
  family self = Mistral \/ family self = MetaLlama2 ->
  (messages = [] ->
   templated_prepare_chat_messages call self messages = (Raise IndexError, []))
  /\ (user_parity true (after_system messages) = false ->
      templated_prepare_chat_messages call self messages
      = (Raise alternation_error, []))
  /\ (messages <> [] -> user_parity true (after_system messages) = true ->
      exists prompt log,
        templated_prepare_chat_messages call self messages = (Ok prompt, log)
        /\ (truncate self = false ->
            log = [] /\ apply_chat_template self messages = Ok prompt)).
Proof.
  intros Hfam. unfold templated_prepare_chat_messages. split; [|split].
  - intros ->. unfold apply_chat_template. now destruct (family self).
  - intros H. now rewrite (apply_chat_template_bad_parity self messages H).
  - intros Hne H. destruct (apply_chat_template_ok self messages Hne H) as [p Hp].
    rewrite Hp. unfold lift. cbn [lbind app].
    destruct (truncate self).
    + destruct (_ensure_token_limit_returns call self p) as [log ->].
      eexists. eexists. split; [reflexivity | discriminate].
    + unfold lret. exists p, []. split; [reflexivity|]. now split.
Qed.

Lemma templated_prepare_chat_messages_outcomes_witness :
  templated_prepare_chat_messages DefaultPromptHandler_call
    (mkAdapter Mistral false [] (mkPromptHandler char_tokenizer 32000 512)) []
  = (Raise IndexError, [])
  /\ templated_prepare_chat_messages DefaultPromptHandler_call
       (mkAdapter Mistral false [] (mkPromptHandler char_tokenizer 32000 512))
       [from_assistant "a" (VDict [])]
     = (Raise alternation_error, [])
  /\ exists prompt log,
       templated_prepare_chat_messages DefaultPromptHandler_call
         (mkAdapter Mistral false [] (mkPromptHandler char_tokenizer 32000 512))
         [from_user "a"; from_assistant "b" (VDict [])]
       = (Ok prompt, log)
       /\ (false = false ->
           log = []
           /\ apply_chat_template
                (mkAdapter Mistral false [] (mkPromptHandler char_tokenizer 32000 512))
                [from_user "a"; from_assistant "b" (VDict [])]
              = Ok prompt).
Proof.
  split; [|split].
  - exact (proj1 (templated_prepare_chat_messages_outcomes DefaultPromptHandler_call
             (mkAdapter Mistral false [] (mkPromptHandler char_tokenizer 32000 512))
             [] (or_introl eq_refl)) eq_refl).
  - exact (proj1 (proj2 (templated_prepare_chat_messages_outcomes
             DefaultPromptHandler_call
             (mkAdapter Mistral false [] (mkPromptHandler char_tokenizer 32000 512))
             [from_assistant "a" (VDict [])] (or_introl eq_refl))) eq_refl).
  - refine (proj2 (proj2 (templated_prepare_chat_messages_outcomes
             DefaultPromptHandler_call
             (mkAdapter Mistral false [] (mkPromptHandler char_tokenizer 32000 512))
             [from_user "a"; from_assistant "b" (VDict [])] (or_introl eq_refl)))
           _ eq_refl).
    discriminate.
Defined.

Lemma mistral_loop_later (eos : string) (system_message : option string)
    (l : list (string * string)) :
  forall index0,
    mistral_loop eos system_message (Datatypes.S index0) l
    = mistral_loop eos None (Datatypes.S index0) l.
Proof.
  induction l as [|[r c] l IH]; intros index0; [reflexivity|].
  cbn [mistral_loop]. rewrite IH. now destruct system_message.
Qed.

Lemma llama2_loop_later (bos eos : string) (system_message : option string)
    (l : list (string * string)) :
  forall index0,
    llama2_loop bos eos system_message (Datatypes.S index0) l
    = llama2_loop bos eos None (Datatypes.S index0) l.
Proof.
  induction l as [|[r c] l IH]; intros index0; [reflexivity|].
  cbn [llama2_loop]. rewrite IH. now destruct system_message.
Qed.

(** X9: in the Mistral and Meta Llama 2 templates a leading system message
    only changes the content of the message that follows it: the conversation
    formats like the one without the system message whose first content is
    the system text joined to it (directly for Mistral, inside the
    [<<SYS>>] markers for Meta Llama 2).  A system message alone leaves
    nothing but the head of the prompt. *)
Theorem leading_system_joins_first_content (self : Adapter) (system : string)
    (m : ChatMessage) (rest : list ChatMessage) :
  family self = Mistral \/ family self = MetaLlama2 ->
  is_from m SYSTEM = false ->
  apply_chat_template self (from_system system :: m :: rest)
  = apply_chat_template self
      (with_content m (with_system self system (content m)) :: rest)
  /\ apply_chat_template self [from_system system] = Ok (prompt_head self).
Proof.
  intros Hfam Hm.
  unfold apply_chat_template, mistral_chat_template, llama2_chat_template,
    with_system, prompt_head.
  cbn [map openai_format split_system from_system role content with_content
       role_value].
  rewrite role_value_system, Hm. cbn [String.eqb Ascii.eqb Bool.eqb bind fst snd].
  destruct Hfam as [-> | ->]; cbn [mistral_loop llama2_loop]; split.
  - rewrite (mistral_loop_later _ (Some system)). reflexivity.
  - cbn [bind]. now rewrite append_empty_r.
  - rewrite (llama2_loop_later _ _ (Some system)). reflexivity.
  - reflexivity.
Qed.

Lemma leading_system_joins_first_content_witness :
  apply_chat_template
    (mkAdapter Mistral false [] (mkPromptHandler char_tokenizer 32000 512))
    [from_system "Be brief."; from_user "Hi"]
  = apply_chat_template
      (mkAdapter Mistral false [] (mkPromptHandler char_tokenizer 32000 512))
      [from_user "Be brief.Hi"]
  /\ apply_chat_template
       (mkAdapter MetaLlama2 false [] (mkPromptHandler char_tokenizer 4096 512))
       [from_system "Be brief."]
     = Ok "".
Proof.
  split.
  - exact (proj1 (leading_system_joins_first_content
             (mkAdapter Mistral false [] (mkPromptHandler char_tokenizer 32000 512))
             "Be brief." (from_user "Hi") [] (or_introl eq_refl) eq_refl)).
  - exact (proj2 (leading_system_joins_first_content
             (mkAdapter MetaLlama2 false [] (mkPromptHandler char_tokenizer 4096 512))
             "Be brief." (from_user "Hi") [] (or_intror eq_refl) eq_refl)).
Defined.

Lemma mistral_loop_snoc (eos : string) (system_message : option string)
    (messages : list ChatMessage) (m : ChatMessage) (body : string) :
  messages <> [] ->
  mistral_loop eos system_message 0 (map openai_format messages) = Ok body ->
  mistral_loop eos system_message 0 (map openai_format (messages ++ [m]))
  = if Bool.eqb (is_from m USER) (Nat.even (List.length messages))
    then Ok (body ++ (if is_from m USER
                      then "[INST] " ++ strip (content m) ++ " [/INST]"
                      else if is_from m ASSISTANT then strip (content m) ++ eos
                      else ""))%string
    else Raise alternation_error.
Proof.
  intros Hne Hbody. rewrite map_app, mistral_loop_app, Hbody. cbn [bind Nat.add].
  rewrite length_map. destruct messages as [|m0 rest]; [congruence|].
  cbn [List.length map openai_format mistral_loop].
  rewrite role_value_user, role_value_assistant, parity_step.
  destruct (xorb (is_from m USER) (Nat.even (Datatypes.S (List.length rest))));
    [reflexivity|].
  cbn [negb bind]. now rewrite append_empty_r.
Qed.

Lemma llama2_loop_snoc (bos eos : string) (system_message : option string)
    (messages : list ChatMessage) (m : ChatMessage) (body : string) :
  messages <> [] ->
  llama2_loop bos eos system_message 0 (map openai_format messages) = Ok body ->
  llama2_loop bos eos system_message 0 (map openai_format (messages ++ [m]))
  = if Bool.eqb (is_from m USER) (Nat.even (List.length messages))
    then Ok (body ++ (if is_from m USER
                      then bos ++ "[INST] " ++ strip (content m) ++ " [/INST]"
                      else if is_from m ASSISTANT
                      then " " ++ strip (content m) ++ " " ++ eos
                      else ""))%string
    else Raise alternation_error.
Proof.
  intros Hne Hbody. rewrite map_app, llama2_loop_app, Hbody. cbn [bind Nat.add].
  rewrite length_map. destruct messages as [|m0 rest]; [congruence|].
  cbn [List.length map openai_format llama2_loop].
  rewrite role_value_user, role_value_assistant, parity_step.
  destruct (xorb (is_from m USER) (Nat.even (Datatypes.S (List.length rest))));
    [reflexivity|].
  cbn [negb bind]. now rewrite append_empty_r.
Qed.

(** X10: the prompt grows by appending.  When a conversation with at least
    one message after the optional system message is formatted, one more
    message extends the prompt by that message's turn alone, provided it is a
    user message exactly when it lands on an even position (a message that is
    neither user nor assistant adds nothing); otherwise the longer
    conversation raises the alternation error. *)
Theorem apply_chat_template_extends (self : Adapter) (messages : list ChatMessage)
    (m : ChatMessage) (prompt : string) :
  family self = Mistral \/ family self = MetaLlama2 ->
  apply_chat_template self messages = Ok prompt ->
  after_system messages <> [] ->
  apply_chat_template self (messages ++ [m])
  = if Bool.eqb (is_from m USER) (Nat.even (List.length (after_system messages)))
    then Ok (prompt ++ rendered_turn self (content m) m)%string
    else Raise alternation_error.
Proof.
  intros Hfam Hp Hne. destruct messages as [|m0 rest]; [now elim Hne|].
  revert Hp. unfold apply_chat_template, mistral_chat_template,
    llama2_chat_template, rendered_turn.
  cbn [app map openai_format split_system]. rewrite role_value_system.
  cbn [after_system] in *.
  destruct Hfam as [-> | ->]; destruct (is_from m0 SYSTEM); cbn [bind fst snd].
  - destruct (mistral_loop _ _ 0 (map openai_format rest)) as [body|] eqn:Hb;
      [|discriminate].
    cbn [bind]. intros H; injection H as <-.
    rewrite (mistral_loop_snoc _ _ rest m body Hne Hb).
    destruct (Bool.eqb _ _); [|reflexivity]. cbn [bind]. now rewrite append_assoc.
  - change (openai_format m0 :: map openai_format (rest ++ [m]))
      with (map openai_format ((m0 :: rest) ++ [m])).
    change (openai_format m0 :: map openai_format rest)
      with (map openai_format (m0 :: rest)).
    destruct (mistral_loop _ _ 0 (map openai_format (m0 :: rest))) as [body|] eqn:Hb;
      [|discriminate].
    cbn [bind]. intros H; injection H as <-.
    rewrite (mistral_loop_snoc _ _ (m0 :: rest) m body Hne Hb).
    destruct (Bool.eqb _ _); [|reflexivity]. cbn [bind]. now rewrite append_assoc.
  - intros Hb. now rewrite (llama2_loop_snoc _ _ _ rest m prompt Hne Hb).
  - change (openai_format m0 :: map openai_format (rest ++ [m]))
      with (map openai_format ((m0 :: rest) ++ [m])).
    change (openai_format m0 :: map openai_format rest)
      with (map openai_format (m0 :: rest)).
    intros Hb. now rewrite (llama2_loop_snoc _ _ _ (m0 :: rest) m prompt Hne Hb).
Qed.

Lemma apply_chat_template_extends_witness :
  apply_chat_template
    (mkAdapter MetaLlama2 false [] (mkPromptHandler char_tokenizer 4096 512))
    ([from_user "a"; from_assistant "b" (VDict [])] ++ [from_user "c"])
  = Ok ("<s>[INST] a [/INST] b </s>" ++ "<s>[INST] c [/INST]")%string.
Proof.
  refine (apply_chat_template_extends
            (mkAdapter MetaLlama2 false [] (mkPromptHandler char_tokenizer 4096 512))
            [from_user "a"; from_assistant "b" (VDict [])] (from_user "c")
            "<s>[INST] a [/INST] b </s>" (or_intror eq_refl) eq_refl _).
  discriminate.
Defined.

(* ----------------------------------------------------------------- *)
(** *** Request bodies: keys, stop words, warnings *)

Lemma keys_dict_set_eq (k : string) (v : value) (d : dict) :
  keys (dict_set k v d) = if dict_mem k d then keys d else keys d ++ [k].
Proof.
  unfold dict_mem. induction d as [|[k' v'] d IH]; simpl; [reflexivity|].
  destruct (String.eqb_spec k k') as [->|Hne]; simpl; [reflexivity|].
  rewrite IH. now destruct (dict_get k d).
Qed.

Lemma wf_dict_set (k : string) (v : value) (d : dict) :
  wf_dict d -> wf_dict (dict_set k v d).
Proof.
  unfold wf_dict. intros H. rewrite keys_dict_set_eq. unfold dict_mem.
  destruct (dict_get k d) eqn:E; [assumption|].
  apply NoDup_app; [assumption | repeat constructor; intros [] |].
  intros x Hx [<-|[]]. now apply dict_get_None_keys in E.
Qed.

Lemma keys_dict_remove (k : string) (d : dict) :
  keys (dict_remove k d) = filter (fun k' => negb (String.eqb k k')) (keys d).
Proof.
  unfold dict_remove, keys. induction d as [|[k' v'] d IH]; simpl; [reflexivity|].
  destruct (String.eqb k k'); simpl; now rewrite IH.
Qed.

Lemma wf_dict_remove (k : string) (d : dict) :
  wf_dict d -> wf_dict (dict_remove k d).
Proof.
  unfold wf_dict. rewrite keys_dict_remove. apply NoDup_filter.
Qed.

Lemma dict_get_remove (k k' : string) (d : dict) :
  dict_get k (dict_remove k' d)
  = if String.eqb k' k then None else dict_get k d.
Proof.
  unfold dict_remove. induction d as [|[k0 v0] d IH]; simpl.
  - now destruct (String.eqb k' k).
  - destruct (String.eqb_spec k' k0) as [E1|E1]; simpl; rewrite ?IH;
      destruct (String.eqb_spec k k0) as [E2|E2];
      destruct (String.eqb_spec k' k) as [E3|E3];
      try reflexivity; congruence.
Qed.

Lemma keys_dict_union (k : string) (b : dict) :
  forall a, In k (keys (dict_union a b)) <-> In k (keys a) \/ In k (keys b).
Proof.
  unfold dict_union. induction b as [|[k0 v0] b IH]; intros a; simpl.
  - tauto.
  - rewrite IH, keys_dict_set. intuition.
Qed.

Lemma dict_get_union (k : string) (b : dict) :
  forall a,
    wf_dict b ->
    dict_get k (dict_union a b)
    = match dict_get k b with
      | Some v => Some v
      | None => dict_get k a
      end.
Proof.
  unfold dict_union, wf_dict. induction b as [|[k0 v0] b IH]; intros a Hwf;
    [reflexivity|].
  cbn [keys map fst] in Hwf. inversion Hwf as [|? ? Hnotin Hwf']; subst.
  cbn [fold_left fst snd dict_get]. rewrite (IH _ Hwf').
  destruct (String.eqb_spec k k0) as [->|Hne].
  - apply dict_get_None_keys in Hnotin. rewrite Hnotin. apply dict_get_set_same.
  - now rewrite dict_get_set_other.
Qed.

Lemma _update_params_keeps_keys (updates : dict) :
  forall (target : dict) (allowed : list string) (r : dict) (log : list LogRecord) k,
    _update_params target updates allowed = (Ok r, log) ->
    In k (keys target) -> In k (keys r).
Proof.
  induction updates as [|[key v] rest IH]; intros target allowed r log k H Hk.
  - now injection H as <- _.
  - apply _update_params_step in H.
    destruct H as [(_ & log' & H & _) | (_ & x & H & _)].
    + exact (IH _ _ _ _ _ H Hk).
    + apply (IH _ _ _ _ _ H). apply keys_dict_set. now right.
Qed.

Lemma _update_params_wf (updates : dict) :
  forall (target : dict) (allowed : list string) (r : dict) (log : list LogRecord),
    _update_params target updates allowed = (Ok r, log) ->
    wf_dict target -> wf_dict r.
Proof.
  induction updates as [|[key v] rest IH]; intros target allowed r log H Hwf.
  - now injection H as <- _.
  - apply _update_params_step in H.
    destruct H as [(_ & log' & H & _) | (_ & x & H & _)].
    + exact (IH _ _ _ _ H Hwf).
    + apply (IH _ _ _ _ H). now apply wf_dict_set.
Qed.

Lemma _get_params_inv (self : Adapter) (inference_kwargs default_params : dict)
    (allowed : list string) (r : dict) (log : list LogRecord) :
  _get_params self inference_kwargs default_params allowed = (Ok r, log) ->
  exists kwargs log1 log2,
    _update_params default_params (generation_kwargs self) allowed = (Ok kwargs, log1)
    /\ _update_params kwargs inference_kwargs allowed = (Ok r, log2)
    /\ log = log1 ++ log2.
Proof.
  unfold _get_params. intros H. apply lbind_Ok in H.
  destruct H as (kw & l1 & l2 & H1 & H2 & ->). now exists kw, l1, l2.
Qed.

(** The inference kwargs as [prepare_body] hands them to the merge. *)
Lemma merged_params_inv (self : Adapter) (inference_kwargs params : dict)
    (log : list LogRecord) :
  merged_params self inference_kwargs = (Ok params, log) ->
  exists kw default_params,
    _get_params self kw default_params (ALLOWED_PARAMS (family self))
    = (Ok params, log)
    /\ match family self with
       | AnthropicClaude =>
           anthropic_inference_kwargs inference_kwargs = Ok kw
           /\ default_params = anthropic_default_params self
       | Mistral =>
           kw = mistral_inference_kwargs inference_kwargs
           /\ default_params = mistral_default_params self
       | MetaLlama2 =>
           kw = inference_kwargs /\ default_params = llama2_default_params self
       end.
Proof.
  unfold merged_params. destruct (family self); intros H.
  - destruct (anthropic_inference_kwargs inference_kwargs) as [kw|] eqn:Hkw;
      [|discriminate].
    unfold lift, lbind in H.
    destruct (_get_params self kw (anthropic_default_params self)
                (ALLOWED_PARAMS AnthropicClaude)) as [res l] eqn:Hg.
    cbn [app] in H. rewrite H in Hg. now exists kw, (anthropic_default_params self).
  - exists (mistral_inference_kwargs inference_kwargs), (mistral_default_params self).
    now repeat split.
  - exists inference_kwargs, (llama2_default_params self). now repeat split.
Qed.

(** A returned body is the formatted messages overlaid with the merged
    parameters, and the log is the merge's followed by the formatting's. *)
Lemma prepare_body_inv (call : PromptHandler -> string -> ResizeInfo)
    (self : Adapter) (messages : list ChatMessage) (inference_kwargs body : dict)
    (log : list LogRecord) :
  prepare_body call self messages inference_kwargs = (Ok body, log) ->
  exists params chat log1 log2,
    merged_params self inference_kwargs = (Ok params, log1)
    /\ log = log1 ++ log2
    /\ body = dict_union chat params
    /\ match family self with
       | AnthropicClaude =>
           anthropic_prepare_chat_messages call self messages = (Ok chat, log2)
       | _ =>
           exists prompt,
             templated_prepare_chat_messages call self messages = (Ok prompt, log2)
             /\ chat = [("prompt", VStr prompt)]
       end.
Proof.
  unfold prepare_body, merged_params. destruct (family self); intros H.
  - unfold anthropic_prepare_body in H.
    destruct (anthropic_inference_kwargs inference_kwargs) as [kw|];
      [|discriminate].
    unfold lift in *. cbn [lbind] in H.
    destruct (_get_params self kw (anthropic_default_params self)
                (ALLOWED_PARAMS AnthropicClaude)) as [[params|e] log1] eqn:Hp;
      cbn [lbind] in H; [|discriminate].
    destruct (anthropic_prepare_chat_messages call self messages)
      as [[chat|e] log2] eqn:Hc; cbn [lbind lret] in H; [|discriminate].
    injection H as <- <-. exists params, chat, log1, log2.
    cbn [lbind]. rewrite Hp. cbn [app]. rewrite app_nil_r. now repeat split.
  - unfold mistral_prepare_body in H. apply lbind_Ok in H.
    destruct H as (params & log1 & l & Hp & H & ->). apply lbind_Ok in H.
    destruct H as (prompt & log2 & l' & Hc & H & ->).
    injection H as <- <-. exists params, [("prompt", VStr prompt)], log1, log2.
    rewrite app_nil_r. repeat split; [assumption|]. now exists prompt.
  - unfold llama2_prepare_body in H. apply lbind_Ok in H.
    destruct H as (params & log1 & l & Hp & H & ->). apply lbind_Ok in H.
    destruct H as (prompt & log2 & l' & Hc & H & ->).
    injection H as <- <-. exists params, [("prompt", VStr prompt)], log1, log2.
    rewrite app_nil_r. repeat split; [assumption|]. now exists prompt.
Qed.

Lemma anthropic_prepare_chat_messages_keys
    (call : PromptHandler -> string -> ResizeInfo) (self : Adapter)
    (messages : list ChatMessage) (chat : dict) (log : list LogRecord) :
  anthropic_prepare_chat_messages call self messages = (Ok chat, log) ->
  In "messages" (keys chat)
  /\ forall k, In k (keys chat) -> k = "messages" \/ k = "system".
Proof.
  unfold anthropic_prepare_chat_messages.
  set (body0 := [("messages", VList (map _to_anthropic_message
                                       (filter user_or_assistant messages)))]).
  set (system := match messages with
                 | m :: _ => if is_from m SYSTEM then Some (content m) else None
                 | [] => None
                 end).
  set (body1 := match system with
                | Some s => if truthy (VStr s) then dict_set "system" (VStr s) body0
                            else body0
                | None => body0
                end).
  assert (Hkeys : In "messages" (keys body1)
                  /\ forall k, In k (keys body1) -> k = "messages" \/ k = "system").
  { unfold body1. destruct system as [s|].
    - destruct (truthy (VStr s)); simpl; intuition.
    - simpl. intuition. }
  destruct (truncate self).
  - destruct (lmapM_ensure_token_limit call self (filter user_or_assistant messages))
      as [l Hl].
    rewrite Hl. unfold lbind, lret. intros H. injection H as <- _. split.
    + apply keys_dict_set. now left.
    + intros k Hk. apply keys_dict_set in Hk. destruct Hk as [->|Hk];
        [now left | now apply Hkeys].
  - unfold lret. intros H. injection H as <- _. exact Hkeys.
Qed.

Lemma default_params_wf (self : Adapter) :
  wf_dict (anthropic_default_params self)
  /\ wf_dict (mistral_default_params self)
  /\ wf_dict (llama2_default_params self).
Proof.
  unfold wf_dict. repeat split; simpl; repeat constructor; simpl;
    intuition discriminate.
Qed.

Lemma default_params_length_key (self : Adapter) :
  In "max_tokens" (keys (anthropic_default_params self))
  /\ In "max_tokens" (keys (mistral_default_params self))
  /\ In "max_gen_len" (keys (llama2_default_params self)).
Proof.
  simpl. tauto.
Qed.

(** What holds of the merged parameters of a body. *)
Lemma merged_params_facts (self : Adapter) (inference_kwargs params : dict)
    (log : list LogRecord) :
  merged_params self inference_kwargs = (Ok params, log) ->
  (forall k, In k (keys params) -> In k (ALLOWED_PARAMS (family self)))
  /\ In (max_length_key (family self)) (keys params)
  /\ wf_dict params.
Proof.
  intros H. apply merged_params_inv in H. destruct H as (kw & dp & H & Hf).
  pose proof (default_params_allowed self) as Hd.
  pose proof (default_params_wf self) as (Hw1 & Hw2 & Hw3).
  pose proof (default_params_length_key self) as (Hl1 & Hl2 & Hl3).
  pose proof (proj1 (_get_params_result_keys _ _ _ _ _ _ H)) as Hk.
  apply _get_params_inv in H. destruct H as (kw1 & l1 & l2 & H1 & H2 & _).
  assert (Hkeep : forall k, In k (keys dp) -> In k (keys params))
    by (intros k Hin; eapply _update_params_keeps_keys; [exact H2|];
        eapply _update_params_keeps_keys; [exact H1 | exact Hin]).
  assert (Hwf : wf_dict dp -> wf_dict params)
    by (intros Hw; eapply _update_params_wf; [exact H2|];
        eapply _update_params_wf; [exact H1 | exact Hw]).
  destruct (family self); destruct Hf as [_ ->]; simpl max_length_key;
    (split; [intros k Hin; destruct (Hk k Hin); [now apply Hd | assumption]|]);
    (split; [now apply Hkeep | now apply Hwf]).
Qed.

Lemma In_dropped_warnings (k : string) (d : dict) (allowed : list string) :
  In k (keys d) -> ~ In k allowed ->
  In (not_allowed_warning k) (dropped_warnings d allowed).
Proof.
  intros Hk Hno. unfold dropped_warnings. apply in_map. apply filter_In.
  split; [assumption|]. apply str_in_not_In in Hno. now rewrite Hno.
Qed.

(** The keys of a returned body. *)
Lemma prepare_body_result_keys (call : PromptHandler -> string -> ResizeInfo)
    (self : Adapter) (messages : list ChatMessage) (inference_kwargs body : dict)
    (log : list LogRecord) :
  prepare_body call self messages inference_kwargs = (Ok body, log) ->
  In (message_key (family self)) (keys body)
  /\ In (max_length_key (family self)) (keys body)
  /\ forall k, In k (keys body) ->
               In k (message_keys (family self))
               \/ In k (ALLOWED_PARAMS (family self)).
Proof.
  intros H. apply prepare_body_inv in H.
  destruct H as (params & chat & log1 & log2 & Hp & _ & -> & Hc).
  apply merged_params_facts in Hp. destruct Hp as (Hallowed & Hlen & _).
  assert (Hchat : In (message_key (family self)) (keys chat)
                  /\ forall k, In k (keys chat) -> In k (message_keys (family self))).
  { destruct (family self).
    - apply anthropic_prepare_chat_messages_keys in Hc. destruct Hc as [H1 H2].
      split; [exact H1|]. intros k Hk. simpl. destruct (H2 k Hk); auto.
    - destruct Hc as (prompt & _ & ->). simpl. tauto.
    - destruct Hc as (prompt & _ & ->). simpl. tauto. }
  destruct Hchat as [Hm Hmk]. split; [|split].
  - apply keys_dict_union. now left.
  - apply keys_dict_union. now right.
  - intros k Hk. apply keys_dict_union in Hk. destruct Hk as [Hk|Hk];
      [left; now apply Hmk | right; now apply Hallowed].
Qed.

(** X11: whenever [prepare_body] returns a body, the body holds the messages
    ([messages] for Anthropic, [prompt] for the others) and the generation
    budget ([max_tokens], or [max_gen_len] for Meta Llama 2), and every other
    key is [system] (Anthropic only) or one of the adapter's allowed
    parameters. *)
Theorem prepare_body_keys (call : PromptHandler -> string -> ResizeInfo)
    (self : Adapter) (messages : list ChatMessage) (inference_kwargs body : dict)
    (log : list LogRecord) :
  prepare_body call self messages inference_kwargs = (Ok body, log) ->
  In (message_key (family self)) (keys body)
  /\ In (max_length_key (family self)) (keys body)
  /\ forall k, In k (keys body) ->
               In k (message_keys (family self))
               \/ In k (ALLOWED_PARAMS (family self)).
Proof.
  apply prepare_body_result_keys.
Qed.

Lemma prepare_body_keys_witness :
  In (message_key MetaLlama2)
     (keys [("prompt", VStr "<s>[INST] a [/INST]"); ("max_gen_len", VInt 512);
            ("temperature", VInt 1)])
  /\ In (max_length_key MetaLlama2)
        (keys [("prompt", VStr "<s>[INST] a [/INST]"); ("max_gen_len", VInt 512);
               ("temperature", VInt 1)])
  /\ forall k,
       In k (keys [("prompt", VStr "<s>[INST] a [/INST]"); ("max_gen_len", VInt 512);
                   ("temperature", VInt 1)]) ->
       In k (message_keys MetaLlama2) \/ In k (ALLOWED_PARAMS MetaLlama2).
Proof.
  exact (prepare_body_keys DefaultPromptHandler_call
           (mkAdapter MetaLlama2 false [] (mkPromptHandler char_tokenizer 4096 512))
           [from_user "a"] [("temperature", VInt 1); ("stream", VBool true)]
           [("prompt", VStr "<s>[INST] a [/INST]"); ("max_gen_len", VInt 512);
            ("temperature", VInt 1)]
           [not_allowed_warning "stream"] eq_refl).
Defined.

(** X12: when [prepare_body] returns, every generation kwarg of the adapter
    that is not an allowed parameter has been warned about in this call; the
    Meta Llama 2 adapter, which removes nothing from the inference kwargs,
    warns likewise about each of them that is not allowed, [stream] and
    [stop_words] included. *)
Theorem prepare_body_warns_unsupported
    (call : PromptHandler -> string -> ResizeInfo) (self : Adapter)
    (messages : list ChatMessage) (inference_kwargs body : dict)
    (log : list LogRecord) :
  prepare_body call self messages inference_kwargs = (Ok body, log) ->
  (forall k, In k (keys (generation_kwargs self)) ->
             ~ In k (ALLOWED_PARAMS (family self)) ->
             In (not_allowed_warning k) log)
  /\ (family self = MetaLlama2 ->
      forall k, In k (keys inference_kwargs) ->
                ~ In k (ALLOWED_PARAMS MetaLlama2) ->
                In (not_allowed_warning k) log).
Proof.
  intros H. apply prepare_body_inv in H.
  destruct H as (params & chat & log1 & log2 & Hp & -> & _ & _).
  apply merged_params_inv in Hp. destruct Hp as (kw & dp & Hg & Hf).
  apply _get_params_result_keys in Hg. destruct Hg as [_ ->]. split.
  - intros k Hk Hno. apply in_or_app. left. apply in_or_app. left.
    now apply In_dropped_warnings.
  - intros Hfam k Hk Hno. rewrite Hfam in *. destruct Hf as [-> _].
    apply in_or_app. left. apply in_or_app. right.
    now apply In_dropped_warnings.
Qed.

Lemma prepare_body_warns_unsupported_witness :
  In (not_allowed_warning "stream") [not_allowed_warning "stream"].
Proof.
  refine (proj2 (prepare_body_warns_unsupported DefaultPromptHandler_call
           (mkAdapter MetaLlama2 false [] (mkPromptHandler char_tokenizer 4096 512))
           [from_user "a"] [("temperature", VInt 1); ("stream", VBool true)]
           [("prompt", VStr "<s>[INST] a [/INST]"); ("max_gen_len", VInt 512);
            ("temperature", VInt 1)]
           [not_allowed_warning "stream"] eq_refl) eq_refl "stream" _ _).
  - simpl. tauto.
  - simpl. intuition discriminate.
Defined.

Lemma get_default_remove (k k' : string) (d : dict) (default : value) :
  k <> k' -> get_default k (dict_remove k' d) default = get_default k d default.
Proof.
  intros Hne. unfold get_default. rewrite dict_get_remove.
  destruct (String.eqb_spec k' k); [congruence | reflexivity].
Qed.

(** X13: the Mistral adapter renames non-empty stop words to [stop], which
    is not one of its allowed parameters: the call logs the warning for
    [stop], and the body carries neither [stop] nor [stop_words]. *)
Theorem mistral_stop_words_are_dropped
    (call : PromptHandler -> string -> ResizeInfo) (self : Adapter)
    (messages : list ChatMessage) (inference_kwargs body : dict)
    (log : list LogRecord) :
  family self = Mistral ->
  truthy (get_default "stop_words" inference_kwargs (VList [])) = true ->
  prepare_body call self messages inference_kwargs = (Ok body, log) ->
  In (not_allowed_warning "stop") log
  /\ dict_get "stop" body = None
  /\ dict_get "stop_words" body = None.
Proof.
  intros Hfam Hsw H.
  pose proof (prepare_body_result_keys call self messages inference_kwargs body
                log H) as (_ & _ & Hkeys).
  apply prepare_body_inv in H.
  destruct H as (params & chat & log1 & log2 & Hp & -> & _ & _).
  apply merged_params_inv in Hp. destruct Hp as (kw & dp & Hg & Hf).
  apply _get_params_result_keys in Hg. destruct Hg as [_ ->].
  rewrite Hfam in *. destruct Hf as [-> _]. split; [|split].
  - apply in_or_app. left. apply in_or_app. right. apply In_dropped_warnings.
    + unfold mistral_inference_kwargs. rewrite Hsw, keys_dict_remove.
      apply filter_In. split; [|reflexivity]. apply keys_dict_set. now left.
    + simpl. intuition discriminate.
  - apply dict_get_None_keys. intros Hin.
    destruct (Hkeys _ Hin) as [Hk|Hk]; simpl in Hk; intuition discriminate.
  - apply dict_get_None_keys. intros Hin.
    destruct (Hkeys _ Hin) as [Hk|Hk]; simpl in Hk; intuition discriminate.
Qed.

Lemma mistral_stop_words_are_dropped_witness :
  In (not_allowed_warning "stop") [not_allowed_warning "stop"]
  /\ dict_get "stop" [("prompt", VStr "<s>[INST] a [/INST]"); ("max_tokens", VInt 512)]
     = None
  /\ dict_get "stop_words"
       [("prompt", VStr "<s>[INST] a [/INST]"); ("max_tokens", VInt 512)]
     = None.
Proof.
  exact (mistral_stop_words_are_dropped DefaultPromptHandler_call
           (mkAdapter Mistral false [] (mkPromptHandler char_tokenizer 32000 512))
           [from_user "a"] [("stop_words", VList [VStr "END"])]
           [("prompt", VStr "<s>[INST] a [/INST]"); ("max_tokens", VInt 512)]
           [not_allowed_warning "stop"] eq_refl eq_refl eq_refl).
Defined.

Lemma anthropic_inference_kwargs_inv (inference_kwargs kw : dict)
    (ss sw : list value) :
  get_default "stop_sequences" inference_kwargs (VList []) = VList ss ->
  get_default "stop_words" inference_kwargs (VList []) = VList sw ->
  anthropic_inference_kwargs inference_kwargs
  = Ok (dict_remove "stream"
          (if truthy (VList (ss ++ sw))
           then dict_set "stop_sequences" (VList (ss ++ sw))
                  (dict_remove "stop_words" inference_kwargs)
           else dict_remove "stop_words" inference_kwargs)).
Proof.
  intros Hss Hsw. unfold anthropic_inference_kwargs. rewrite Hss, Hsw. reflexivity.
Qed.

(** X14: the Anthropic adapter appends the stop words of a call to its stop
    sequences.  When the adapter has no stop sequences of its own, the
    concatenation reaches the body as it is, in order and with any
    duplicates; when it has a list of strings, the body holds the strictly
    increasing list of all the strings.  [stop_words] itself never reaches
    the body. *)
Theorem anthropic_stop_words_join_stop_sequences
    (call : PromptHandler -> string -> ResizeInfo) (self : Adapter)
    (messages : list ChatMessage) (inference_kwargs body : dict)
    (log : list LogRecord) (ss sw : list value) :
  family self = AnthropicClaude ->
  wf_dict (generation_kwargs self) -> wf_dict inference_kwargs ->
  get_default "stop_sequences" inference_kwargs (VList []) = VList ss ->
  get_default "stop_words" inference_kwargs (VList []) = VList sw ->
  ss ++ sw <> [] ->
  prepare_body call self messages inference_kwargs = (Ok body, log) ->
  (dict_get "stop_sequences" (generation_kwargs self) = None ->
   dict_get "stop_sequences" body = Some (VList (ss ++ sw)))
  /\ (forall old,
         dict_get "stop_sequences" (generation_kwargs self) = Some (VList old) ->
         forallb is_str old = true -> forallb is_str (ss ++ sw) = true ->
         exists m,
           dict_get "stop_sequences" body = Some (VList (map VStr m))
           /\ strictly_sorted m
           /\ forall s, In s m <-> In (VStr s) old \/ In (VStr s) (ss ++ sw))
  /\ dict_get "stop_words" body = None.
Proof.
  intros Hfam Hwfg Hwfi Hss Hsw Hne H.
  pose proof (prepare_body_result_keys call self messages inference_kwargs body
                log H) as (_ & _ & Hkeys).
  apply prepare_body_inv in H.
  destruct H as (params & chat & log1 & log2 & Hp & _ & -> & Hc).
  pose proof (merged_params_facts _ _ _ _ Hp) as (_ & _ & Hwfp).
  apply merged_params_inv in Hp. destruct Hp as (kw & dp & Hg & Hf).
  rewrite Hfam in *. destruct Hf as [Hkw ->].
  rewrite (anthropic_inference_kwargs_inv inference_kwargs kw ss sw Hss Hsw) in Hkw.
  assert (Htruthy : truthy (VList (ss ++ sw)) = true)
    by (destruct (ss ++ sw); [congruence | reflexivity]).
  rewrite Htruthy in Hkw. injection Hkw as <-.
  set (kw := dict_remove "stream" _) in *.
  assert (Hwfkw : wf_dict kw)
    by (apply wf_dict_remove, wf_dict_set, wf_dict_remove, Hwfi).
  assert (Hget : dict_get "stop_sequences" kw = Some (VList (ss ++ sw))).
  { unfold kw. rewrite dict_get_remove. simpl. apply dict_get_set_same. }
  assert (Hin : In "stop_sequences" (ALLOWED_PARAMS AnthropicClaude))
    by (simpl; tauto).
  apply _get_params_inv in Hg. destruct Hg as (kw1 & l1 & l2 & H1 & H2 & _).
  destruct (_update_params_hit kw kw1 _ params l2 "stop_sequences" _ Hwfkw H2 Hin Hget)
    as (x & Hx & Hr).
  assert (Hbody : dict_get "stop_sequences" (dict_union chat params) = Some x)
    by (rewrite (dict_get_union _ params chat Hwfp), Hr; reflexivity).
  split; [|split].
  - intros Hnone.
    rewrite (_update_params_frame _ _ _ _ _ "stop_sequences" H1) in Hx
      by (right; now apply dict_get_None_keys).
    simpl in Hx. injection Hx as <-. exact Hbody.
  - intros old Hold Hso Hsn.
    destruct (_update_params_hit _ _ _ kw1 l1 "stop_sequences" _ Hwfg H1 Hin Hold)
      as (y & Hy & Hr1).
    simpl in Hy. injection Hy as <-. rewrite Hr1 in Hx.
    destruct (merge_string_lists old (ss ++ sw) Hso Hsn) as (m & Hm & Hsorted & Hmem).
    exists m. split; [|now split].
    rewrite Hbody. f_equal. unfold merge_value in Hx. rewrite Hm in Hx.
    simpl in Hx. now injection Hx as <-.
  - apply dict_get_None_keys. intros Hk.
    destruct (Hkeys _ Hk) as [Hk'|Hk']; simpl in Hk'; intuition discriminate.
Qed.

Lemma anthropic_stop_words_join_stop_sequences_witness :
  dict_get "stop_sequences"
    [("messages",
      VList [VDict [("content",
                     VList [VDict [("type", VStr "text"); ("text", VStr "Hi")]]);
                    ("role", VStr "user")]]);
     ("anthropic_version", VStr "bedrock-2023-05-31"); ("max_tokens", VInt 512);
     ("stop_sequences", VList [VStr "b"; VStr "a"; VStr "b"])]
  = Some (VList ([VStr "b"] ++ [VStr "a"; VStr "b"])).
Proof.
  assert (Hwf : wf_dict [("stop_sequences", VList [VStr "b"]);
                         ("stop_words", VList [VStr "a"; VStr "b"])]).
  { unfold wf_dict. simpl. repeat constructor; simpl; intuition discriminate. }
  refine (proj1 (anthropic_stop_words_join_stop_sequences DefaultPromptHandler_call
            (mkAdapter AnthropicClaude false []
               (mkPromptHandler char_tokenizer 100000 512))
            [from_user "Hi"]
            [("stop_sequences", VList [VStr "b"]);
             ("stop_words", VList [VStr "a"; VStr "b"])]
            _ [] [VStr "b"] [VStr "a"; VStr "b"]
            eq_refl (NoDup_nil _) Hwf eq_refl eq_refl _ eq_refl) eq_refl).
  discriminate.
Defined.

(** X15: the Anthropic adapter adds the stop words (a list, or the default
    empty list) to whatever [stop_sequences] holds: a [stop_sequences] that
    is not a list makes [prepare_body] raise [TypeError] before anything is
    merged or logged. *)
Theorem anthropic_stop_sequences_must_be_list
    (call : PromptHandler -> string -> ResizeInfo) (self : Adapter)
    (messages : list ChatMessage) (inference_kwargs : dict) (v : value)
    (sw : list value) :
  family self = AnthropicClaude ->
  dict_get "stop_sequences" inference_kwargs = Some v -> is_list v = false ->
  get_default "stop_words" inference_kwargs (VList []) = VList sw ->
  prepare_body call self messages inference_kwargs = (Raise TypeError, []).
Proof.
  intros Hfam Hv Hnl Hsw. unfold prepare_body. rewrite Hfam.
  unfold anthropic_prepare_body, anthropic_inference_kwargs.
  rewrite Hsw. unfold get_default at 1. rewrite Hv.
  destruct v as [|b|z|s|l|d]; try discriminate Hnl; reflexivity.
Qed.

Lemma anthropic_stop_sequences_must_be_list_witness :
  prepare_body DefaultPromptHandler_call
    (mkAdapter AnthropicClaude false [] (mkPromptHandler char_tokenizer 100000 512))
    [from_user "Hi"] [("stop_sequences", VStr "END")]
  = (Raise TypeError, []).
Proof.
  exact (anthropic_stop_sequences_must_be_list DefaultPromptHandler_call
           (mkAdapter AnthropicClaude false []
              (mkPromptHandler char_tokenizer 100000 512))
           [from_user "Hi"] [("stop_sequences", VStr "END")] (VStr "END") []
           eq_refl eq_refl eq_refl eq_refl).
Defined.

Lemma dict_remove_comm (a b : string) (d : dict) :
  dict_remove a (dict_remove b d) = dict_remove b (dict_remove a d).
Proof.
  unfold dict_remove. induction d as [|[k v] d IH]; simpl; [reflexivity|].
  destruct (String.eqb b k) eqn:Eb; destruct (String.eqb a k) eqn:Ea; simpl;
    rewrite ?Ea, ?Eb; simpl; now rewrite IH.
Qed.

Lemma dict_remove_idem (a : string) (d : dict) :
  dict_remove a (dict_remove a d) = dict_remove a d.
Proof.
  unfold dict_remove. induction d as [|[k v] d IH]; simpl; [reflexivity|].
  destruct (String.eqb a k) eqn:Ea; simpl; rewrite ?Ea; simpl; now rewrite IH.
Qed.

Lemma dict_remove_set (a k : string) (v : value) (d : dict) :
  a <> k -> dict_remove a (dict_set k v d) = dict_set k v (dict_remove a d).
Proof.
  intros Hne. unfold dict_remove. induction d as [|[k0 v0] d IH]; simpl.
  - destruct (String.eqb_spec a k); [congruence | reflexivity].
  - destruct (String.eqb_spec k k0) as [->|Hk]; simpl.
    + destruct (String.eqb_spec a k0); [congruence|]. simpl.
      now rewrite String.eqb_refl.
    + destruct (String.eqb_spec a k0) as [->|Ha]; simpl; [exact IH|].
      destruct (String.eqb_spec k k0); [congruence|]. now rewrite IH.
Qed.

(** X16: the Anthropic and Mistral adapters ignore a [stream] inference
    kwarg altogether: with it or without it, [prepare_body] gives the same
    result and the same log. *)
Theorem prepare_body_ignores_stream
    (call : PromptHandler -> string -> ResizeInfo) (self : Adapter)
    (messages : list ChatMessage) (inference_kwargs : dict) :
  family self = AnthropicClaude \/ family self = Mistral ->
  prepare_body call self messages (dict_remove "stream" inference_kwargs)
  = prepare_body call self messages inference_kwargs.
Proof.
  assert (Hne1 : "stop_sequences" <> "stream") by discriminate.
  assert (Hne2 : "stop_words" <> "stream") by discriminate.
  assert (Hne3 : "stream" <> "stop_sequences") by discriminate.
  assert (Hne4 : "stream" <> "stop") by discriminate.
  intros [Hfam|Hfam]; unfold prepare_body; rewrite Hfam.
  - unfold anthropic_prepare_body. f_equal. f_equal.
    unfold anthropic_inference_kwargs.
    rewrite !get_default_remove by assumption.
    destruct (py_add _ _) as [stop_sequences|]; [|reflexivity]. cbn [bind].
    f_equal. rewrite (dict_remove_comm "stop_words" "stream").
    destruct (truthy stop_sequences).
    + rewrite <- dict_remove_set by assumption. apply dict_remove_idem.
    + apply dict_remove_idem.
  - unfold mistral_prepare_body. f_equal. f_equal.
    unfold mistral_inference_kwargs.
    rewrite !get_default_remove by assumption.
    rewrite (dict_remove_comm "stop_words" "stream").
    destruct (truthy _).
    + rewrite <- dict_remove_set by assumption. apply dict_remove_idem.
    + apply dict_remove_idem.
Qed.

Lemma prepare_body_ignores_stream_witness :
  prepare_body DefaultPromptHandler_call
    (mkAdapter Mistral false [] (mkPromptHandler char_tokenizer 32000 512))
    [from_user "a"]
    (dict_remove "stream" [("stream", VBool true); ("temperature", VInt 1)])
  = prepare_body DefaultPromptHandler_call
      (mkAdapter Mistral false [] (mkPromptHandler char_tokenizer 32000 512))
      [from_user "a"] [("stream", VBool true); ("temperature", VInt 1)].
Proof.
  exact (prepare_body_ignores_stream DefaultPromptHandler_call
           (mkAdapter Mistral false [] (mkPromptHandler char_tokenizer 32000 512))
           [from_user "a"] [("stream", VBool true); ("temperature", VInt 1)]
           (or_intror eq_refl)).
Defined.

(* ----------------------------------------------------------------- *)
(** *** Requests that always succeed *)

Lemma merge_value_list_origin (current : option value) (v x : value) :
  merge_value current v = Ok x -> is_list x = true ->
  is_list v = true \/ exists l, current = Some (VList l).
Proof.
  unfold merge_value. destruct current as [[| | | |old|]|];
    try (intros H Hx; injection H as <-; now left).
  intros _ _. right. now exists old.
Qed.

(** Where a list in the result of a merge comes from. *)
Lemma _update_params_list_origin (updates : dict) :
  forall (target : dict) (allowed : list string) (r : dict) (log : list LogRecord)
         (k : string) (l : list value),
    _update_params target updates allowed = (Ok r, log) ->
    dict_get k r = Some (VList l) ->
    (exists l', dict_get k target = Some (VList l'))
    \/ (In k allowed /\ exists l', In (k, VList l') updates).
Proof.
  induction updates as [|[key v] rest IH]; intros target allowed r log k l H Hk.
  - injection H as <- _. left. now exists l.
  - destruct (str_in key allowed) eqn:Hkey.
    + apply _update_params_allowed_step in H; [|exact Hkey].
      destruct H as (x & Hx & H).
      destruct (IH _ _ _ _ _ _ H Hk) as [[l' Hl']|[Hin [l' Hl']]].
      * destruct (String.eqb_spec k key) as [->|Hne].
        -- rewrite dict_get_set_same in Hl'. injection Hl' as ->.
           destruct (merge_value_list_origin _ _ _ Hx eq_refl) as [Hv|Hc].
           ++ right. split; [now apply str_in_In|].
              destruct v; try discriminate Hv. eexists. now left.
           ++ now left.
        -- rewrite dict_get_set_other in Hl' by assumption. left. now exists l'.
      * right. split; [assumption|]. exists l'. now right.
    + apply _update_params_step in H.
      destruct H as [(_ & log' & H & _) | (Hyes & _)]; [|congruence].
      destruct (IH _ _ _ _ _ _ H Hk) as [?|[Hin [l' Hl']]]; [now left|].
      right. split; [assumption|]. exists l'. now right.
Qed.

(** A merge in which no allowed key of the updates meets a list in the
    target returns. *)
Lemma _update_params_no_merge (updates : dict) :
  forall (target : dict) (allowed : list string),
    wf_dict updates ->
    (forall k l, In k (keys updates) -> In k allowed ->
                 dict_get k target <> Some (VList l)) ->
    exists r log, _update_params target updates allowed = (Ok r, log).
Proof.
  unfold wf_dict.
  induction updates as [|[key v] rest IH]; intros target allowed Hwf Hno.
  - now exists target, [].
  - cbn [keys map fst] in Hwf. inversion Hwf as [|? ? Hnotin Hwf']; subst.
    cbn [_update_params]. destruct (str_in key allowed) eqn:Hkey; cbn [negb].
    + assert (Hstep : exists x,
                 _update_params target ((key, v) :: rest) allowed
                 = _update_params (dict_set key x target) rest allowed).
      { cbn [_update_params]. rewrite Hkey. cbn [negb].
        destruct (dict_get key target) as [[| | | |old|]|] eqn:Hc;
          try (now exists v).
        exfalso. apply (Hno key old); [now left | now apply str_in_In | exact Hc]. }
      destruct Hstep as [x Hstep]. cbn [_update_params] in Hstep.
      rewrite Hkey in Hstep. cbn [negb] in Hstep. rewrite Hstep.
      apply IH; [exact Hwf'|]. intros k l Hk Hin.
      rewrite dict_get_set_other by (intros ->; now apply Hnotin).
      apply Hno; [now right | exact Hin].
    + destruct (IH target allowed Hwf') as (r & log & H).
      * intros k l Hk Hin. apply Hno; [now right | exact Hin].
      * exists r, (not_allowed_warning key :: log). unfold lbind, logger_warning.
        now rewrite H.
Qed.

Lemma default_params_no_list (self : Adapter) (k : string) (l : list value) :
  (forall k l, In k (ALLOWED_PARAMS (family self)) ->
               ~ In (k, VList l) (generation_kwargs self)) ->
  match family self with
  | AnthropicClaude => dict_get k (anthropic_default_params self) <> Some (VList l)
  | Mistral => dict_get k (mistral_default_params self) <> Some (VList l)
  | MetaLlama2 => dict_get k (llama2_default_params self) <> Some (VList l)
  end.
Proof.
  intros Hno.
  assert (Hor : forall key, In key (ALLOWED_PARAMS (family self)) ->
            forall d, is_list d = false ->
            py_or (dict_get key (generation_kwargs self)) d <> VList l).
  { intros key Hkey d Hd. unfold py_or.
    destruct (dict_get key (generation_kwargs self)) as [v|] eqn:Hv.
    - destruct (truthy v).
      + intros ->. apply (Hno key l Hkey). now apply dict_get_In.
      + intros ->. discriminate.
    - intros ->. discriminate. }
  destruct (family self); simpl;
    repeat match goal with
           | |- context [String.eqb k ?s] => destruct (String.eqb k s)
           end;
    try discriminate;
    intros E; injection E as E; revert E; apply Hor; simpl; tauto.
Qed.

(** X17: the Mistral and Meta Llama 2 adapters return a body for every
    conversation their template accepts (not empty, user messages exactly at
    the even positions after an optional system message), whatever the
    inference kwargs, as long as no allowed generation kwarg of the adapter
    is a list. *)
Theorem templated_prepare_body_returns
    (call : PromptHandler -> string -> ResizeInfo) (self : Adapter)
    (messages : list ChatMessage) (inference_kwargs : dict) :
  family self = Mistral \/ family self = MetaLlama2 ->
  wf_dict (generation_kwargs self) -> wf_dict inference_kwargs ->
  (forall k l, In k (ALLOWED_PARAMS (family self)) ->
               ~ In (k, VList l) (generation_kwargs self)) ->
  messages <> [] -> user_parity true (after_system messages) = true ->
  exists body log,
    prepare_body call self messages inference_kwargs = (Ok body, log).
Proof.
  intros Hfam Hwfg Hwfi Hno Hne Hpar.
  assert (Hmerge : forall kw dp,
             wf_dict kw ->
             (forall k l, dict_get k dp <> Some (VList l)) ->
             exists params log,
               _get_params self kw dp (ALLOWED_PARAMS (family self))
               = (Ok params, log)).
  { intros kw dp Hwfkw Hdp. unfold _get_params.
    destruct (_update_params_no_merge (generation_kwargs self) dp
                (ALLOWED_PARAMS (family self)) Hwfg) as (kw1 & l1 & H1).
    { intros k l _ _. apply Hdp. }
    destruct (_update_params_no_merge kw kw1 (ALLOWED_PARAMS (family self)) Hwfkw)
      as (params & l2 & H2).
    { intros k l _ Hin Hk.
      destruct (_update_params_list_origin _ _ _ _ _ _ _ H1 Hk)
        as [[l' Hl']|[_ [l' Hl']]].
      - now apply (Hdp k l').
      - now apply (Hno k l'). }
    exists params, (l1 ++ l2). unfold lbind. now rewrite H1, H2. }
  assert (Hchat : exists prompt log,
             templated_prepare_chat_messages call self messages = (Ok prompt, log)).
  { unfold templated_prepare_chat_messages.
    destruct (apply_chat_template_ok self messages Hne Hpar) as [p Hp].
    rewrite Hp. unfold lift. cbn [lbind app]. destruct (truncate self).
    - destruct (_ensure_token_limit_returns call self p) as [log ->].
      now eexists; eexists.
    - now eexists; eexists. }
  destruct Hchat as (prompt & log2 & Hc).
  pose proof (fun k l => default_params_no_list self k l Hno) as Hdp.
  unfold prepare_body. destruct Hfam as [Hfam|Hfam]; rewrite Hfam in *.
  - destruct (Hmerge (mistral_inference_kwargs inference_kwargs)
                (mistral_default_params self)) as (params & log1 & Hp).
    + unfold mistral_inference_kwargs.
      apply wf_dict_remove. destruct (truthy _);
        [apply wf_dict_set|]; now apply wf_dict_remove.
    + exact Hdp.
    + unfold mistral_prepare_body. rewrite Hp. cbn [lbind]. rewrite Hc.
      cbn [lbind lret]. now eexists; eexists.
  - destruct (Hmerge inference_kwargs (llama2_default_params self) Hwfi Hdp)
      as (params & log1 & Hp).
    unfold llama2_prepare_body. rewrite Hp. cbn [lbind]. rewrite Hc.
    cbn [lbind lret]. now eexists; eexists.
Qed.

Lemma templated_prepare_body_returns_witness :
  exists body log,
    prepare_body DefaultPromptHandler_call
      (mkAdapter MetaLlama2 false [("temperature", VInt 0)]
         (mkPromptHandler char_tokenizer 4096 512))
      [from_user "a"] [("top_p", VList [VList []])]
    = (Ok body, log).
Proof.
  refine (templated_prepare_body_returns DefaultPromptHandler_call
            (mkAdapter MetaLlama2 false [("temperature", VInt 0)]
               (mkPromptHandler char_tokenizer 4096 512))
            [from_user "a"] [("top_p", VList [VList []])]
            (or_intror eq_refl) _ _ _ _ eq_refl).
  - unfold wf_dict. simpl. repeat constructor. intros [].
  - unfold wf_dict. simpl. repeat constructor. intros [].
  - intros k l _ [H|[]]. discriminate H.
  - discriminate.
Defined.

(* ----------------------------------------------------------------- *)
(** *** Construction and truncation *)

(** X18: what [__init__] leaves behind.  [model_max_length] is taken out of
    the generation kwargs (every other entry stays) and becomes the handler's
    limit, the family's default when absent; the reserved length is the
    family's length kwarg, with 512 standing in when it is absent or zero;
    the Meta Llama 2 adapter fixes the special tokens. *)
Theorem init_configures_prompt_handler (f : Family) (tok : Tokenizer)
    (truncation : bool) (kwargs : dict) (self : Adapter) :
  init f tok truncation kwargs = Some self ->
  family self = f /\ truncate self = truncation
  /\ dict_get "model_max_length" (generation_kwargs self) = None
  /\ (forall k, k <> "model_max_length" ->
                dict_get k (generation_kwargs self) = dict_get k kwargs)
  /\ (dict_get "model_max_length" kwargs = None ->
      model_max_length (prompt_handler self) = default_model_max_length f)
  /\ (forall z, dict_get "model_max_length" kwargs = Some (VInt z) ->
                model_max_length (prompt_handler self) = z)
  /\ (dict_get (max_length_key f) kwargs = None
      \/ dict_get (max_length_key f) kwargs = Some (VInt 0) ->
      max_length (prompt_handler self) = 512)
  /\ (forall z, z <> 0 -> dict_get (max_length_key f) kwargs = Some (VInt z) ->
                max_length (prompt_handler self) = z)
  /\ (f = MetaLlama2 ->
      bos_token (tokenizer (prompt_handler self)) = "<s>"
      /\ eos_token (tokenizer (prompt_handler self)) = "</s>").
Proof.
  unfold init. intros H.
  assert (Hkey : dict_get (max_length_key f) (dict_remove "model_max_length" kwargs)
                 = dict_get (max_length_key f) kwargs).
  { rewrite dict_get_remove. now destruct f. }
  rewrite Hkey in H.
  destruct (int_config _) as [a|] eqn:Ha; [|discriminate].
  destruct (int_config (py_or _ _)) as [b|] eqn:Hb; [|discriminate].
  injection H as <-. cbn [family truncate generation_kwargs prompt_handler
                           model_max_length max_length tokenizer].
  split; [reflexivity|]. split; [reflexivity|].
  split; [rewrite dict_get_remove; reflexivity|].
  split.
  { intros k Hk. rewrite dict_get_remove.
    destruct (String.eqb_spec "model_max_length" k); [congruence | reflexivity]. }
  split; [intros E; rewrite E in Ha; now injection Ha as <-|].
  split; [intros z E; rewrite E in Ha; now injection Ha as <-|].
  split.
  { intros [E|E]; rewrite E in Hb; now injection Hb as <-. }
  split.
  { intros z Hz E. rewrite E in Hb. unfold py_or, truthy in Hb.
    destruct (Z.eqb_spec z 0); [congruence|]. now injection Hb as <-. }
  intros ->. now split.
Qed.

Lemma init_configures_prompt_handler_witness :
  dict_get "model_max_length"
    (generation_kwargs
       (mkAdapter MetaLlama2 true [("max_gen_len", VInt 0)]
          (mkPromptHandler
             (mkTokenizer (encode char_tokenizer) (decode char_tokenizer) "<s>" "</s>")
             2048 512)))
  = None
  /\ max_length
       (prompt_handler
          (mkAdapter MetaLlama2 true [("max_gen_len", VInt 0)]
             (mkPromptHandler
                (mkTokenizer (encode char_tokenizer) (decode char_tokenizer)
                   "<s>" "</s>")
                2048 512)))
     = 512.
Proof.
  split.
  - exact (proj1 (proj2 (proj2 (init_configures_prompt_handler MetaLlama2
             char_tokenizer true
             [("model_max_length", VInt 2048); ("max_gen_len", VInt 0)]
             _ eq_refl)))).
  - exact (proj1 (proj2 (proj2 (proj2 (proj2 (proj2 (proj2
             (init_configures_prompt_handler MetaLlama2 char_tokenizer true
                [("model_max_length", VInt 2048); ("max_gen_len", VInt 0)]
                _ eq_refl)))))))
           (or_intror eq_refl)).
Defined.

Lemma _ensure_token_limit_log
    (call : PromptHandler -> string -> ResizeInfo) (self : Adapter)
    (prompt : string) :
  _ensure_token_limit call self prompt
  = (Ok (resized_prompt (check_prompt call self prompt)),
     truncation_log (check_prompt call self prompt)).
Proof.
  unfold _ensure_token_limit, lbind, logger_warning, lret, truncation_log.
  rewrite app_nil_r.
  now destruct (prompt_length (check_prompt call self prompt)
                =? new_prompt_length (check_prompt call self prompt)).
Qed.

Lemma lmapM_ensure_token_limit_log
    (call : PromptHandler -> string -> ResizeInfo) (self : Adapter)
    (kept : list ChatMessage) :
  snd (lmapM (fun m => text <~ _ensure_token_limit call self (content m) ;;
                       lret (_to_anthropic_message (with_content m text))) kept)
  = flat_map (fun m => truncation_log (check_prompt call self (content m))) kept.
Proof.
  induction kept as [|m kept IH]; [reflexivity|].
  cbn [lmapM flat_map]. rewrite _ensure_token_limit_log.
  destruct (lmapM_ensure_token_limit call self kept) as [log E].
  rewrite E in *. cbn [snd] in IH. subst log.
  unfold lbind, lret. cbn [snd app]. now rewrite !app_nil_r.
Qed.

(** X19: where truncation applies when it is switched on.  The Anthropic
    adapter hands every user and assistant text to the prompt handler on its
    own and logs one warning for each text whose token count changed, in
    message order; the Mistral and Meta Llama 2 adapters hand over the whole
    formatted prompt once and return the handler's resized prompt. *)
Theorem truncation_scope (call : PromptHandler -> string -> ResizeInfo)
    (self : Adapter) (messages : list ChatMessage) :
  truncate self = true ->
  (exists body,
      anthropic_prepare_chat_messages call self messages
      = (Ok body,
         flat_map (fun m => truncation_log (check_prompt call self (content m)))
           (filter user_or_assistant messages)))
  /\ (forall prompt,
         apply_chat_template self messages = Ok prompt ->
         templated_prepare_chat_messages call self messages
         = (Ok (resized_prompt (check_prompt call self prompt)),
            truncation_log (check_prompt call self prompt))).
Proof.
  intros Htr. split.
  - unfold anthropic_prepare_chat_messages. rewrite Htr.
    pose proof (lmapM_ensure_token_limit_log call self
                  (filter user_or_assistant messages)) as Hlog.
    destruct (lmapM_ensure_token_limit call self
                (filter user_or_assistant messages)) as [log E].
    rewrite E in *. cbn [snd] in Hlog. subst log.
    unfold lbind, lret. rewrite app_nil_r. eexists. reflexivity.
  - intros prompt Hp. unfold templated_prepare_chat_messages.
    rewrite Hp, Htr. unfold lift. cbn [lbind].
    rewrite _ensure_token_limit_log. reflexivity.
Qed.

Lemma truncation_scope_witness :
  templated_prepare_chat_messages DefaultPromptHandler_call
    (mkAdapter Mistral true [] (mkPromptHandler char_tokenizer 20 10))
    [from_user "hello"]
  = (Ok (resized_prompt
           (check_prompt DefaultPromptHandler_call
              (mkAdapter Mistral true [] (mkPromptHandler char_tokenizer 20 10))
              "<s>[INST] hello [/INST]")),
     truncation_log
       (check_prompt DefaultPromptHandler_call
          (mkAdapter Mistral true [] (mkPromptHandler char_tokenizer 20 10))
          "<s>[INST] hello [/INST]")).
Proof.
  exact (proj2 (truncation_scope DefaultPromptHandler_call
                  (mkAdapter Mistral true [] (mkPromptHandler char_tokenizer 20 10))
                  [from_user "hello"] eq_refl)
               "<s>[INST] hello [/INST]" eq_refl).
Defined.
